(** * Plot-data model of the 2D canvas editor

    A shallow embedding of the data layer of the editor
    ([PointData2D], [PolylineData2D], [PolygonData2D], [Canvas2DPlotData]),
    of [Canvas2DQViewModel.delete_point_near] and of the boundary / obstacle
    extraction of [GaDPPRunnerQWidget], followed by the properties of the
    specification that concern them.

    Python objects are mutated in place; here every method takes the object
    and returns the updated object (with the returned value, if any, in
    front).  A call that can raise returns an [option]: [None] stands for
    the exception, which leaves the objects as they were.  Log calls have
    no effect on the state and are left out, and so is the payload-free
    [data_changed] notification. *)

From stdpp Require Import base list strings.
From Stdlib Require Import ZArith Lia.
From Stdlib Require PrimFloat FloatOps SpecFloat QArith.

Set Default Proof Using "Type*".

(** ** Numbers

    Coordinates and thresholds are Python numbers; a value of type [num]
    stands for one number object.  The code compares them with [==], [!=]
    and [<=]; these are kept abstract, so that results hold for every
    interpretation of them and no law (such as reflexivity of [==], which
    fails for NaN) is used unless a statement lists it. *)

Class Number (num : Type) := {
  num_eqb : num → num → bool;      (* a == b *)
  num_leb : num → num → bool;      (* a <= b *)
}.

(** [a != b] *)
Definition num_neb `{Number num} (a b : num) : bool := negb (num_eqb a b).

(** The arithmetic of [distance_to].  On floats [-] and [+] return a float
    for all arguments, while a power is computed by the C library and
    CPython raises OverflowError when its result is out of range: [None].
    What the powers compute is left to the instance. *)

Class Arithmetic (num : Type) := {
  num_add : num → num → num;           (* a + b *)
  num_sub : num → num → num;           (* a - b *)
  num_pow2 : num → option num;         (* a ** 2 *)
  num_pow_half : num → option num;     (* a ** 0.5 *)
}.

(** The elements of two lists are compared as [==] on lists compares them:
    two elements are equal when they are the same object, or else when
    [==] holds of them.  An object is the same as itself, also when it is
    NaN. *)

Class Identity (num : Type) `{Number num} := {
  num_same : num → num → bool;         (* a is b or a == b *)
  num_same_refl a : num_same a a = true;
  num_eqb_same a b : num_eqb a b = true → num_same a b = true;
}.

(** Python integers, used for the concrete runs of the shapes, of the store
    and of the extraction.  [==] is reflexive on them, so that two elements
    are equal as list elements exactly when they are [==]. *)
#[export] Instance Z_number : Number Z := {|
  num_eqb := Z.eqb;
  num_leb := Z.leb;
|}.

#[export] Instance Z_identity : Identity Z := {|
  num_same := Z.eqb;
  num_same_refl := Z.eqb_refl;
  num_eqb_same := λ a b Hab, Hab;
|}.

(** Python floats, used for the concrete runs of the hit test: binary64
    numbers with the comparisons, the sum and the difference of IEEE 754.
    [a ** 2] and [a ** 0.5] are taken as the correctly rounded product and
    square root.  The power of the C library, which CPython calls, returns
    these on the arguments of the runs below; on other arguments it can
    differ from them in the last place, which is why the general results
    are stated for every instance of [Arithmetic].  A finite number whose
    square is out of range raises OverflowError, while the square of an
    infinity or of NaN is returned.  The root of a negative number is a
    complex number, which [<=] refuses with TypeError; [distance_to] takes
    the root of a sum of squares only. *)
Module Binary64.
Import PrimFloat.

Definition pow2 (a : float) : option float :=
  let r := (a * a)%float in
  if is_infinity r && negb (is_infinity a) then None else Some r.

Definition pow_half (a : float) : option float :=
  if (a <? 0)%float && negb (is_infinity a) then None
  else Some (sqrt (abs a)).

(** The rational number a finite float stands for. *)
Definition value (a : float) : option QArith_base.Q :=
  match FloatOps.Prim2SF a with
  | SpecFloat.S754_zero _ => Some (QArith_base.inject_Z 0)
  | SpecFloat.S754_finite s m e =>
      Some (QArith_base.Qmult
              (QArith_base.inject_Z (if s then Z.neg m else Z.pos m))
              (QArith_base.Qpower (QArith_base.inject_Z 2) e))
  | _ => None
  end.
End Binary64.

#[export] Instance float_number : Number PrimFloat.float := {|
  num_eqb := PrimFloat.eqb;
  num_leb := PrimFloat.leb;
|}.

#[export] Instance float_arithmetic : Arithmetic PrimFloat.float := {|
  num_add := PrimFloat.add;
  num_sub := PrimFloat.sub;
  num_pow2 := Binary64.pow2;
  num_pow_half := Binary64.pow_half;
|}.

(** Float objects, used for the concrete runs of the extraction on NaN: a
    float together with the address of the object that holds it.  Two
    objects are the same object when they have the same address. *)
Module FloatObject.
Record t := mk {
  address : N;
  value : PrimFloat.float;
}.

Definition eqb (a b : t) : bool := PrimFloat.eqb (value a) (value b).

Definition leb (a b : t) : bool := PrimFloat.leb (value a) (value b).

(** [a is b or a == b] *)
Definition same (a b : t) : bool := (address a =? address b)%N || eqb a b.
End FloatObject.

#[export] Instance object_number : Number FloatObject.t := {|
  num_eqb := FloatObject.eqb;
  num_leb := FloatObject.leb;
|}.

#[export] Instance object_identity : Identity FloatObject.t := {|
  num_same := FloatObject.same;
  num_same_refl := λ a,
    orb_true_intro _ _ (or_introl (N.eqb_refl (FloatObject.address a)));
  num_eqb_same := λ a b Hab, orb_true_intro _ _ (or_intror Hab);
|}.

(** ** Python helpers *)

(** [s.endswith(suffix)] *)
Fixpoint endswith (s suffix : string) : bool :=
  if String.eqb s suffix then true
  else match s with
       | EmptyString => false
       | String _ s' => endswith s' suffix
       end.

(** [l.insert(i, x)] for [0 <= i <= len(l)] *)
Definition list_insert_at {A} (i : nat) (x : A) (l : list A) : list A :=
  take i l ++ x :: drop i l.

(** The last [n] entries of a list. *)
Definition lastn {A} (n : nat) (l : list A) : list A :=
  drop (length l - n) l.

(** ** point_data_2d.py *)

Module PointData2D.
Section defs.
Context {num : Type} `{Number num} `{Arithmetic num}.

Record t := mk {
  id : string;
  color : string;
  update : bool;
  x : num;
  y : num;
  deletable : bool;
}.

(** [PointData2D(id, x, y, color, deletable, update)] *)
Definition init (id : string) (x y : num) (color : string)
    (deletable update : bool) : t :=
  mk id color update x y deletable.

Definition set_update (self : t) (value : bool) : t :=
  mk (id self) (color self) value (x self) (y self) (deletable self).

(** [((self._x - x) ** 2 + (self._y - y) ** 2) ** 0.5]; [None] when one
    of the powers raises. *)
Definition distance_to (self : t) (x0 y0 : num) : option num :=
  dx2 ← num_pow2 (num_sub (x self) x0);
  dy2 ← num_pow2 (num_sub (y self) y0);
  num_pow_half (num_add dx2 dy2).
End defs.
Arguments t num : clear implicits.
End PointData2D.

(** ** polygon_data_2d.py *)

Module PolygonData2D.
Section defs.
Context {num : Type} `{Number num}.

Record t := mk {
  id : string;
  color : string;
  update : bool;
  points : list (PointData2D.t num);
  closed : bool;
}.

Definition set_points (self : t) (pts : list (PointData2D.t num)) : t :=
  mk (id self) (color self) (update self) pts (closed self).
Definition set_closed (self : t) (b : bool) : t :=
  mk (id self) (color self) (update self) (points self) b.
Definition set_update (self : t) (b : bool) : t :=
  mk (id self) (color self) b (points self) (closed self).

(** The point [_ensure_closed] synthesises from the first point. *)
Definition closing_point (first_point : PointData2D.t num) : PointData2D.t num :=
  PointData2D.init (PointData2D.id first_point +:+ "_close")
    (PointData2D.x first_point) (PointData2D.y first_point)
    (PointData2D.color first_point) false true.

Definition _ensure_closed (self : t) : t :=
  if (3 <=? length (points self)) && negb (closed self) then
    match head (points self), last (points self) with
    | Some first_point, Some last_point =>
        let self1 :=
          if num_neb (PointData2D.x first_point) (PointData2D.x last_point)
             || num_neb (PointData2D.y first_point) (PointData2D.y last_point)
          then set_points self (points self ++ [closing_point first_point])
          else self in
        set_closed self1 true
    | _, _ => self (* not reached: the list has three entries or more *)
    end
  else self.

(** [PolygonData2D(id, points, color, update)]; [None] for [points] is the
    empty list. *)
Definition init (id : string) (points0 : option (list (PointData2D.t num)))
    (color : string) (update : bool) : t :=
  let self := mk id color update (default [] points0) false in
  if 3 <=? length (points self) then _ensure_closed self else self.

Definition add_point (self : t) (point : PointData2D.t num) : t :=
  let self1 :=
    if closed self && (3 <=? length (points self)) then
      let insert_index := length (points self) - 1 in
      set_points self (list_insert_at insert_index point (points self))
    else
      let self' := set_points self (points self ++ [point]) in
      if 3 <=? length (points self') then _ensure_closed self' else self' in
  set_update self1 true.

Definition remove_point (self : t) (point_id : string) : bool * t :=
  match list_find (λ p, PointData2D.id p = point_id) (points self) with
  | Some (i, point) =>
      if negb (PointData2D.deletable point) then (false, self)
      else
        let self1 := set_points self (delete i (points self)) in
        let self2 :=
          if length (points self1) <? 3 then
            let self' := set_closed self1 false in
            match last (points self') with
            | Some last_point =>
                if endswith (PointData2D.id last_point) "_close"
                then set_points self' (removelast (points self'))
                else self'
            | None => self'
            end
          else _ensure_closed self1 in
        (true, set_update self2 true)
  | None => (false, self)
  end.

Definition get_point_by_id (self : t) (point_id : string)
    : option (PointData2D.t num) :=
  snd <$> list_find (λ p, PointData2D.id p = point_id) (points self).
End defs.
Arguments t num : clear implicits.
End PolygonData2D.

(** ** polyline_data_2d.py *)

Module PolylineData2D.
Section defs.
Context {num : Type} `{Number num}.

Record t := mk {
  id : string;
  color : string;
  update : bool;
  points : list (PointData2D.t num);
}.

Definition set_points (self : t) (pts : list (PointData2D.t num)) : t :=
  mk (id self) (color self) (update self) pts.
Definition set_update (self : t) (b : bool) : t :=
  mk (id self) (color self) b (points self).

(** [PolylineData2D(id, points, color, update)] *)
Definition init (id : string) (points0 : option (list (PointData2D.t num)))
    (color : string) (update : bool) : t :=
  mk id color update (default [] points0).

Definition add_point (self : t) (point : PointData2D.t num) : t :=
  set_update (set_points self (points self ++ [point])) true.

Definition remove_point (self : t) (point_id : string) : bool * t :=
  match list_find (λ p, PointData2D.id p = point_id) (points self) with
  | Some (i, _) =>
      (true, set_update (set_points self (delete i (points self))) true)
  | None => (false, self)
  end.

Definition get_point_by_id (self : t) (point_id : string)
    : option (PointData2D.t num) :=
  snd <$> list_find (λ p, PointData2D.id p = point_id) (points self).
End defs.
Arguments t num : clear implicits.
End PolylineData2D.

(** ** plot_data_2d_enum.py and base_2d_plot_data.py

    The three subclasses of [Base2DPlotData] form a closed sum; an
    [isinstance] chain is a match on it. *)

Inductive PlotData2D := POINT | POLYLINE | POLYGON.

#[export] Instance PlotData2D_eq_dec : EqDecision PlotData2D.
Proof. solve_decision. Defined.

Module Base2DPlotData.
Section defs.
Context {num : Type} `{Number num}.

Inductive t :=
  | Point (p : PointData2D.t num)
  | Polyline (pl : PolylineData2D.t num)
  | Polygon (pg : PolygonData2D.t num).

Definition id (plot : t) : string :=
  match plot with
  | Point p => PointData2D.id p
  | Polyline pl => PolylineData2D.id pl
  | Polygon pg => PolygonData2D.id pg
  end.

Definition color (plot : t) : string :=
  match plot with
  | Point p => PointData2D.color p
  | Polyline pl => PolylineData2D.color pl
  | Polygon pg => PolygonData2D.color pg
  end.

Definition type (plot : t) : PlotData2D :=
  match plot with
  | Point _ => POINT
  | Polyline _ => POLYLINE
  | Polygon _ => POLYGON
  end.

Definition update (plot : t) : bool :=
  match plot with
  | Point p => PointData2D.update p
  | Polyline pl => PolylineData2D.update pl
  | Polygon pg => PolygonData2D.update pg
  end.

Definition set_update (plot : t) (value : bool) : t :=
  match plot with
  | Point p => Point (PointData2D.set_update p value)
  | Polyline pl => Polyline (PolylineData2D.set_update pl value)
  | Polygon pg => Polygon (PolygonData2D.set_update pg value)
  end.

(** [plot.points], which the code reads only after it has checked that the
    plot is a polyline or a polygon. *)
Definition points (plot : t) : list (PointData2D.t num) :=
  match plot with
  | Point _ => []
  | Polyline pl => PolylineData2D.points pl
  | Polygon pg => PolygonData2D.points pg
  end.
End defs.
Arguments t num : clear implicits.
End Base2DPlotData.

(** ** Python dictionaries

    A [dict] keeps its keys in insertion order, and the code depends on that
    order (the first match wins in [delete_point_near], the first polygon is
    the boundary): an association list, in which assignment to a present key
    keeps the key's place and assignment to a new key appends. *)

Abbreviation dict V := (list (string * V)).

Section dict.
Context {V : Type}.
Implicit Types d : dict V.

(** [k in d] *)
Definition dict_contains (k : string) (d : dict V) : bool :=
  bool_decide (k ∈ d.*1).

(** [d[k] = v] *)
Definition dict_set (k : string) (v : V) (d : dict V) : dict V :=
  if dict_contains k d
  then (λ kv, if decide (kv.1 = k) then (kv.1, v) else kv) <$> d
  else d ++ [(k, v)].

(** [del d[k]] *)
Definition dict_del (k : string) (d : dict V) : dict V :=
  filter (λ kv, kv.1 ≠ k) d.

(** [d.get(k)] *)
Definition dict_get (k : string) (d : dict V) : option V :=
  (λ r, r.2.2) <$> list_find (λ kv, kv.1 = k) d.

(** [d.values()] *)
Definition dict_values (d : dict V) : list V := d.*2.
End dict.

(** ** canvas_2d_plot_data.py *)

Module Canvas2DPlotData.
Section defs.
Context {num : Type} `{Number num}.

Abbreviation plot := (Base2DPlotData.t num).

(** The lists grow at their right end, as Python's [append] and [pop] do. *)
Record t := mk {
  _plots : dict plot;
  _undo_stack : list (dict plot);
  _redo_stack : list (dict plot);
}.

Definition init : t := mk [] [] [].

(** [PointData2D(p.id, p.x, p.y, p.color, p.deletable, False)] *)
Definition copy_point (p : PointData2D.t num) : PointData2D.t num :=
  PointData2D.init (PointData2D.id p) (PointData2D.x p) (PointData2D.y p)
    (PointData2D.color p) (PointData2D.deletable p) false.

(** One branch of the [isinstance] chain that copies a plot.  The copy of
    a polyline or polygon is built by its constructor. *)
Definition copy_plot (p : plot) : plot :=
  match p with
  | Base2DPlotData.Point p => Base2DPlotData.Point (copy_point p)
  | Base2DPlotData.Polyline pl =>
      let points_copy := copy_point <$> PolylineData2D.points pl in
      Base2DPlotData.Polyline
        (PolylineData2D.init (PolylineData2D.id pl) (Some points_copy)
           (PolylineData2D.color pl) false)
  | Base2DPlotData.Polygon pg =>
      let points_copy := copy_point <$> PolygonData2D.points pg in
      Base2DPlotData.Polygon
        (PolygonData2D.init (PolygonData2D.id pg) (Some points_copy)
           (PolygonData2D.color pg) false)
  end.

(** The loop [for plot_id, plot in self._plots.items(): state_copy[plot_id]
    = ...], which [_save_state_for_undo], [undo] and [redo] each spell
    out. *)
Definition copy_state (plots : dict plot) : dict plot :=
  foldl (λ state_copy kv, dict_set kv.1 (copy_plot kv.2) state_copy) [] plots.

(** The loop [for plot in self._plots.values(): plot.update = value]. *)
Definition set_all_update (value : bool) (plots : dict plot) : dict plot :=
  (λ kv, (kv.1, Base2DPlotData.set_update kv.2 value)) <$> plots.

Definition _save_state_for_undo (self : t) : t :=
  let state_copy := copy_state (_plots self) in
  let undo1 := _undo_stack self ++ [state_copy] in
  let undo2 := if 100 <? length undo1 then tail undo1 else undo1 in
  mk (_plots self) undo2 [].

Definition save_state_for_undo (self : t) : t := _save_state_for_undo self.

Definition add_plot (self : t) (p : plot) : t :=
  let self1 := _save_state_for_undo self in
  mk (dict_set (Base2DPlotData.id p) (Base2DPlotData.set_update p true)
        (_plots self1))
     (_undo_stack self1) (_redo_stack self1).

Definition remove_plot (self : t) (plot_id : string) : bool * t :=
  if dict_contains plot_id (_plots self) then
    let self1 := _save_state_for_undo self in
    (true, mk (dict_del plot_id (_plots self1))
              (_undo_stack self1) (_redo_stack self1))
  else (false, self).

Definition get_plot (self : t) (plot_id : string) : option plot :=
  dict_get plot_id (_plots self).

Definition get_all_plots (self : t) : list plot := dict_values (_plots self).

Definition get_plots_to_update (self : t) : list plot :=
  filter (λ p, Base2DPlotData.update p = true) (dict_values (_plots self)).

Definition mark_all_updated (self : t) : t :=
  mk (set_all_update false (_plots self)) (_undo_stack self) (_redo_stack self).

Definition undo (self : t) : bool * t :=
  match last (_undo_stack self) with
  | None => (false, self)
  | Some previous_state =>
      let current_state := copy_state (_plots self) in
      (true, mk (set_all_update true previous_state)
                (removelast (_undo_stack self))
                (_redo_stack self ++ [current_state]))
  end.

Definition redo (self : t) : bool * t :=
  match last (_redo_stack self) with
  | None => (false, self)
  | Some next_state =>
      let current_state := copy_state (_plots self) in
      (true, mk (set_all_update true next_state)
                (_undo_stack self ++ [current_state])
                (removelast (_redo_stack self)))
  end.

Definition clear (self : t) : t :=
  let self1 := _save_state_for_undo self in
  mk [] (_undo_stack self1) (_redo_stack self1).
End defs.
Arguments t num : clear implicits.
End Canvas2DPlotData.

(** ** canvas_2d_qviewmodel.py *)

Module Canvas2DQViewModel.
Section defs.
Context {num : Type} `{Number num} `{Arithmetic num}.

Abbreviation plot := (Base2DPlotData.t num).

Record t := mk {
  _plot_data : Canvas2DPlotData.t num;
  _current_plot_type : PlotData2D;
  _current_plot_id : option string;
}.

Definition init : t := mk Canvas2DPlotData.init POINT None.

Definition plot_data (self : t) : Canvas2DPlotData.t num := _plot_data self.

Definition set_plot_data (self : t) (pd : Canvas2DPlotData.t num) : t :=
  mk pd (_current_plot_type self) (_current_plot_id self).

(** [point.deletable and point.distance_to(x, y) <= threshold]: the
    distance of a point that is not deletable is not computed. *)
Definition hit (x y threshold : num) (point : PointData2D.t num)
    : option bool :=
  if PointData2D.deletable point
  then distance ← PointData2D.distance_to point x y;
       Some (num_leb distance threshold)
  else Some false.

(** The loop [for point in plot.points] up to the first point that passes
    the test; [None] when the test raises before. *)
Fixpoint first_hit (x y threshold : num) (points : list (PointData2D.t num))
    : option (option (PointData2D.t num)) :=
  match points with
  | [] => Some None
  | point :: rest =>
      match hit x y threshold point with
      | None => None
      | Some true => Some (Some point)
      | Some false => first_hit x y threshold rest
      end
  end.

(** [plot.remove_point(point_id)] on a polyline or polygon; the returned
    flag is dropped by the caller. *)
Definition plot_remove_point (p : plot) (point_id : string) : plot :=
  match p with
  | Base2DPlotData.Point _ => p
  | Base2DPlotData.Polyline pl =>
      Base2DPlotData.Polyline (PolylineData2D.remove_point pl point_id).2
  | Base2DPlotData.Polygon pg =>
      Base2DPlotData.Polygon (PolygonData2D.remove_point pg point_id).2
  end.

(** The loop [for plot in self._plot_data.get_all_plots()], run on the
    plots from position [j] on.  [plot.remove_point] mutates the object
    that sits at position [j] of the store's dictionary.  Nothing is
    changed before the test of a point has come out true, so that a test
    that raises leaves the store as it was. *)
Fixpoint delete_point_near_loop (pd : Canvas2DPlotData.t num)
    (x y threshold : num) (j : nat) (plots : list plot)
    : option (bool * Canvas2DPlotData.t num) :=
  match plots with
  | [] => Some (false, pd)
  | p :: rest =>
      match p with
      | Base2DPlotData.Point pt =>
          match hit x y threshold pt with
          | None => None
          | Some true =>
              Some (true,
                    (Canvas2DPlotData.remove_plot pd (PointData2D.id pt)).2)
          | Some false => delete_point_near_loop pd x y threshold (S j) rest
          end
      | _ =>
          match first_hit x y threshold (Base2DPlotData.points p) with
          | None => None
          | Some (Some point) =>
              let pd1 := Canvas2DPlotData.save_state_for_undo pd in
              let plots1 :=
                alter (λ kv, (kv.1, plot_remove_point kv.2 (PointData2D.id point)))
                      j (Canvas2DPlotData._plots pd1) in
              Some (true, Canvas2DPlotData.mk plots1
                            (Canvas2DPlotData._undo_stack pd1)
                            (Canvas2DPlotData._redo_stack pd1))
          | Some None => delete_point_near_loop pd x y threshold (S j) rest
          end
      end
  end.

(** [None]: the call raises, and the view model is as it was. *)
Definition delete_point_near (self : t) (x y threshold : num)
    : option (bool * t) :=
  r ← delete_point_near_loop (_plot_data self) x y threshold 0
        (Canvas2DPlotData.get_all_plots (_plot_data self));
  Some (r.1, set_plot_data self r.2).

Definition current_plot_type (self : t) : PlotData2D := _current_plot_type self.

(** [self.current_plot_type = value] *)
Definition set_current_plot_type (self : t) (value : PlotData2D) : t :=
  mk (_plot_data self) value None.

Definition clear_current_plot (self : t) : t :=
  mk (_plot_data self) (_current_plot_type self) None.

(** The value [undo] and [redo] of the store return is only logged. *)
Definition undo (self : t) : t :=
  set_plot_data self (Canvas2DPlotData.undo (_plot_data self)).2.

Definition redo (self : t) : t :=
  set_plot_data self (Canvas2DPlotData.redo (_plot_data self)).2.

(** The store after the object that [get_plot plot_id] returned was mutated
    in place into [p]: the first entry under that key holds [p]. *)
Definition mutated (pd : Canvas2DPlotData.t num) (plot_id : string) (p : plot)
    : Canvas2DPlotData.t num :=
  match list_find (λ kv, kv.1 = plot_id) (Canvas2DPlotData._plots pd) with
  | Some (i, _) =>
      Canvas2DPlotData.mk
        (alter (λ kv, (kv.1, p)) i (Canvas2DPlotData._plots pd))
        (Canvas2DPlotData._undo_stack pd) (Canvas2DPlotData._redo_stack pd)
  | None => pd
  end.

(** [add_point(x, y)].  [uuid1] and [uuid2] stand for
    [uuid.uuid4().hex[:8]] of the first and of the second call of [uuid4]
    that the method makes; the second is read only when a new polyline or
    polygon is created, which takes the first. *)
Definition add_point (self : t) (x y : num) (uuid1 uuid2 : string) : t :=
  match _current_plot_type self with
  | POINT =>
      let point_id := "point_" +:+ uuid1 in
      let point := PointData2D.init point_id x y "r" true true in
      set_plot_data self
        (Canvas2DPlotData.add_plot (_plot_data self) (Base2DPlotData.Point point))
  | POLYLINE =>
      let '(self1, current, uuid_point) :=
        match _current_plot_id self with
        | None =>
            let current := "polyline_" +:+ uuid1 in
            let polyline := PolylineData2D.init current None "b" true in
            (mk (Canvas2DPlotData.add_plot (_plot_data self)
                   (Base2DPlotData.Polyline polyline))
                (_current_plot_type self) (Some current),
             current, uuid2)
        | Some current => (self, current, uuid1)
        end in
      match Canvas2DPlotData.get_plot (_plot_data self1) current with
      | Some (Base2DPlotData.Polyline polyline) =>
          let pd1 := Canvas2DPlotData.save_state_for_undo (_plot_data self1) in
          let point_id := "point_" +:+ uuid_point in
          let point :=
            PointData2D.init point_id x y (PolylineData2D.color polyline)
              true true in
          set_plot_data self1
            (mutated pd1 current
               (Base2DPlotData.Polyline (PolylineData2D.add_point polyline point)))
      | _ => self1
      end
  | POLYGON =>
      let '(self1, current, uuid_point) :=
        match _current_plot_id self with
        | None =>
            let current := "polygon_" +:+ uuid1 in
            let polygon := PolygonData2D.init current None "g" true in
            (mk (Canvas2DPlotData.add_plot (_plot_data self)
                   (Base2DPlotData.Polygon polygon))
                (_current_plot_type self) (Some current),
             current, uuid2)
        | Some current => (self, current, uuid1)
        end in
      match Canvas2DPlotData.get_plot (_plot_data self1) current with
      | Some (Base2DPlotData.Polygon polygon) =>
          let pd1 := Canvas2DPlotData.save_state_for_undo (_plot_data self1) in
          let point_id := "point_" +:+ uuid_point in
          let point :=
            PointData2D.init point_id x y (PolygonData2D.color polygon)
              true true in
          set_plot_data self1
            (mutated pd1 current
               (Base2DPlotData.Polygon (PolygonData2D.add_point polygon point)))
      | _ => self1
      end
  end.
End defs.
Arguments t num : clear implicits.
End Canvas2DQViewModel.

(** ** ga_dpp_runner_qwidget.py *)

Module GaDPPRunnerQWidget.
Section defs.
Context {num : Type} `{Number num} `{!Identity num}.

Abbreviation plot := (Base2DPlotData.t num).

(** [a == b] on lists of numbers: the lists have the same length and at
    each index the two elements are the same object or [==]. *)
Fixpoint pylist_eqb (a b : list num) : bool :=
  match a, b with
  | [], [] => true
  | u :: a', v :: b' => num_same u v && pylist_eqb a' b'
  | _, _ => false
  end.

(** [[[point.x, point.y] for point in points]] *)
Definition coordinates (points : list (PointData2D.t num)) : list (list num) :=
  (λ point, [PointData2D.x point; PointData2D.y point]) <$> points.

(** [if l and l[0] == l[-1]: l = l[:-1]] *)
Definition strip_closing (l : list (list num)) : list (list num) :=
  match head l, last l with
  | Some a, Some b => if pylist_eqb a b then removelast l else l
  | _, _ => l
  end.

(** The loop of [_extract_boundary]; it leaves at the first polygon with
    three points or more. *)
Fixpoint _extract_boundary_loop (plots : list plot) : list (list num) :=
  match plots with
  | [] => []
  | p :: rest =>
      match p with
      | Base2DPlotData.Polygon pg =>
          let points := PolygonData2D.points pg in
          if 3 <=? length points then strip_closing (coordinates points)
          else _extract_boundary_loop rest
      | _ => _extract_boundary_loop rest
      end
  end.

Definition _extract_boundary (canvas_view_model : Canvas2DQViewModel.t num)
    : list (list num) :=
  let plot_data := Canvas2DQViewModel.plot_data canvas_view_model in
  _extract_boundary_loop (Canvas2DPlotData.get_all_plots plot_data).

(** The loop [for plot in polygons[1:]] with its accumulator. *)
Fixpoint _extract_obstacles_loop (obstacles : list (list (list num)))
    (polygons : list plot) : list (list (list num)) :=
  match polygons with
  | [] => obstacles
  | p :: rest =>
      let points := Base2DPlotData.points p in
      if 3 <=? length points then
        let obstacle_points := strip_closing (coordinates points) in
        match obstacle_points with
        | [] => _extract_obstacles_loop obstacles rest
        | _ => _extract_obstacles_loop (obstacles ++ [obstacle_points]) rest
        end
      else _extract_obstacles_loop obstacles rest
  end.

Definition _extract_obstacles (canvas_view_model : Canvas2DQViewModel.t num)
    : option (list (list (list num))) :=
  let plot_data := Canvas2DQViewModel.plot_data canvas_view_model in
  let polygons :=
    filter (λ p, Base2DPlotData.type p = POLYGON)
           (Canvas2DPlotData.get_all_plots plot_data) in
  let obstacles :=
    if 1 <? length polygons
    then _extract_obstacles_loop [] (drop 1 polygons)
    else [] in
  match obstacles with
  | [] => None
  | _ => Some obstacles
  end.
End defs.
End GaDPPRunnerQWidget.

(** ** Vocabulary of the properties *)

(** Sequences of calls on one polygon. *)
Module PolygonTrace.
Section defs.
Context {num : Type} `{Number num}.

Inductive call :=
  | Add_point (point : PointData2D.t num)
  | Remove_point (point_id : string).

Definition step (self : PolygonData2D.t num) (c : call) : PolygonData2D.t num :=
  match c with
  | Add_point point => PolygonData2D.add_point self point
  | Remove_point point_id => (PolygonData2D.remove_point self point_id).2
  end.

Definition run (self : PolygonData2D.t num) (calls : list call)
    : PolygonData2D.t num :=
  foldl step self calls.

(** The points handed to [add_point]. *)
Definition added (calls : list call) : list (PointData2D.t num) :=
  omap (λ c, match c with Add_point p => Some p | Remove_point _ => None end)
       calls.

(** A call keeps the ends of the ring when it is not a removal that takes
    out the first or the last point of the list and leaves three points or
    more behind. *)
Definition keeps_ends (self : PolygonData2D.t num) (c : call) : bool :=
  match c with
  | Add_point _ => true
  | Remove_point point_id =>
      let pts := PolygonData2D.points self in
      match list_find (λ p, PointData2D.id p = point_id) pts with
      | Some (i, point) =>
          negb (PointData2D.deletable point)
          || (length pts - 1 <? 3)
          || ((0 <? i) && (i <? length pts - 1))
      | None => true
      end
  end.

Fixpoint all_keep_ends (self : PolygonData2D.t num) (calls : list call) : bool :=
  match calls with
  | [] => true
  | c :: rest => keeps_ends self c && all_keep_ends (step self c) rest
  end.

(** [closed] tells whether there are three points or more. *)
Definition counted (self : PolygonData2D.t num) : Prop :=
  PolygonData2D.closed self
  = bool_decide (3 ≤ length (PolygonData2D.points self)).

(** The ring of a closed polygon ends in the closing point of its first
    point, or in a point out of [A] that compares equal to the first. *)
Definition ringed (A : list (PointData2D.t num))
    (self : PolygonData2D.t num) : Prop :=
  PolygonData2D.closed self = true →
  ∃ f l,
    head (PolygonData2D.points self) = Some f
    ∧ last (PolygonData2D.points self) = Some l
    ∧ (l = PolygonData2D.closing_point f
       ∨ (l ∈ A
          ∧ num_eqb (PointData2D.x f) (PointData2D.x l) = true
          ∧ num_eqb (PointData2D.y f) (PointData2D.y l) = true)).

(** The closure property as the specification words it. *)
Definition closure_as_specified (self : PolygonData2D.t num) : Prop :=
  PolygonData2D.closed self
    = bool_decide (3 ≤ length (PolygonData2D.points self))
  ∧ (PolygonData2D.closed self = true →
     ∃ f l,
       head (PolygonData2D.points self) = Some f
       ∧ last (PolygonData2D.points self) = Some l
       ∧ num_eqb (PointData2D.x f) (PointData2D.x l) = true
       ∧ num_eqb (PointData2D.y f) (PointData2D.y l) = true
       ∧ PointData2D.deletable l = false).
End defs.
Arguments call num : clear implicits.
End PolygonTrace.

(** Sequences of calls on the plot store. *)
Module StoreTrace.
Section defs.
Context {num : Type} `{Number num}.

(** The calls that change the contents of the store or take a snapshot. *)
Inductive call :=
  | Add_plot (p : Base2DPlotData.t num)
  | Remove_plot (plot_id : string)
  | Clear
  | Save_state_for_undo.

Definition step (st : Canvas2DPlotData.t num) (c : call)
    : Canvas2DPlotData.t num :=
  match c with
  | Add_plot p => Canvas2DPlotData.add_plot st p
  | Remove_plot plot_id => (Canvas2DPlotData.remove_plot st plot_id).2
  | Clear => Canvas2DPlotData.clear st
  | Save_state_for_undo => Canvas2DPlotData.save_state_for_undo st
  end.

Definition run (st : Canvas2DPlotData.t num) (calls : list call)
    : Canvas2DPlotData.t num :=
  foldl step st calls.

(** A call is a mutating operation unless it is a [remove_plot] of an id
    that is not in the store. *)
Definition mutating (st : Canvas2DPlotData.t num) (c : call) : bool :=
  match c with
  | Remove_plot plot_id => dict_contains plot_id (Canvas2DPlotData._plots st)
  | _ => true
  end.

Fixpoint all_mutating (st : Canvas2DPlotData.t num) (calls : list call) : bool :=
  match calls with
  | [] => true
  | c :: rest => mutating st c && all_mutating (step st c) rest
  end.

(** The snapshots the calls take, oldest first: the copy of the contents
    before each call. *)
Fixpoint snapshots (st : Canvas2DPlotData.t num) (calls : list call)
    : list (dict (Base2DPlotData.t num)) :=
  match calls with
  | [] => []
  | c :: rest =>
      Canvas2DPlotData.copy_state (Canvas2DPlotData._plots st)
      :: snapshots (step st c) rest
  end.

(** [n] calls of [undo] in a row, with the values they return. *)
Fixpoint undos (n : nat) (st : Canvas2DPlotData.t num)
    : list bool * Canvas2DPlotData.t num :=
  match n with
  | 0 => ([], st)
  | S n' =>
      let r := Canvas2DPlotData.undo st in
      let rs := undos n' r.2 in
      (r.1 :: rs.1, rs.2)
  end.

(** [n] calls of [redo] in a row, with the values they return. *)
Fixpoint redos (n : nat) (st : Canvas2DPlotData.t num)
    : list bool * Canvas2DPlotData.t num :=
  match n with
  | 0 => ([], st)
  | S n' =>
      let r := Canvas2DPlotData.redo st in
      let rs := redos n' r.2 in
      (r.1 :: rs.1, rs.2)
  end.

(** The calls other than [undo]. *)
Inductive other_call :=
  | Operation (c : call)
  | Redo
  | Mark_all_updated.

Definition other_step (st : Canvas2DPlotData.t num) (c : other_call)
    : Canvas2DPlotData.t num :=
  match c with
  | Operation c => step st c
  | Redo => (Canvas2DPlotData.redo st).2
  | Mark_all_updated => Canvas2DPlotData.mark_all_updated st
  end.

(** [undo] and [redo] are one procedure on exchanged stacks. *)
Definition exchange (st : Canvas2DPlotData.t num) : Canvas2DPlotData.t num :=
  Canvas2DPlotData.mk (Canvas2DPlotData._plots st)
    (Canvas2DPlotData._redo_stack st) (Canvas2DPlotData._undo_stack st).
End defs.
Arguments call num : clear implicits.
Arguments other_call num : clear implicits.
End StoreTrace.

(** The points the hit test ranges over. *)
Module HitTest.
Section defs.
Context {num : Type} `{Number num} `{Arithmetic num}.

(** The points of one plot: a point plot is its own point. *)
Definition plot_points (p : Base2DPlotData.t num) : list (PointData2D.t num) :=
  match p with
  | Base2DPlotData.Point pt => [pt]
  | Base2DPlotData.Polyline pl => PolylineData2D.points pl
  | Base2DPlotData.Polygon pg => PolygonData2D.points pg
  end.

(** Every point in the store, in iteration order. *)
Definition store_points (pd : Canvas2DPlotData.t num)
    : list (PointData2D.t num) :=
  Canvas2DPlotData.get_all_plots pd ≫= plot_points.

(** The test of the specification on the point [p], in the arithmetic of the
    program: [p] is deletable and
    [((p.x - x) ** 2 + (p.y - y) ** 2) ** 0.5 <= t].  [None]: a power
    raises, and there is no distance to compare. *)
Definition near (x y t : num) (p : PointData2D.t num) : option bool :=
  if PointData2D.deletable p then
    match num_pow2 (num_sub (PointData2D.x p) x),
          num_pow2 (num_sub (PointData2D.y p) y) with
    | Some a, Some b =>
        match num_pow_half (num_add a b) with
        | Some d => Some (num_leb d t)
        | None => None
        end
    | _, _ => None
    end
  else Some false.

(** In the scan of [points] the test is false up to a point on which it
    comes out as [outcome]. *)
Definition first_outcome (x y t : num) (points : list (PointData2D.t num))
    (outcome : option bool) : Prop :=
  ∃ before p after,
    points = before ++ p :: after
    ∧ Forall (λ q, near x y t q = Some false) before
    ∧ near x y t p = outcome.

(** The Euclidean distance between [(px, py)] and [(x, y)] is at most [t],
    on rational numbers: [t] is not negative and the square of the distance
    is at most the square of [t]. *)
Definition euclidean_within (px py x y t : QArith_base.Q) : bool :=
  QArith_base.Qle_bool (QArith_base.inject_Z 0) t
  && QArith_base.Qle_bool
       (QArith_base.Qplus
          (QArith_base.Qpower (QArith_base.Qminus px x) 2)
          (QArith_base.Qpower (QArith_base.Qminus py y) 2))
       (QArith_base.Qpower t 2).

(** The deletable point [p] is at Euclidean distance at most [t] from
    [(x, y)], on the rational numbers that [value] gives to the numbers; a
    number without a value (an infinity, NaN) is at no such distance. *)
Definition euclidean_near (value : num → option QArith_base.Q)
    (x y t : num) (p : PointData2D.t num) : bool :=
  PointData2D.deletable p
  && match value (PointData2D.x p), value (PointData2D.y p),
           value x, value y, value t with
     | Some px, Some py, Some vx, Some vy, Some vt =>
         euclidean_within px py vx vy vt
     | _, _, _, _, _ => false
     end.
End defs.
End HitTest.

(** The contents of the store, update flags set aside. *)
Module Contents.
Section defs.
Context {num : Type} `{Number num}.

Definition erase_point (p : PointData2D.t num) : PointData2D.t num :=
  PointData2D.set_update p false.

(** A plot with its update flag and those of its points cleared. *)
Definition erase_plot (p : Base2DPlotData.t num) : Base2DPlotData.t num :=
  match p with
  | Base2DPlotData.Point pt => Base2DPlotData.Point (erase_point pt)
  | Base2DPlotData.Polyline pl =>
      Base2DPlotData.Polyline
        (PolylineData2D.mk (PolylineData2D.id pl) (PolylineData2D.color pl)
           false (erase_point <$> PolylineData2D.points pl))
  | Base2DPlotData.Polygon pg =>
      Base2DPlotData.Polygon
        (PolygonData2D.mk (PolygonData2D.id pg) (PolygonData2D.color pg)
           false (erase_point <$> PolygonData2D.points pg)
           (PolygonData2D.closed pg))
  end.

Definition contents (plots : dict (Base2DPlotData.t num))
    : dict (Base2DPlotData.t num) :=
  (λ kv, (kv.1, erase_plot kv.2)) <$> plots.

(** A polygon whose closed flag tells whether it has three points or more,
    and whose first and last point do not differ ([!=]) when it is closed. *)
Definition ring_consistent (pg : PolygonData2D.t num) : Prop :=
  PolygonTrace.counted pg
  ∧ (PolygonData2D.closed pg = true →
     ∃ f l,
       head (PolygonData2D.points pg) = Some f
       ∧ last (PolygonData2D.points pg) = Some l
       ∧ num_neb (PointData2D.x f) (PointData2D.x l)
         || num_neb (PointData2D.y f) (PointData2D.y l) = false).

Definition plot_consistent (p : Base2DPlotData.t num) : Prop :=
  match p with
  | Base2DPlotData.Polygon pg => ring_consistent pg
  | _ => True
  end.
End defs.
End Contents.

(** Concrete polygons and stores over integer coordinates, built with the
    calls of the model. *)
Module Examples.

(** A point as the view model creates it for a polygon. *)
Definition point (id : string) (x y : Z) : PointData2D.t Z :=
  PointData2D.init id x y "g" true true.

Definition empty_polygon : PolygonData2D.t Z :=
  PolygonData2D.init "polygon_1" None "g" true.

(** Three corners: the polygon closes with the point [p1_close]. *)
Definition triangle_calls : list (PolygonTrace.call Z) :=
  [PolygonTrace.Add_point (point "p1" 0 0);
   PolygonTrace.Add_point (point "p2" 1 0);
   PolygonTrace.Add_point (point "p3" 1 1)].

Definition triangle : PolygonData2D.t Z :=
  PolygonTrace.run empty_polygon triangle_calls.

(** One more corner, then the second corner removed. *)
Definition trimmed_calls : list (PolygonTrace.call Z) :=
  triangle_calls
  ++ [PolygonTrace.Add_point (point "p4" 0 1); PolygonTrace.Remove_point "p2"].

(** The third point lies on the first one. *)
Definition coincident_calls : list (PolygonTrace.call Z) :=
  [PolygonTrace.Add_point (point "p1" 0 0);
   PolygonTrace.Add_point (point "p2" 1 0);
   PolygonTrace.Add_point (point "p3" 0 0)].

(** The caller's second point carries the id the closing point will get. *)
Definition clash_calls : list (PolygonTrace.call Z) :=
  [PolygonTrace.Add_point (point "p1" 0 0);
   PolygonTrace.Add_point (point "p1_close" 1 0);
   PolygonTrace.Add_point (point "p3" 1 1)].

(** The triangle after its first corner was removed. *)
Definition beheaded : PolygonData2D.t Z :=
  PolygonTrace.run empty_polygon
    (triangle_calls ++ [PolygonTrace.Remove_point "p1"]).

(** The triangle with two of its corners removed: [p1], [p1_close]
    remain before the closing point is dropped. *)
Definition corner_calls : list (PolygonTrace.call Z) :=
  triangle_calls ++ [PolygonTrace.Remove_point "p2"].

(** A polygon the user left at two points. *)
Definition segment : PolygonData2D.t Z :=
  PolygonTrace.run (PolygonData2D.init "polygon_0" None "g" true)
    [PolygonTrace.Add_point (point "q1" 5 5);
     PolygonTrace.Add_point (point "q2" 6 5)].

(** A store with the two-point polygon drawn first and the triangle
    second. *)
Definition two_polygons : Canvas2DQViewModel.t Z :=
  Canvas2DQViewModel.mk
    (StoreTrace.run Canvas2DPlotData.init
       [StoreTrace.Add_plot (Base2DPlotData.Polygon segment);
        StoreTrace.Add_plot (Base2DPlotData.Polygon triangle)])
    POLYGON None.

(** A point plot added and removed again, 75 times over. *)
Definition history_calls : list (StoreTrace.call Z) :=
  concat (replicate 75
    [StoreTrace.Add_plot (Base2DPlotData.Point (point "point_1" 0 0));
     StoreTrace.Remove_plot "point_1"]).

(** The ids of the plots of a store with the ids of their points. *)
Definition outline (st : Canvas2DPlotData.t Z) : list (string * list string) :=
  (λ kv, (kv.1, PointData2D.id <$> Base2DPlotData.points kv.2))
  <$> Canvas2DPlotData._plots st.
End Examples.

(** Sequences of calls on the view model.  A call of [delete_point_near]
    that raises leaves the view model as it was. *)
Module EditorTrace.
Section defs.
Context {num : Type} `{Number num} `{Arithmetic num}.

(** The methods of the view model, and [mark_all_updated], which the
    widget calls on the store of the view model after it has drawn. *)
Inductive call :=
  | Add_point (x y : num) (uuid1 uuid2 : string)
  | Delete_point_near (x y threshold : num)
  | Undo
  | Redo
  | Set_current_plot_type (value : PlotData2D)
  | Clear_current_plot
  | Mark_all_updated.

Definition step (self : Canvas2DQViewModel.t num) (c : call)
    : Canvas2DQViewModel.t num :=
  match c with
  | Add_point x y uuid1 uuid2 => Canvas2DQViewModel.add_point self x y uuid1 uuid2
  | Delete_point_near x y threshold =>
      match Canvas2DQViewModel.delete_point_near self x y threshold with
      | Some r => r.2
      | None => self
      end
  | Undo => Canvas2DQViewModel.undo self
  | Redo => Canvas2DQViewModel.redo self
  | Set_current_plot_type value =>
      Canvas2DQViewModel.set_current_plot_type self value
  | Clear_current_plot => Canvas2DQViewModel.clear_current_plot self
  | Mark_all_updated =>
      Canvas2DQViewModel.set_plot_data self
        (Canvas2DPlotData.mark_all_updated (Canvas2DQViewModel.plot_data self))
  end.

Definition run (self : Canvas2DQViewModel.t num) (calls : list call)
    : Canvas2DQViewModel.t num :=
  foldl step self calls.




(** [add_point] will put its point in a plot of its own (point mode) or in
    the current polyline or polygon, which is in the store. *)
Definition adds_to_existing (self : Canvas2DQViewModel.t num) : Prop :=
  match Canvas2DQViewModel._current_plot_type self with
  | POINT => True
  | POLYLINE =>
      ∃ current pl,
        Canvas2DQViewModel._current_plot_id self = Some current
        ∧ Canvas2DPlotData.get_plot (Canvas2DQViewModel._plot_data self) current
          = Some (Base2DPlotData.Polyline pl)
  | POLYGON =>
      ∃ current pg,
        Canvas2DQViewModel._current_plot_id self = Some current
        ∧ Canvas2DPlotData.get_plot (Canvas2DQViewModel._plot_data self) current
          = Some (Base2DPlotData.Polygon pg)
  end.

(** The empty polyline or polygon that [add_point] creates in the mode
    [type], under the id made from [uuid]. *)
Definition new_shape (type : PlotData2D) (uuid : string)
    : Base2DPlotData.t num :=
  match type with
  | POLYGON =>
      Base2DPlotData.Polygon
        (PolygonData2D.init ("polygon_" +:+ uuid) None "g" true)
  | _ =>
      Base2DPlotData.Polyline
        (PolylineData2D.init ("polyline_" +:+ uuid) None "b" true)
  end.

(** [plot.add_point(point)] on a polyline or polygon. *)
Definition with_point (p : Base2DPlotData.t num) (point : PointData2D.t num)
    : Base2DPlotData.t num :=
  match p with
  | Base2DPlotData.Point _ => p
  | Base2DPlotData.Polyline pl =>
      Base2DPlotData.Polyline (PolylineData2D.add_point pl point)
  | Base2DPlotData.Polygon pg =>
      Base2DPlotData.Polygon (PolygonData2D.add_point pg point)
  end.
End defs.
Arguments call num : clear implicits.
End EditorTrace.

(** The rings that the runner reads off the store. *)
Module Rings.
Section defs.
Context {num : Type} `{Number num} `{!Identity num}.

(** The coordinate pairs of a plot, without the last pair when it compares
    equal to the first. *)
Definition ring (p : Base2DPlotData.t num) : list (list num) :=
  GaDPPRunnerQWidget.strip_closing
    (GaDPPRunnerQWidget.coordinates (Base2DPlotData.points p)).

(** The polygon plots of the store, in iteration order. *)
Definition polygons (self : Canvas2DQViewModel.t num)
    : list (Base2DPlotData.t num) :=
  filter (λ p, Base2DPlotData.type p = POLYGON)
    (Canvas2DPlotData.get_all_plots (Canvas2DQViewModel.plot_data self)).
End defs.
End Rings.

(** More concrete polylines, stores and view models. *)
Module MoreExamples.

Definition polyline : PolylineData2D.t Z :=
  PolylineData2D.add_point
    (PolylineData2D.add_point (PolylineData2D.init "polyline_1" None "b" true)
       (Examples.point "a" 0 0))
    (Examples.point "b" 1 1).

(** A store after three calls of [add_plot]. *)
Definition three_plots : Canvas2DPlotData.t Z :=
  StoreTrace.run Canvas2DPlotData.init
    [StoreTrace.Add_plot (Base2DPlotData.Point (Examples.point "point_1" 3 3));
     StoreTrace.Add_plot (Base2DPlotData.Polyline polyline);
     StoreTrace.Add_plot (Base2DPlotData.Polygon Examples.triangle)].

(** The view model in polygon mode on that store, with no current plot. *)
Definition fresh_polygon_mode : Canvas2DQViewModel.t Z :=
  Canvas2DQViewModel.mk three_plots POLYGON None.

(** The view model in polygon mode with the triangle as the current plot. *)
Definition on_triangle : Canvas2DQViewModel.t Z :=
  Canvas2DQViewModel.mk three_plots POLYGON (Some "polygon_1").

(** The view model in point mode. *)
Definition point_mode : Canvas2DQViewModel.t Z :=
  Canvas2DQViewModel.mk three_plots POINT None.
End MoreExamples.

(** Stores over floats for the hit test.  In [drawing] the differences of
    the coordinates to those of the clicks of the runs are whole numbers,
    and so are the distances. *)
Module HitExamples.
Import PrimFloat.
#[local] Open Scope float_scope.

(** A point as the view model creates it. *)
Definition point (id : string) (x y : float) : PointData2D.t float :=
  PointData2D.init id x y "g" true true.

(** Corners at the distances 10, 5 and 12 from the origin; the closing
    point lies on the first corner and is not deletable. *)
Definition polygon : PolygonData2D.t float :=
  PolygonTrace.run (PolygonData2D.init "polygon_1" None "g" true)
    [PolygonTrace.Add_point (point "p1" 6 8);
     PolygonTrace.Add_point (point "p2" 3 4);
     PolygonTrace.Add_point (point "p3" 0 12)].

(** A point plot at the distance 50 from the origin, drawn before the
    polygon. *)
Definition drawing : Canvas2DQViewModel.t float :=
  Canvas2DQViewModel.mk
    (StoreTrace.run Canvas2DPlotData.init
       [StoreTrace.Add_plot (Base2DPlotData.Point (point "point_1" 30 40));
        StoreTrace.Add_plot (Base2DPlotData.Polygon polygon)])
    POLYGON None.

(** Python's [1e200]: the square of this number is out of range. *)
Definition huge : float := 0x1.4e718d7d7625ap+664.

(** A point plot far away, drawn before a point plot at the origin. *)
Definition far_first : Canvas2DQViewModel.t float :=
  Canvas2DQViewModel.mk
    (StoreTrace.run Canvas2DPlotData.init
       [StoreTrace.Add_plot (Base2DPlotData.Point (point "point_1" huge 0));
        StoreTrace.Add_plot (Base2DPlotData.Point (point "point_2" 0 0))])
    POINT None.

(** One point plot, a little more than 3 away from the origin: the sum
    [9 + 2 ** -80] is rounded to [9]. *)
Definition just_outside : Canvas2DQViewModel.t float :=
  Canvas2DQViewModel.mk
    (StoreTrace.run Canvas2DPlotData.init
       [StoreTrace.Add_plot (Base2DPlotData.Point (point "point_1" 3 0x1p-40))])
    POINT None.
End HitExamples.

(** A triangle whose first corner has NaN for its [x]. *)
Module NanExamples.
Import PrimFloat.
#[local] Open Scope float_scope.

Definition point (id : string) (x y : FloatObject.t)
    : PointData2D.t FloatObject.t :=
  PointData2D.init id x y "g" true true.

Definition triangle : PolygonData2D.t FloatObject.t :=
  PolygonTrace.run (PolygonData2D.init "polygon_1" None "g" true)
    [PolygonTrace.Add_point
       (point "p1" (FloatObject.mk 1 nan) (FloatObject.mk 2 0));
     PolygonTrace.Add_point
       (point "p2" (FloatObject.mk 3 1) (FloatObject.mk 4 0));
     PolygonTrace.Add_point
       (point "p3" (FloatObject.mk 5 1) (FloatObject.mk 6 1))].
End NanExamples.

(** Unfolds the field updates of a polygon. *)
Ltac polygon_fields :=
  unfold PolygonData2D.set_update, PolygonData2D.set_points,
    PolygonData2D.set_closed; simpl.

#[local] Arguments Nat.leb : simpl never.
#[local] Arguments Nat.ltb : simpl never.

(** * Properties *)


Section python_helpers.

Lemma endswith_iff (s suffix : string) :
  endswith s suffix = true ↔ ∃ pre, s = pre +:+ suffix.
Proof.
  induction s as [|a s IH].
  - change (endswith "" suffix)
      with (if String.eqb "" suffix then true else false).
    destruct (String.eqb_spec "" suffix) as [<-|Hne].
    + split; [by exists ""|done].
    + split; [done|]. intros [[|c pre] Hpre]; simplify_eq/=.
  - change (endswith (String a s) suffix)
      with (if String.eqb (String a s) suffix then true else endswith s suffix).
    destruct (String.eqb_spec (String a s) suffix) as [<-|Hne].
    + split; [by exists ""|done].
    + rewrite IH. split.
      * intros [pre ->]. by exists (String a pre).
      * intros [[|c pre] Hpre]; simpl in Hpre.
        -- by destruct Hne.
        -- injection Hpre as _ ->. by exists pre.
Qed.

Lemma last_list_insert_at {A} (l : list A) (x : A) (i : nat) :
  i < length l → last (list_insert_at i x l) = last l.
Proof.
  intros Hi. unfold list_insert_at.
  rewrite <-(take_drop i l) at 3.
  destruct (drop i l) as [|y k] eqn:Hd.
  - apply (f_equal length) in Hd. rewrite length_drop in Hd. simpl in Hd. lia.
  - by rewrite !last_app_cons, last_cons_cons.
Qed.

Lemma head_list_insert_at {A} (l : list A) (x : A) (i : nat) :
  0 < i ≤ length l → head (list_insert_at i x l) = head l.
Proof.
  intros Hi. unfold list_insert_at.
  destruct i as [|i]; [lia|]. destruct l; [simpl in Hi; lia|done].
Qed.

Lemma length_list_insert_at {A} (l : list A) (x : A) (i : nat) :
  i ≤ length l → length (list_insert_at i x l) = S (length l).
Proof.
  intros Hi. unfold list_insert_at.
  rewrite length_app, length_take. simpl. rewrite length_drop. lia.
Qed.

Lemma lookup_list_insert_at {A} (l : list A) (x : A) (i : nat) :
  i ≤ length l → list_insert_at i x l !! i = Some x.
Proof.
  intros Hi. unfold list_insert_at.
  apply list_lookup_middle. rewrite length_take. lia.
Qed.

Lemma length_removelast {A} (l : list A) :
  length (removelast l) = length l - 1.
Proof. rewrite removelast_firstn_len, length_take. lia. Qed.

Lemma lastn_app_lastn {A} (n : nat) (l k : list A) :
  lastn n (lastn n l ++ k) = lastn n (l ++ k).
Proof.
  unfold lastn. rewrite !length_app, length_drop.
  destruct (decide (length l ≤ n)) as [Hle|Hgt].
  - replace (length l - n) with 0 by lia. simpl.
    by rewrite Nat.sub_0_r.
  - replace (length l - (length l - n) + length k - n) with (length k) by lia.
    replace (length l + length k - n) with ((length l - n) + length k) by lia.
    rewrite <-drop_drop. f_equal.
    rewrite drop_app_le by lia. done.
Qed.

Lemma length_lastn_le {A} (n : nat) (l : list A) : length (lastn n l) ≤ n.
Proof. unfold lastn. rewrite length_drop. lia. Qed.

End python_helpers.

(** ** Polygons *)

Section polygon.
Context {num : Type} `{Number num}.
Implicit Types self : PolygonData2D.t num.
Implicit Types point p q : PointData2D.t num.

Lemma add_point_closed self point :
  PolygonData2D.closed self = true →
  3 ≤ length (PolygonData2D.points self) →
  PolygonData2D.add_point self point
  = PolygonData2D.mk (PolygonData2D.id self) (PolygonData2D.color self) true
      (list_insert_at (length (PolygonData2D.points self) - 1) point
         (PolygonData2D.points self))
      true.
Proof.
  intros Hc Hlen. unfold PolygonData2D.add_point.
  rewrite Hc. apply Nat.leb_le in Hlen. rewrite Hlen. simpl.
  unfold PolygonData2D.set_update, PolygonData2D.set_points. simpl.
  by rewrite Hc.
Qed.

(** C7. On a closed polygon of three points or more, [add_point] puts the
    new point at index [len - 1], right before the last point: the point
    that was last is still last, the list is one longer, and the update
    flag of the polygon is set. *)
Theorem add_point_inserts_before_closer self point :
  PolygonData2D.closed self = true →
  3 ≤ length (PolygonData2D.points self) →
  let n := length (PolygonData2D.points self) in
  let self' := PolygonData2D.add_point self point in
  PolygonData2D.points self'
    = take (n - 1) (PolygonData2D.points self)
      ++ point :: drop (n - 1) (PolygonData2D.points self)
  ∧ PolygonData2D.points self' !! (n - 1) = Some point
  ∧ length (PolygonData2D.points self') = S n
  ∧ last (PolygonData2D.points self') = last (PolygonData2D.points self)
  ∧ PolygonData2D.update self' = true.
Proof.
  intros Hc Hlen n self'. subst self'.
  rewrite add_point_closed by done. simpl. fold n.
  split_and!; [done| | | |done].
  - apply lookup_list_insert_at. lia.
  - apply length_list_insert_at. lia.
  - apply last_list_insert_at. lia.
Qed.

(** What [_ensure_closed] does to an open polygon of three points or
    more. *)
Lemma ensure_closed_open self first_point last_point :
  PolygonData2D.closed self = false →
  3 ≤ length (PolygonData2D.points self) →
  head (PolygonData2D.points self) = Some first_point →
  last (PolygonData2D.points self) = Some last_point →
  PolygonData2D._ensure_closed self
  = PolygonData2D.mk (PolygonData2D.id self) (PolygonData2D.color self)
      (PolygonData2D.update self)
      (if num_neb (PointData2D.x first_point) (PointData2D.x last_point)
          || num_neb (PointData2D.y first_point) (PointData2D.y last_point)
       then PolygonData2D.points self
            ++ [PolygonData2D.closing_point first_point]
       else PolygonData2D.points self)
      true.
Proof.
  intros Hc Hlen Hh Hl. unfold PolygonData2D._ensure_closed.
  apply Nat.leb_le in Hlen. rewrite Hlen, Hc, Hh, Hl. simpl.
  by destruct (_ || _).
Qed.

Lemma ensure_closed_closed self :
  PolygonData2D.closed self = true → PolygonData2D._ensure_closed self = self.
Proof.
  intros Hc. unfold PolygonData2D._ensure_closed.
  by rewrite Hc, andb_false_r.
Qed.

(** C9. The constructor, given three points or more, returns a closed
    polygon.  When the first and the last point differ in [x] or in [y]
    ([!=]), exactly one point is appended: it has the coordinates of the
    first point, is not deletable, and its id is the id of the first point
    followed by [_close].  When they do not differ, the list is the one that
    was given. *)
Theorem init_auto_closes (id : string) (pts : list (PointData2D.t num))
    (color : string) (upd : bool) first_point last_point :
  3 ≤ length pts →
  head pts = Some first_point →
  last pts = Some last_point →
  let self := PolygonData2D.init id (Some pts) color upd in
  let differ :=
    num_neb (PointData2D.x first_point) (PointData2D.x last_point)
    || num_neb (PointData2D.y first_point) (PointData2D.y last_point) in
  PolygonData2D.closed self = true
  ∧ (differ = true →
     ∃ c, PolygonData2D.points self = pts ++ [c]
          ∧ PointData2D.x c = PointData2D.x first_point
          ∧ PointData2D.y c = PointData2D.y first_point
          ∧ PointData2D.deletable c = false
          ∧ PointData2D.id c = PointData2D.id first_point +:+ "_close")
  ∧ (differ = false → PolygonData2D.points self = pts).
Proof.
  intros Hlen Hh Hl self differ. subst self. unfold PolygonData2D.init.
  simpl. destruct (Nat.leb_spec 3 (length pts)) as [_|?]; [|lia].
  rewrite (ensure_closed_open _ first_point last_point) by done. simpl.
  fold differ. split_and!; [done| |].
  - intros ->. by exists (PolygonData2D.closing_point first_point).
  - by intros ->.
Qed.

(** [remove_point] on a list split at the first point that carries the
    id. *)
Lemma list_find_split (pid : string) (l1 l2 : list (PointData2D.t num)) q :
  Forall (λ p, PointData2D.id p ≠ pid) l1 →
  PointData2D.id q = pid →
  list_find (λ p, PointData2D.id p = pid) (l1 ++ q :: l2)
  = Some (length l1, q).
Proof.
  intros Hl1 Hq. apply list_find_Some. split_and!.
  - by apply list_lookup_middle.
  - done.
  - intros j y Hj Hlt. rewrite lookup_app_l in Hj by done.
    eapply Forall_lookup_1 in Hl1; eauto.
Qed.

Lemma delete_middle {A} (l1 l2 : list A) (x : A) :
  delete (length l1) (l1 ++ x :: l2) = l1 ++ l2.
Proof. induction l1; simpl; [done|by f_equal]. Qed.

(** C10. [remove_point] of a deletable point [q], the first of its id, that
    leaves fewer than three points [l1 ++ l2]: it returns [True], the
    polygon is no longer closed, and the last of the remaining points is
    dropped as well exactly when there is one and its id ends in [_close],
    whatever its coordinates and its deletable flag. *)
Theorem remove_point_unclose self (pid : string) l1 q l2 :
  PolygonData2D.points self = l1 ++ q :: l2 →
  Forall (λ p, PointData2D.id p ≠ pid) l1 →
  PointData2D.id q = pid →
  PointData2D.deletable q = true →
  length (l1 ++ l2) < 3 →
  ∃ self',
    PolygonData2D.remove_point self pid = (true, self')
    ∧ PolygonData2D.closed self' = false
    ∧ (∀ t, last (l1 ++ l2) = Some t →
            (∃ pre, PointData2D.id t = pre +:+ "_close") →
            PolygonData2D.points self' = removelast (l1 ++ l2))
    ∧ (∀ t, last (l1 ++ l2) = Some t →
            ¬ (∃ pre, PointData2D.id t = pre +:+ "_close") →
            PolygonData2D.points self' = l1 ++ l2)
    ∧ (last (l1 ++ l2) = None → PolygonData2D.points self' = []).
Proof.
  intros Hpts Hl1 Hq Hdel Hlen. unfold PolygonData2D.remove_point.
  rewrite Hpts, (list_find_split pid l1 l2 q), Hdel by done. simpl.
  rewrite delete_middle.
  destruct (Nat.ltb_spec (length (l1 ++ l2)) 3) as [_|?]; [|lia].
  eexists. split; [done|].
  destruct (last (l1 ++ l2)) as [t|] eqn:Hlast; simpl.
  - destruct (endswith (PointData2D.id t) "_close") eqn:He; simpl.
    + apply endswith_iff in He.
      split_and!; [done|done| |done]. intros ? [= <-] Hn. by destruct Hn.
    + split_and!; [done| |done|done].
      intros ? [= <-] Hs. apply endswith_iff in Hs. congruence.
  - apply last_None in Hlast. rewrite Hlast. by split_and!.
Qed.

Lemma get_point_by_id_unique self p :
  p ∈ PolygonData2D.points self →
  NoDup (PointData2D.id <$> PolygonData2D.points self) →
  PolygonData2D.get_point_by_id self (PointData2D.id p) = Some p.
Proof.
  intros Hin Hnd. unfold PolygonData2D.get_point_by_id.
  apply list_elem_of_lookup in Hin as [i Hi].
  assert (list_find (λ p0, PointData2D.id p0 = PointData2D.id p)
            (PolygonData2D.points self) = Some (i, p)) as ->; [|done].
  apply list_find_Some. split_and!; [done|done|].
  intros j y Hj Hlt Heq.
  assert (j = i); [|lia].
  eapply NoDup_lookup; [done| |].
  - by rewrite list_lookup_fmap, Hj.
  - rewrite list_lookup_fmap, Hi. simpl. by rewrite Heq.
Qed.

(** C5, as amended. When the point that [point_id] designates (the first of
    the list with that id, the one [get_point_by_id] returns) is not
    deletable, [remove_point] returns [False] and the polygon is the same:
    points, closed flag and update flag.  This is so for every point that is
    not deletable when the ids of the points are pairwise distinct. *)
Theorem remove_point_protects_target self (pid : string) :
  (∀ p, PolygonData2D.get_point_by_id self pid = Some p →
        PointData2D.deletable p = false →
        PolygonData2D.remove_point self pid = (false, self))
  ∧ (∀ p, p ∈ PolygonData2D.points self →
          NoDup (PointData2D.id <$> PolygonData2D.points self) →
          PointData2D.deletable p = false →
          PolygonData2D.remove_point self (PointData2D.id p) = (false, self)).
Proof.
  assert (∀ pid p, PolygonData2D.get_point_by_id self pid = Some p →
        PointData2D.deletable p = false →
        PolygonData2D.remove_point self pid = (false, self)) as Hfirst.
  { clear pid. intros pid p Hget Hdel.
    unfold PolygonData2D.get_point_by_id in Hget.
    unfold PolygonData2D.remove_point.
    destruct (list_find _ _) as [[i q]|]; simplify_eq/=.
    by rewrite Hdel. }
  split; [by apply Hfirst|].
  intros p Hin Hnd Hdel. eapply Hfirst; [|done].
  by apply get_point_by_id_unique.
Qed.

(** The two outcomes of a removal that takes effect. *)
Lemma remove_point_unclosing self (pid : string) i q :
  list_find (λ p, PointData2D.id p = pid) (PolygonData2D.points self)
    = Some (i, q) →
  PointData2D.deletable q = true →
  length (PolygonData2D.points self) - 1 < 3 →
  ∃ pts, PolygonData2D.remove_point self pid
         = (true, PolygonData2D.mk (PolygonData2D.id self)
                    (PolygonData2D.color self) true pts false)
         ∧ length pts < 3.
Proof.
  intros Hfind Hdel Hlen. unfold PolygonData2D.remove_point.
  rewrite Hfind, Hdel. simpl.
  apply list_find_Some in Hfind as (Hi & _ & _).
  assert (length (delete i (PolygonData2D.points self))
          = length (PolygonData2D.points self) - 1) as Hld.
  { rewrite length_delete by eauto. lia. }
  destruct (Nat.ltb_spec (length (delete i (PolygonData2D.points self))) 3)
    as [_|?]; [|lia].
  destruct (last _) as [t|]; simpl; [destruct (endswith _ _)|];
    polygon_fields; eexists; (split; [done|]); simpl; try lia.
  pose proof (length_removelast (delete i (PolygonData2D.points self))).
  lia.
Qed.

Lemma remove_point_inside self (pid : string) i q :
  list_find (λ p, PointData2D.id p = pid) (PolygonData2D.points self)
    = Some (i, q) →
  PointData2D.deletable q = true →
  3 ≤ length (PolygonData2D.points self) - 1 →
  PolygonData2D.closed self = true →
  PolygonData2D.remove_point self pid
  = (true, PolygonData2D.mk (PolygonData2D.id self)
             (PolygonData2D.color self) true
             (delete i (PolygonData2D.points self)) true)
  ∧ length (delete i (PolygonData2D.points self))
    = length (PolygonData2D.points self) - 1.
Proof.
  intros Hfind Hdel Hlen Hc. unfold PolygonData2D.remove_point.
  rewrite Hfind, Hdel. simpl.
  apply list_find_Some in Hfind as (Hi & _ & _).
  assert (length (delete i (PolygonData2D.points self))
          = length (PolygonData2D.points self) - 1) as Hld.
  { rewrite length_delete by eauto. lia. }
  split; [|done].
  destruct (Nat.ltb_spec (length (delete i (PolygonData2D.points self))) 3)
    as [?|_]; [lia|].
  rewrite ensure_closed_closed by done. polygon_fields. by rewrite Hc.
Qed.

Lemma add_point_open self point :
  PolygonData2D.closed self = false →
  length (PolygonData2D.points self) < 2 →
  PolygonData2D.add_point self point
  = PolygonData2D.mk (PolygonData2D.id self) (PolygonData2D.color self) true
      (PolygonData2D.points self ++ [point]) false.
Proof.
  intros Hc Hlen. unfold PolygonData2D.add_point. rewrite Hc. simpl.
  rewrite length_app. simpl.
  destruct (Nat.leb_spec 3 (length (PolygonData2D.points self) + 1));
    [lia|].
  unfold PolygonData2D.set_update, PolygonData2D.set_points. simpl.
  by rewrite Hc.
Qed.

Lemma add_point_closing self point first_point :
  PolygonData2D.closed self = false →
  length (PolygonData2D.points self) = 2 →
  head (PolygonData2D.points self) = Some first_point →
  PolygonData2D.add_point self point
  = PolygonData2D.mk (PolygonData2D.id self) (PolygonData2D.color self) true
      (if num_neb (PointData2D.x first_point) (PointData2D.x point)
          || num_neb (PointData2D.y first_point) (PointData2D.y point)
       then (PolygonData2D.points self ++ [point])
            ++ [PolygonData2D.closing_point first_point]
       else PolygonData2D.points self ++ [point])
      true.
Proof.
  intros Hc Hlen Hh. unfold PolygonData2D.add_point. rewrite Hc. simpl.
  rewrite length_app, Hlen. simpl.
  rewrite (ensure_closed_open _ first_point point); simpl.
  - done.
  - done.
  - rewrite length_app. simpl. lia.
  - rewrite head_app, Hh. done.
  - apply last_snoc.
Qed.

Lemma remove_point_absent self (pid : string) :
  list_find (λ p, PointData2D.id p = pid) (PolygonData2D.points self) = None →
  PolygonData2D.remove_point self pid = (false, self).
Proof. intros Hfind. unfold PolygonData2D.remove_point. by rewrite Hfind. Qed.

Lemma remove_point_refused self (pid : string) i q :
  list_find (λ p, PointData2D.id p = pid) (PolygonData2D.points self)
    = Some (i, q) →
  PointData2D.deletable q = false →
  PolygonData2D.remove_point self pid = (false, self).
Proof.
  intros Hfind Hdel. unfold PolygonData2D.remove_point.
  by rewrite Hfind, Hdel.
Qed.

Lemma counted_closed self :
  PolygonTrace.counted self → PolygonData2D.closed self = true →
  3 ≤ length (PolygonData2D.points self).
Proof.
  unfold PolygonTrace.counted. intros -> Hc. by apply bool_decide_eq_true in Hc.
Qed.

Lemma counted_open self :
  PolygonTrace.counted self → PolygonData2D.closed self = false →
  length (PolygonData2D.points self) < 3.
Proof.
  unfold PolygonTrace.counted. intros -> Hc. apply bool_decide_eq_false in Hc. lia.
Qed.

Lemma step_counted self (c : PolygonTrace.call num) :
  PolygonTrace.counted self → PolygonTrace.counted (PolygonTrace.step self c).
Proof.
  intros Hcnt. destruct c as [point|pid]; simpl.
  - destruct (PolygonData2D.closed self) eqn:Hc.
    + pose proof (counted_closed _ Hcnt Hc).
      rewrite add_point_closed by done. unfold PolygonTrace.counted. simpl.
      rewrite length_list_insert_at by lia.
      symmetry. apply bool_decide_eq_true. lia.
    + pose proof (counted_open _ Hcnt Hc).
      destruct (decide (length (PolygonData2D.points self) < 2)).
      * rewrite add_point_open by done. unfold PolygonTrace.counted. simpl.
        rewrite length_app. simpl.
        symmetry. apply bool_decide_eq_false. lia.
      * destruct (head (PolygonData2D.points self)) as [f|] eqn:Hh.
        2:{ apply head_None in Hh. rewrite Hh in *. simpl in *. lia. }
        rewrite (add_point_closing _ _ f) by (done || lia).
        unfold PolygonTrace.counted. simpl.
        symmetry. apply bool_decide_eq_true.
        destruct (_ || _); rewrite !length_app; simpl; lia.
  - destruct (list_find (λ p, PointData2D.id p = pid)
                (PolygonData2D.points self)) as [[i q]|] eqn:Hfind.
    2:{ by rewrite remove_point_absent. }
    destruct (PointData2D.deletable q) eqn:Hdel.
    2:{ by rewrite (remove_point_refused _ _ i q). }
    destruct (decide (length (PolygonData2D.points self) - 1 < 3)).
    + destruct (remove_point_unclosing _ _ _ _ Hfind Hdel) as (pts & -> & ?);
        [done|].
      unfold PolygonTrace.counted. simpl. symmetry. apply bool_decide_eq_false. lia.
    + destruct (PolygonData2D.closed self) eqn:Hc.
      2:{ pose proof (counted_open _ Hcnt Hc). lia. }
      destruct (remove_point_inside _ _ _ _ Hfind Hdel) as [-> Hlen];
        [lia|done|].
      unfold PolygonTrace.counted. simpl. symmetry. apply bool_decide_eq_true. lia.
Qed.

Lemma ringed_mono A B self :
  A ⊆ B → PolygonTrace.ringed A self → PolygonTrace.ringed B self.
Proof.
  intros HAB Hr Hc. destruct (Hr Hc) as (f & l & Hh & Hl & Hcase).
  exists f, l. split_and!; [done|done|].
  destruct Hcase as [->|(Hin & ? & ?)]; [by left|right].
  split_and!; [by apply HAB|done|done].
Qed.

Lemma step_ringed A self (c : PolygonTrace.call num) :
  PolygonTrace.counted self → PolygonTrace.ringed A self →
  PolygonTrace.keeps_ends self c = true →
  PolygonTrace.ringed (A ++ PolygonTrace.added [c]) (PolygonTrace.step self c).
Proof.
  intros Hcnt Hr Hk. destruct c as [point|pid]; simpl.
  - destruct (PolygonData2D.closed self) eqn:Hc.
    + pose proof (counted_closed _ Hcnt Hc).
      rewrite add_point_closed by done. intros _. simpl.
      destruct (Hr Hc) as (f & l & Hh & Hl & Hcase).
      exists f, l. rewrite head_list_insert_at, last_list_insert_at by lia.
      split_and!; [done|done|].
      destruct Hcase as [->|(Hin & ? & ?)]; [by left|right].
      split_and!; [|done|done]. apply elem_of_app. by left.
    + pose proof (counted_open _ Hcnt Hc).
      destruct (decide (length (PolygonData2D.points self) < 2)).
      * rewrite add_point_open by done. by intros ?.
      * destruct (head (PolygonData2D.points self)) as [f|] eqn:Hh.
        2:{ apply head_None in Hh. rewrite Hh in *. simpl in *. lia. }
        rewrite (add_point_closing _ _ f) by (done || lia).
        intros _. simpl.
        destruct (num_neb (PointData2D.x f) (PointData2D.x point)
                  || num_neb (PointData2D.y f) (PointData2D.y point))
          eqn:Hd.
        -- exists f, (PolygonData2D.closing_point f).
           rewrite last_snoc, !head_app, Hh. split_and!; [done|done|by left].
        -- exists f, point.
           rewrite last_snoc, !head_app, Hh. split_and!; [done|done|right].
           apply orb_false_iff in Hd as [Hx Hy].
           unfold num_neb in Hx, Hy.
           apply negb_false_iff in Hx, Hy.
           split_and!; [|done|done].
           apply elem_of_app. right. simpl. apply list_elem_of_singleton.
           done.
  - simpl in Hk.
    destruct (list_find (λ p, PointData2D.id p = pid)
                (PolygonData2D.points self)) as [[i q]|] eqn:Hfind.
    2:{ rewrite remove_point_absent by done. simpl.
        eapply ringed_mono; [|done]. by rewrite app_nil_r. }
    destruct (PointData2D.deletable q) eqn:Hdel.
    2:{ rewrite (remove_point_refused _ _ i q) by done. simpl.
        eapply ringed_mono; [|done]. by rewrite app_nil_r. }
    destruct (decide (length (PolygonData2D.points self) - 1 < 3)).
    + destruct (remove_point_unclosing _ _ _ _ Hfind Hdel) as (pts & -> & ?);
        [done|].
      by intros ?.
    + destruct (PolygonData2D.closed self) eqn:Hc.
      2:{ pose proof (counted_open _ Hcnt Hc). lia. }
      destruct (remove_point_inside _ _ _ _ Hfind Hdel) as [-> Hlen];
        [lia|done|].
      simpl in Hk.
      destruct (Nat.ltb_spec (length (PolygonData2D.points self) - 1) 3);
        [lia|].
      simpl in Hk. apply andb_true_iff in Hk as [Hi0 Hi1].
      apply Nat.ltb_lt in Hi0, Hi1.
      intros _. simpl.
      destruct (Hr Hc) as (f & l & Hh & Hl & Hcase).
      exists f, l. split_and!.
      * rewrite head_lookup, list_lookup_delete_lt by lia.
        by rewrite <-head_lookup.
      * rewrite last_lookup, Hlen, list_lookup_delete_ge by lia.
        rewrite last_lookup in Hl. rewrite <-Hl. f_equal. lia.
      * destruct Hcase as [->|(Hin & ? & ?)]; [by left|right].
        split_and!; [|done|done]. apply elem_of_app. by left.
Qed.

Lemma run_counted (calls : list (PolygonTrace.call num)) self :
  PolygonTrace.counted self → PolygonTrace.counted (PolygonTrace.run self calls).
Proof.
  revert self. induction calls as [|c calls IH]; intros self Hcnt; simpl.
  - done.
  - by apply IH, step_counted.
Qed.

Lemma run_ringed (calls : list (PolygonTrace.call num)) A self :
  PolygonTrace.counted self → PolygonTrace.ringed A self →
  PolygonTrace.all_keep_ends self calls = true →
  PolygonTrace.ringed (A ++ PolygonTrace.added calls) (PolygonTrace.run self calls).
Proof.
  revert A self.
  induction calls as [|c calls IH]; intros A self Hcnt Hr; simpl.
  - intros _. eapply ringed_mono; [|done]. by rewrite app_nil_r.
  - intros [Hk Hks]%andb_true_iff.
    pose proof (step_counted _ c Hcnt) as Hcnt'.
    pose proof (step_ringed A _ c Hcnt Hr Hk) as Hr'.
    pose proof (IH _ _ Hcnt' Hr' Hks) as Hfin.
    eapply ringed_mono; [|done].
    destruct c; simpl; [by rewrite <-app_assoc|by rewrite app_nil_r].
Qed.

(** C1, as amended. After any sequence of [add_point] and [remove_point]
    calls on an empty polygon, [closed] is true exactly when there are three
    points or more.  When moreover no call has removed the first or the
    last point of the list while leaving three points or more, the last
    point of a closed polygon is the closing point made from its first point
    (same [x] and [y], not deletable, id ending in [_close]), or else it is
    one of the points the caller added and its [x] and [y] compare equal
    ([==]) to those of the first point. *)
Theorem closure_invariant (id color : string) (upd : bool)
    (calls : list (PolygonTrace.call num)) :
  let empty := PolygonData2D.init id None color upd in
  let self := PolygonTrace.run empty calls in
  PolygonData2D.closed self
    = bool_decide (3 ≤ length (PolygonData2D.points self))
  ∧ (PolygonTrace.all_keep_ends empty calls = true →
     PolygonData2D.closed self = true →
     ∃ f l,
       head (PolygonData2D.points self) = Some f
       ∧ last (PolygonData2D.points self) = Some l
       ∧ (l = PolygonData2D.closing_point f
          ∨ (l ∈ PolygonTrace.added calls
             ∧ num_eqb (PointData2D.x f) (PointData2D.x l) = true
             ∧ num_eqb (PointData2D.y f) (PointData2D.y l) = true))).
Proof.
  intros empty self.
  assert (PolygonTrace.counted empty) as Hcnt by done.
  assert (PolygonTrace.ringed [] empty) as Hr by done.
  split; [by apply run_counted|].
  intros Hk. exact (run_ringed calls [] empty Hcnt Hr Hk).
Qed.
End polygon.

(** ** The plot store *)

Section store.
Context {num : Type} `{Number num}.
Implicit Types st : Canvas2DPlotData.t num.
Implicit Types c : StoreTrace.call num.

Lemma save_state_undo_stack st :
  length (Canvas2DPlotData._undo_stack st) ≤ 100 →
  Canvas2DPlotData._undo_stack (Canvas2DPlotData._save_state_for_undo st)
  = lastn 100 (Canvas2DPlotData._undo_stack st
               ++ [Canvas2DPlotData.copy_state (Canvas2DPlotData._plots st)]).
Proof.
  intros Hlen. unfold Canvas2DPlotData._save_state_for_undo, lastn. simpl.
  rewrite length_app. simpl.
  destruct (Nat.ltb_spec 100 (length (Canvas2DPlotData._undo_stack st) + 1)).
  - replace (length (Canvas2DPlotData._undo_stack st) + 1 - 100) with 1 by lia.
    by destruct (_ ++ _).
  - by replace (length (Canvas2DPlotData._undo_stack st) + 1 - 100) with 0
      by lia.
Qed.

(** A mutating call takes exactly one snapshot. *)
Lemma step_stacks st c :
  StoreTrace.mutating st c = true →
  Canvas2DPlotData._undo_stack (StoreTrace.step st c)
  = Canvas2DPlotData._undo_stack (Canvas2DPlotData._save_state_for_undo st)
  ∧ Canvas2DPlotData._redo_stack (StoreTrace.step st c) = [].
Proof.
  intros Hm. destruct c as [p|plot_id| |]; simpl in *; try done.
  unfold Canvas2DPlotData.remove_plot. by rewrite Hm.
Qed.

Lemma run_undo_stack (calls : list (StoreTrace.call num)) st :
  length (Canvas2DPlotData._undo_stack st) ≤ 100 →
  StoreTrace.all_mutating st calls = true →
  Canvas2DPlotData._undo_stack (StoreTrace.run st calls)
  = lastn 100 (Canvas2DPlotData._undo_stack st ++ StoreTrace.snapshots st calls).
Proof.
  revert st. induction calls as [|c calls IH]; intros st Hlen Hm; simpl.
  - rewrite app_nil_r. unfold lastn.
    by replace (length (Canvas2DPlotData._undo_stack st) - 100) with 0 by lia.
  - simpl in Hm. apply andb_true_iff in Hm as [Hc Hcs].
    destruct (step_stacks st c Hc) as [Hu _].
    rewrite save_state_undo_stack in Hu by done.
    fold (StoreTrace.run (StoreTrace.step st c) calls).
    rewrite IH; [|rewrite Hu; apply length_lastn_le|done].
    rewrite Hu, lastn_app_lastn, <-app_assoc. done.
Qed.

Lemma length_snapshots (calls : list (StoreTrace.call num)) st :
  length (StoreTrace.snapshots st calls) = length calls.
Proof.
  revert st. induction calls as [|c calls IH]; intros st; simpl; [done|].
  by rewrite IH.
Qed.

Lemma undo_empty st :
  Canvas2DPlotData._undo_stack st = [] →
  Canvas2DPlotData.undo st = (false, st).
Proof. intros Hu. unfold Canvas2DPlotData.undo. by rewrite Hu. Qed.

Lemma undo_nonempty st :
  Canvas2DPlotData._undo_stack st ≠ [] →
  ∃ previous_state,
    last (Canvas2DPlotData._undo_stack st) = Some previous_state
    ∧ Canvas2DPlotData.undo st
      = (true,
         Canvas2DPlotData.mk
           (Canvas2DPlotData.set_all_update true previous_state)
           (removelast (Canvas2DPlotData._undo_stack st))
           (Canvas2DPlotData._redo_stack st
            ++ [Canvas2DPlotData.copy_state (Canvas2DPlotData._plots st)])).
Proof.
  intros Hu. unfold Canvas2DPlotData.undo.
  destruct (last _) as [previous_state|] eqn:Hl.
  - by exists previous_state.
  - by apply last_None in Hl.
Qed.

Lemma undos_within (n : nat) st :
  n ≤ length (Canvas2DPlotData._undo_stack st) →
  (StoreTrace.undos n st).1 = replicate n true
  ∧ length (Canvas2DPlotData._undo_stack (StoreTrace.undos n st).2)
    = length (Canvas2DPlotData._undo_stack st) - n.
Proof.
  revert st. induction n as [|n IH]; intros st Hn; simpl.
  - split; [done|lia].
  - destruct (undo_nonempty st) as (prev & _ & ->).
    { intros Hnil. rewrite Hnil in Hn. simpl in Hn. lia. }
    simpl. destruct (IH (Canvas2DPlotData.mk
           (Canvas2DPlotData.set_all_update true prev)
           (removelast (Canvas2DPlotData._undo_stack st))
           (Canvas2DPlotData._redo_stack st
            ++ [Canvas2DPlotData.copy_state (Canvas2DPlotData._plots st)])))
      as [-> ->]; simpl; rewrite ?length_removelast; [lia|].
    split; [done|lia].
Qed.

(** C3. After 150 mutating operations on a new store, the undo stack holds
    100 snapshots, those of the last 100 operations (the 50 oldest are gone,
    oldest first); [undo] then returns [True] 100 times in a row and [False]
    the next time. *)
Theorem history_bound (calls : list (StoreTrace.call num)) :
  length calls = 150 →
  StoreTrace.all_mutating Canvas2DPlotData.init calls = true →
  let st := StoreTrace.run Canvas2DPlotData.init calls in
  Canvas2DPlotData._undo_stack st
    = drop 50 (StoreTrace.snapshots Canvas2DPlotData.init calls)
  ∧ length (Canvas2DPlotData._undo_stack st) = 100
  ∧ (StoreTrace.undos 100 st).1 = replicate 100 true
  ∧ (Canvas2DPlotData.undo (StoreTrace.undos 100 st).2).1 = false.
Proof.
  intros Hlen Hm st.
  assert (Canvas2DPlotData._undo_stack st
          = drop 50 (StoreTrace.snapshots Canvas2DPlotData.init calls)) as Hu.
  { subst st. rewrite run_undo_stack by (done || simpl; lia).
    simpl. unfold lastn. by rewrite length_snapshots, Hlen. }
  assert (length (Canvas2DPlotData._undo_stack st) = 100) as Hl.
  { rewrite Hu, length_drop, length_snapshots. lia. }
  destruct (undos_within 100 st) as [Ht Hrest]; [lia|].
  split_and!; [done|done|done|].
  rewrite undo_empty; [done|].
  apply nil_length_inv. rewrite Hrest. lia.
Qed.

Lemma redo_empty st :
  Canvas2DPlotData._redo_stack st = [] →
  Canvas2DPlotData.redo st = (false, st).
Proof. intros Hr. unfold Canvas2DPlotData.redo. by rewrite Hr. Qed.

(** No call other than [undo] puts anything on an empty redo stack. *)
Lemma other_step_redo_stack st (c : StoreTrace.other_call num) :
  Canvas2DPlotData._redo_stack st = [] →
  Canvas2DPlotData._redo_stack (StoreTrace.other_step st c) = [].
Proof.
  intros Hr. destruct c as [[p|plot_id| |]| |]; simpl; try done.
  - unfold Canvas2DPlotData.remove_plot. by destruct (dict_contains _ _).
  - by rewrite redo_empty.
Qed.

Lemma other_steps_redo_stack (calls : list (StoreTrace.other_call num)) st :
  Canvas2DPlotData._redo_stack st = [] →
  Canvas2DPlotData._redo_stack (foldl StoreTrace.other_step st calls) = [].
Proof.
  revert st. induction calls as [|c calls IH]; intros st Hr; simpl; [done|].
  by apply IH, other_step_redo_stack.
Qed.

(** C4. In every state of the store, a mutating operation ([add_plot], a
    [remove_plot] of an id that is present, [clear], [save_state_for_undo])
    leaves the redo stack empty: [redo] returns [False] and changes nothing,
    and keeps doing so after any further calls other than [undo]; after an
    [undo] that succeeds, [redo] returns [True] again. *)
Theorem redo_invalidation st c :
  StoreTrace.mutating st c = true →
  let st' := StoreTrace.step st c in
  Canvas2DPlotData._redo_stack st' = []
  ∧ Canvas2DPlotData.redo st' = (false, st')
  ∧ (∀ calls : list (StoreTrace.other_call num),
       let st'' := foldl StoreTrace.other_step st' calls in
       Canvas2DPlotData.redo st'' = (false, st''))
  ∧ (∀ st'', Canvas2DPlotData.undo st' = (true, st'') →
             (Canvas2DPlotData.redo st'').1 = true).
Proof.
  intros Hm st'. destruct (step_stacks st c Hm) as [_ Hr]. fold st' in Hr.
  split_and!.
  - done.
  - by apply redo_empty.
  - intros calls st''. by apply redo_empty, other_steps_redo_stack.
  - intros st'' Hundo.
    destruct (decide (Canvas2DPlotData._undo_stack st' = [])) as [Hu|Hu].
    + by rewrite undo_empty in Hundo.
    + destruct (undo_nonempty st' Hu) as (prev & _ & Heq).
      rewrite Heq in Hundo. injection Hundo as <-.
      unfold Canvas2DPlotData.redo. simpl. by rewrite last_snoc.
Qed.

Lemma redo_exchange st :
  Canvas2DPlotData.redo st
  = ((Canvas2DPlotData.undo (StoreTrace.exchange st)).1,
     StoreTrace.exchange (Canvas2DPlotData.undo (StoreTrace.exchange st)).2).
Proof.
  unfold Canvas2DPlotData.redo, Canvas2DPlotData.undo, StoreTrace.exchange. simpl.
  destruct (last _); [done|by destruct st].
Qed.

Lemma redos_exchange (n : nat) st :
  StoreTrace.redos n st
  = ((StoreTrace.undos n (StoreTrace.exchange st)).1,
     StoreTrace.exchange (StoreTrace.undos n (StoreTrace.exchange st)).2).
Proof.
  revert st. induction n as [|n IH]; intros st; simpl.
  - by destruct st.
  - rewrite redo_exchange. simpl. rewrite IH.
    assert (StoreTrace.exchange (StoreTrace.exchange (Canvas2DPlotData.undo (StoreTrace.exchange st)).2)
            = (Canvas2DPlotData.undo (StoreTrace.exchange st)).2) as ->; [|done].
    by destruct (Canvas2DPlotData.undo (StoreTrace.exchange st)).2.
Qed.

(** The state after [n] successful calls of [undo]. *)
Lemma undos_state (n : nat) st :
  0 < n ≤ length (Canvas2DPlotData._undo_stack st) →
  let st' := (StoreTrace.undos n st).2 in
  let U := Canvas2DPlotData._undo_stack st in
  (StoreTrace.undos n st).1 = replicate n true
  ∧ Canvas2DPlotData._undo_stack st' = take (length U - n) U
  ∧ (∃ snapshot,
       U !! (length U - n) = Some snapshot
       ∧ Canvas2DPlotData._plots st'
         = Canvas2DPlotData.set_all_update true snapshot)
  ∧ (∃ more,
       Canvas2DPlotData._redo_stack st'
       = Canvas2DPlotData._redo_stack st
         ++ Canvas2DPlotData.copy_state (Canvas2DPlotData._plots st) :: more
       ∧ length more = n - 1).
Proof.
  revert st. induction n as [|n IH]; intros st Hn; [lia|].
  cbn zeta.
  destruct (undo_nonempty st) as (prev & Hprev & Hundo).
  { intros Hnil. rewrite Hnil in Hn. simpl in Hn. lia. }
  simpl. rewrite Hundo. simpl.
  set (st1 := Canvas2DPlotData.mk _ _ _).
  set (U := Canvas2DPlotData._undo_stack st) in *.
  assert (removelast U = take (length U - 1) U) as Hrl.
  { rewrite removelast_firstn_len. f_equal. lia. }
  destruct (decide (n = 0)) as [->|Hpos].
  - simpl. split_and!; [done|done| |].
    + exists prev. split; [|done]. rewrite last_lookup in Hprev.
      rewrite <-Hprev. f_equal. lia.
    + by exists [].
  - destruct (IH st1) as (Ht & Hu & (snap & Hsnap & Hplots) & (more & Hr & Hm)).
    { subst st1. simpl. rewrite length_removelast. lia. }
    subst st1. simpl in *. rewrite length_removelast in *.
    split_and!.
    + by rewrite Ht.
    + rewrite Hu, Hrl, take_take. f_equal. lia.
    + exists snap. split; [|done].
      rewrite Hrl, lookup_take_lt in Hsnap by lia.
      rewrite <-Hsnap. f_equal. lia.
    + eexists. rewrite Hr, <-app_assoc. split; [done|]. simpl. lia.
Qed.

Lemma run_redo_stack (calls : list (StoreTrace.call num)) st :
  Canvas2DPlotData._redo_stack st = [] →
  StoreTrace.all_mutating st calls = true →
  Canvas2DPlotData._redo_stack (StoreTrace.run st calls) = [].
Proof.
  revert st. induction calls as [|c calls IH]; intros st Hr Hm; simpl.
  - done.
  - simpl in Hm. apply andb_true_iff in Hm as [Hc Hcs].
    apply IH; [|done]. by destruct (step_stacks st c Hc).
Qed.

Lemma full_undo_redo (n : nat) st oldest :
  0 < n →
  length (Canvas2DPlotData._undo_stack st) = n →
  head (Canvas2DPlotData._undo_stack st) = Some oldest →
  Canvas2DPlotData._redo_stack st = [] →
  let u := StoreTrace.undos n st in
  let r := StoreTrace.redos n u.2 in
  u.1 = replicate n true
  ∧ Canvas2DPlotData._plots u.2
    = Canvas2DPlotData.set_all_update true oldest
  ∧ r.1 = replicate n true
  ∧ Canvas2DPlotData._plots r.2
    = Canvas2DPlotData.set_all_update true
        (Canvas2DPlotData.copy_state (Canvas2DPlotData._plots st)).
Proof.
  intros Hn HUn Hold HR u r.
  destruct (undos_state n st)
    as (Ht & Hu & (snap & Hsnap & Hplots) & (more & Hr & Hmore)); [lia|].
  fold u in Ht, Hu, Hplots, Hr.
  rewrite HUn, Nat.sub_diag, <-head_lookup, Hold in Hsnap.
  injection Hsnap as <-.
  rewrite HR in Hr. simpl in Hr.
  assert (length (Canvas2DPlotData._redo_stack u.2) = n) as HRn.
  { rewrite Hr. simpl. lia. }
  subst r. rewrite redos_exchange.
  destruct (undos_state n (StoreTrace.exchange u.2))
    as (Ht' & _ & (snap' & Hsnap' & Hplots') & _).
  { unfold StoreTrace.exchange. simpl. lia. }
  unfold StoreTrace.exchange in Hsnap', Hplots'. simpl in Hsnap', Hplots'.
  rewrite HRn, Nat.sub_diag, Hr in Hsnap'. simpl in Hsnap'.
  injection Hsnap' as <-.
  split_and!; [done|done|done|done].
Qed.

(** What [n] calls of [undo] after [n <= 100] mutating operations on a new
    store, followed by [n] calls of [redo], yield: each call returns [True];
    the undos end on the empty store of the construction; the redos end on
    the copy that the first [undo] took of the contents, with the update
    flag of each plot set. *)
Theorem undo_redo_yields_copy (calls : list (StoreTrace.call num)) :
  length calls ≤ 100 →
  StoreTrace.all_mutating Canvas2DPlotData.init calls = true →
  let st := StoreTrace.run Canvas2DPlotData.init calls in
  let n := length calls in
  let u := StoreTrace.undos n st in
  let r := StoreTrace.redos n u.2 in
  u.1 = replicate n true
  ∧ Canvas2DPlotData._plots u.2 = []
  ∧ r.1 = replicate n true
  ∧ Canvas2DPlotData._plots r.2
    = Canvas2DPlotData.set_all_update true
        (Canvas2DPlotData.copy_state (Canvas2DPlotData._plots st)).
Proof.
  intros Hlen Hm st n u r.
  destruct (decide (n = 0)) as [Hz|Hpos].
  { subst n u r st. apply nil_length_inv in Hz. by subst calls. }
  assert (Canvas2DPlotData._undo_stack st
          = StoreTrace.snapshots Canvas2DPlotData.init calls) as HU.
  { subst st. rewrite run_undo_stack by (done || simpl; lia).
    cbn [Canvas2DPlotData._undo_stack Canvas2DPlotData.init app].
    unfold lastn. rewrite length_snapshots.
    by replace (length calls - 100) with 0 by lia. }
  apply (full_undo_redo n st []).
  - lia.
  - by rewrite HU, length_snapshots.
  - rewrite HU. destruct calls; [done|]. done.
  - by apply run_redo_stack.
Qed.
End store.

(** ** The round trip of undo and redo *)

Section round_trip.
Context {num : Type} `{Number num}.

Lemma erase_copy_point (p : PointData2D.t num) :
  Contents.erase_point (Canvas2DPlotData.copy_point p) = Contents.erase_point p.
Proof. done. Qed.

Lemma erase_copy_points (pts : list (PointData2D.t num)) :
  Contents.erase_point <$> (Canvas2DPlotData.copy_point <$> pts)
  = Contents.erase_point <$> pts.
Proof. rewrite <-list_fmap_compose. by apply list_fmap_ext. Qed.

Lemma head_fmap {A B} (f : A → B) (l : list A) : head (f <$> l) = f <$> head l.
Proof. by destruct l. Qed.

Lemma last_fmap {A B} (f : A → B) (l : list A) : last (f <$> l) = f <$> last l.
Proof.
  induction l as [|x [|y l] IH]; [done|done|].
  change (last (f x :: (f <$> y :: l)) = f <$> last (y :: l)).
  by rewrite <-IH.
Qed.

(** The copy of a consistent plot has the contents of the plot. *)
Lemma erase_copy_plot (p : Base2DPlotData.t num) :
  Contents.plot_consistent p →
  Contents.erase_plot
    (Base2DPlotData.set_update (Canvas2DPlotData.copy_plot p) true)
  = Contents.erase_plot p.
Proof.
  destruct p as [pt|pl|pg]; simpl.
  - done.
  - intros _. by rewrite erase_copy_points.
  - intros [Hcnt Hring]. unfold PolygonData2D.init. simpl.
    rewrite length_fmap.
    destruct (PolygonData2D.closed pg) eqn:Hc.
    + pose proof (counted_closed _ Hcnt Hc) as Hlen.
      destruct (Hring eq_refl) as (f & l & Hf & Hl & Hsame).
      destruct (Nat.leb_spec 3 (length (PolygonData2D.points pg))); [|lia].
      rewrite (ensure_closed_open _ (Canvas2DPlotData.copy_point f)
                 (Canvas2DPlotData.copy_point l)); simpl.
      * rewrite Hsame. simpl. by rewrite erase_copy_points.
      * done.
      * by rewrite length_fmap.
      * by rewrite head_fmap, Hf.
      * by rewrite last_fmap, Hl.
    + pose proof (counted_open _ Hcnt Hc) as Hlen.
      destruct (Nat.leb_spec 3 (length (PolygonData2D.points pg))); [lia|].
      simpl. by rewrite erase_copy_points.
Qed.

Lemma dict_contains_true {V} (k : string) (d : dict V) :
  dict_contains k d = true ↔ k ∈ d.*1.
Proof. unfold dict_contains. apply bool_decide_eq_true. Qed.

Lemma dict_contains_false {V} (k : string) (d : dict V) :
  dict_contains k d = false ↔ k ∉ d.*1.
Proof. unfold dict_contains. apply bool_decide_eq_false. Qed.

(** On distinct keys the copying loop is a map. *)
Lemma copy_state_fmap_aux (plots acc : dict (Base2DPlotData.t num)) :
  NoDup (acc.*1 ++ plots.*1) →
  foldl (λ state_copy kv,
           dict_set kv.1 (Canvas2DPlotData.copy_plot kv.2) state_copy)
        acc plots
  = acc ++ ((λ kv, (kv.1, Canvas2DPlotData.copy_plot kv.2)) <$> plots).
Proof.
  revert acc. induction plots as [|[k v] plots IH]; intros acc Hnd; simpl.
  - by rewrite app_nil_r.
  - assert (dict_set k (Canvas2DPlotData.copy_plot v) acc
            = acc ++ [(k, Canvas2DPlotData.copy_plot v)]) as ->.
    { unfold dict_set.
      destruct (dict_contains k acc) eqn:Hk; [|done].
      apply dict_contains_true in Hk.
      apply NoDup_app in Hnd as (_ & Hdisj & _).
      destruct (Hdisj k Hk). simpl. by left. }
    rewrite IH.
    + by rewrite <-app_assoc.
    + rewrite fmap_app. simpl. rewrite <-app_assoc. done.
Qed.

Lemma copy_state_fmap (plots : dict (Base2DPlotData.t num)) :
  NoDup plots.*1 →
  Canvas2DPlotData.copy_state plots
  = (λ kv, (kv.1, Canvas2DPlotData.copy_plot kv.2)) <$> plots.
Proof. intros Hnd. by apply (copy_state_fmap_aux plots []). Qed.

Lemma copy_state_contents (plots : dict (Base2DPlotData.t num)) :
  NoDup plots.*1 →
  Forall (λ kv, Contents.plot_consistent kv.2) plots →
  Contents.contents
    (Canvas2DPlotData.set_all_update true (Canvas2DPlotData.copy_state plots))
  = Contents.contents plots.
Proof.
  intros Hnd Hall. rewrite copy_state_fmap by done.
  unfold Contents.contents, Canvas2DPlotData.set_all_update.
  rewrite <-!list_fmap_compose.
  apply Forall_fmap_ext_1. eapply Forall_impl; [exact Hall|].
  intros [k v] Hv. simpl in *. by rewrite erase_copy_plot.
Qed.

(** The keys of the store stay distinct. *)
Lemma dict_set_keys {V} (k : string) (v : V) (d : dict V) :
  NoDup d.*1 → NoDup (dict_set k v d).*1.
Proof.
  intros Hnd. unfold dict_set.
  destruct (dict_contains k d) eqn:Hk.
  - assert (((λ kv : string * V, if decide (kv.1 = k) then (kv.1, v) else kv)
               <$> d).*1 = d.*1) as ->; [|done].
    rewrite <-list_fmap_compose. apply list_fmap_ext.
    intros i [k' v'] _. simpl. by destruct (decide (k' = k)).
  - apply dict_contains_false in Hk.
    rewrite fmap_app. simpl. apply NoDup_app. split_and!; [done| |].
    + intros x Hx ->%list_elem_of_singleton. done.
    + apply NoDup_singleton.
Qed.

Lemma dict_del_keys {V} (k : string) (d : dict V) :
  NoDup d.*1 → NoDup (dict_del k d).*1.
Proof.
  intros Hnd. unfold dict_del.
  induction d as [|[k' v'] d IH]; simpl; [done|].
  apply NoDup_cons in Hnd as [Hnotin Hnd].
  rewrite filter_cons. simpl. destruct (decide (k' ≠ k)); simpl.
  - apply NoDup_cons. split; [|by apply IH].
    intros Hin. apply Hnotin.
    apply list_elem_of_fmap in Hin as ([k2 v2] & -> & Hin).
    apply list_elem_of_filter in Hin as [_ Hin].
    apply list_elem_of_fmap. by exists (k2, v2).
  - by apply IH.
Qed.

Lemma step_keys (st : Canvas2DPlotData.t num) (c : StoreTrace.call num) :
  NoDup (Canvas2DPlotData._plots st).*1 →
  NoDup (Canvas2DPlotData._plots (StoreTrace.step st c)).*1.
Proof.
  intros Hnd. destruct c as [p|plot_id| |]; simpl.
  - by apply dict_set_keys.
  - unfold Canvas2DPlotData.remove_plot.
    destruct (dict_contains _ _); simpl; [by apply dict_del_keys|done].
  - apply NoDup_nil_2.
  - done.
Qed.

Lemma run_keys (calls : list (StoreTrace.call num))
    (st : Canvas2DPlotData.t num) :
  NoDup (Canvas2DPlotData._plots st).*1 →
  NoDup (Canvas2DPlotData._plots (StoreTrace.run st calls)).*1.
Proof.
  revert st. induction calls as [|c calls IH]; intros st Hnd; simpl; [done|].
  by apply IH, step_keys.
Qed.

(** X13. The round trip of undo and redo on a store whose polygons are
    consistent: [n <= 100] mutating operations on a new store, [n] undos
    and [n] redos.  Every call returns [True], the undos end on the empty
    store, and the redos end on the contents the store had after the last
    operation. *)
Theorem undo_redo_round_trip (calls : list (StoreTrace.call num)) :
  length calls ≤ 100 →
  StoreTrace.all_mutating Canvas2DPlotData.init calls = true →
  let st := StoreTrace.run Canvas2DPlotData.init calls in
  Forall (λ kv, Contents.plot_consistent kv.2) (Canvas2DPlotData._plots st) →
  let n := length calls in
  let u := StoreTrace.undos n st in
  let r := StoreTrace.redos n u.2 in
  u.1 = replicate n true
  ∧ Canvas2DPlotData._plots u.2 = []
  ∧ r.1 = replicate n true
  ∧ Contents.contents (Canvas2DPlotData._plots r.2)
    = Contents.contents (Canvas2DPlotData._plots st).
Proof.
  intros Hlen Hm st Hall n u r.
  destruct (undo_redo_yields_copy calls Hlen Hm) as (Hu & Hempty & Hr & Hcopy).
  fold st n u r in Hu, Hempty, Hr, Hcopy.
  split_and!; [done|done|done|].
  rewrite Hcopy. apply copy_state_contents; [|done].
  apply run_keys. apply NoDup_nil_2.
Qed.
End round_trip.

(** ** Hit test *)

Section hit_test.
Context {num : Type} `{Number num} `{Arithmetic num}.
Implicit Types p q : PointData2D.t num.

(** The test of the loop is the test of the specification. *)
Lemma hit_near (x y threshold : num) p :
  Canvas2DQViewModel.hit x y threshold p = HitTest.near x y threshold p.
Proof.
  unfold Canvas2DQViewModel.hit, HitTest.near, PointData2D.distance_to.
  destruct (PointData2D.deletable p); [|done].
  destruct (num_pow2 (num_sub (PointData2D.x p) x)) as [a|]; simpl.
  - destruct (num_pow2 (num_sub (PointData2D.y p) y)) as [b|]; simpl; [|done].
    by destruct (num_pow_half (num_add a b)).
  - by destruct (num_pow2 (num_sub (PointData2D.y p) y)).
Qed.

Lemma first_hit_app (x y threshold : num) (l1 l2 : list (PointData2D.t num)) :
  Canvas2DQViewModel.first_hit x y threshold (l1 ++ l2)
  = match Canvas2DQViewModel.first_hit x y threshold l1 with
    | Some None => Canvas2DQViewModel.first_hit x y threshold l2
    | r => r
    end.
Proof.
  induction l1 as [|p l1 IH]; simpl; [done|].
  by destruct (Canvas2DQViewModel.hit x y threshold p) as [[|]|].
Qed.

Lemma first_hit_misses (x y threshold : num) (points : list (PointData2D.t num)) :
  Canvas2DQViewModel.first_hit x y threshold points = Some None
  ↔ Forall (λ q, HitTest.near x y threshold q = Some false) points.
Proof.
  induction points as [|p points IH]; simpl.
  - split; [constructor|done].
  - rewrite Forall_cons, <-IH, hit_near.
    destruct (HitTest.near x y threshold p) as [[|]|]; split;
      try done; try (by intros [? ?]).
Qed.

(** The outcome of the scan other than a miss on every point. *)
Lemma first_hit_outcome (x y threshold : num)
    (points : list (PointData2D.t num)) (outcome : option bool) :
  outcome ≠ Some false →
  HitTest.first_outcome x y threshold points outcome
  ↔ match Canvas2DQViewModel.first_hit x y threshold points with
    | None => outcome = None
    | Some (Some _) => outcome = Some true
    | Some None => False
    end.
Proof.
  intros Hout. induction points as [|p points IH]; simpl.
  - split; [|done]. intros (before & q & after & Heq & _).
    by destruct before.
  - rewrite hit_near.
    assert (HitTest.first_outcome x y threshold (p :: points) outcome
            ↔ HitTest.near x y threshold p = outcome
              ∨ (HitTest.near x y threshold p = Some false
                 ∧ HitTest.first_outcome x y threshold points outcome))
      as ->.
    { split.
      - intros ([|p0 before] & q & after & Heq & Hall & Hq); simpl in Heq.
        + injection Heq as <- _. by left.
        + injection Heq as <- ->. apply Forall_cons in Hall as [Hp Hall].
          right. split; [done|]. by exists before, q, after.
      - intros [Hp|[Hp (before & q & after & -> & Hall & Hq)]].
        + exists [], p, points. split; [done|]. split; [constructor|done].
        + exists (p :: before), q, after. split; [done|].
          split; [by constructor|done]. }
    rewrite IH.
    destruct (HitTest.near x y threshold p) as [[|]|] eqn:Hp.
    + split; [|by left]. intros [<-|[? _]]; done.
    + split; [|by right]. intros [<-|[_ ?]]; done.
    + split; [|by left]. intros [<-|[? _]]; done.
Qed.

(** The loop over the plots is the scan of their points in a row. *)
Lemma delete_point_near_loop_scan (x y threshold : num)
    (plots : list (Base2DPlotData.t num)) :
  ∀ (pd : Canvas2DPlotData.t num) (j : nat),
    match Canvas2DQViewModel.first_hit x y threshold
            (plots ≫= HitTest.plot_points) with
    | None =>
        Canvas2DQViewModel.delete_point_near_loop pd x y threshold j plots
        = None
    | Some (Some _) =>
        ∃ pd', Canvas2DQViewModel.delete_point_near_loop pd x y threshold j
                 plots = Some (true, pd')
    | Some None =>
        Canvas2DQViewModel.delete_point_near_loop pd x y threshold j plots
        = Some (false, pd)
    end.
Proof.
  induction plots as [|p plots IH]; intros pd j; [done|].
  rewrite bind_cons, first_hit_app. specialize (IH pd (S j)).
  destruct p as [pt|pl|pg]; simpl.
  - destruct (Canvas2DQViewModel.hit x y threshold pt) as [[|]|];
      [by eexists|done..].
  - destruct (Canvas2DQViewModel.first_hit x y threshold
                (PolylineData2D.points pl)) as [[point|]|];
      [by eexists|done..].
  - destruct (Canvas2DQViewModel.first_hit x y threshold
                (PolygonData2D.points pg)) as [[point|]|];
      [by eexists|done..].
Qed.

(** What a call of [delete_point_near] does, from the scan of the points
    of the store: the first point whose test is not false decides. *)
Lemma delete_point_near_outcome (self : Canvas2DQViewModel.t num)
    (x y threshold : num) :
  let points := HitTest.store_points (Canvas2DQViewModel.plot_data self) in
  let r := Canvas2DQViewModel.delete_point_near self x y threshold in
  (r = None ↔ HitTest.first_outcome x y threshold points None)
  ∧ ((∃ self', r = Some (true, self'))
     ↔ HitTest.first_outcome x y threshold points (Some true))
  ∧ (r = Some (false, self)
     ↔ Forall (λ p, HitTest.near x y threshold p = Some false) points)
  ∧ (∀ self', r = Some (false, self') → self' = self).
Proof.
  intros points r.
  pose proof (delete_point_near_loop_scan x y threshold
                (Canvas2DPlotData.get_all_plots
                   (Canvas2DQViewModel._plot_data self))
                (Canvas2DQViewModel._plot_data self) 0) as Hscan.
  pose proof (first_hit_outcome x y threshold points None) as Hraise.
  pose proof (first_hit_outcome x y threshold points (Some true)) as Htrue.
  pose proof (first_hit_misses x y threshold points) as Hmiss.
  subst r. unfold Canvas2DQViewModel.delete_point_near.
  fold (HitTest.store_points (Canvas2DQViewModel._plot_data self)) in Hscan.
  change (HitTest.store_points (Canvas2DQViewModel._plot_data self))
    with points in Hscan.
  assert (Canvas2DQViewModel.set_plot_data self
            (Canvas2DQViewModel._plot_data self) = self) as Hself
    by (by destruct self).
  rewrite Hraise, Htrue by done.
  destruct (Canvas2DQViewModel.first_hit x y threshold points)
    as [[point|]|].
  - destruct Hscan as [pd' ->]. simpl.
    split; [done|]. split; [split; [done|by eexists]|].
    split; [|done]. split; [done|]. by intros Hall%Hmiss.
  - rewrite Hscan. simpl. rewrite Hself.
    split; [done|]. split; [split; [by intros [self' ?]|done]|].
    split; [|by intros self' [= <-]].
    split; [|done]. intros _. by apply Hmiss.
  - rewrite Hscan. simpl.
    split; [done|]. split; [split; [by intros [self' ?]|done]|].
    split; [|done]. split; [done|]. by intros Hall%Hmiss.
Qed.

(** C6. [delete_point_near x y threshold] tests the points of the store (a
    point plot, or the points of a polyline or polygon): a point passes
    when it is deletable and
    [((p.x - x) ** 2 + (p.y - y) ** 2) ** 0.5 <= threshold] in the
    arithmetic of the program; the distance of a point that is not
    deletable is not computed.  When no power raises on a point of the
    store, the call returns.  Whenever the call returns, it returns [True]
    if and only if some point of the store passes the test, and when it
    returns [False] the view model, with the plots, the points, both stacks
    and every update flag, is unchanged.  When on every point of the store
    the arithmetic of the program decides the test as exact arithmetic on
    the values of the numbers does, the call returns, and it returns [True]
    if and only if the store holds a deletable point at Euclidean distance
    at most [threshold] from [(x, y)]. *)
Theorem delete_point_near_threshold (self : Canvas2DQViewModel.t num)
    (x y threshold : num) :
  let points := HitTest.store_points (Canvas2DQViewModel.plot_data self) in
  let r := Canvas2DQViewModel.delete_point_near self x y threshold in
  (Forall (λ p, is_Some (HitTest.near x y threshold p)) points → is_Some r)
  ∧ (∀ b self',
       r = Some (b, self') →
       (b = true ↔
          ∃ p, p ∈ points ∧ HitTest.near x y threshold p = Some true)
       ∧ (b = false → self' = self))
  ∧ (∀ value : num → option QArith_base.Q,
       Forall (λ p, HitTest.near x y threshold p
                    = Some (HitTest.euclidean_near value x y threshold p))
         points →
       ∃ b self',
         r = Some (b, self')
         ∧ (b = true ↔
              ∃ p, p ∈ points
                   ∧ HitTest.euclidean_near value x y threshold p = true)).
Proof.
  intros points r.
  destruct (delete_point_near_outcome self x y threshold)
    as (Hraise & Htrue & Hfalse & Hsame).
  fold points r in Hraise, Htrue, Hfalse, Hsame.
  assert (Forall (λ p, is_Some (HitTest.near x y threshold p)) points →
          is_Some r) as Hreturns.
  { intros Hall. destruct r as [r'|] eqn:Hr; [done|].
    destruct (proj1 Hraise eq_refl) as (before & p & after & Heq & _ & Hp).
    rewrite Forall_forall in Hall.
    destruct (Hall p) as [o Ho]; [|congruence].
    rewrite Heq. apply elem_of_app. right. apply list_elem_of_here. }
  assert (∀ b self',
    r = Some (b, self') →
    (b = true ↔ ∃ p, p ∈ points ∧ HitTest.near x y threshold p = Some true)
    ∧ (b = false → self' = self)) as Hflag.
  { intros b self' Hr. destruct b.
    - split; [|done]. split; [|done]. intros _.
      destruct (proj1 Htrue) as (before & p & after & Heq & _ & Hp);
        [by eexists|].
      exists p. split; [|done].
      rewrite Heq. apply elem_of_app. right. apply list_elem_of_here.
    - split; [|by intros _; apply Hsame]. split; [done|].
      intros (p & Hin & Hp). rewrite (Hsame _ Hr) in Hr.
      apply Hfalse in Hr. rewrite Forall_forall in Hr.
      rewrite (Hr _ Hin) in Hp. done. }
  split; [done|]. split; [done|].
  intros value Hexact. rewrite Forall_forall in Hexact.
  destruct Hreturns as [[b self'] Hr].
  { apply Forall_forall. intros p Hin. rewrite (Hexact _ Hin). by eexists. }
  exists b, self'. split; [done|].
  rewrite (proj1 (Hflag b self' Hr)).
  split; intros (p & Hin & Hp); exists p; (split; [done|]).
  - rewrite (Hexact _ Hin) in Hp. by injection Hp.
  - by rewrite (Hexact _ Hin), Hp.
Qed.
End hit_test.

(** ** Concrete runs *)

(** The first corner of a closed polygon can be removed, and the ring then
    ends in the closing point of a corner that is gone: [_ensure_closed]
    does nothing to a polygon that is marked closed. *)
Example remove_first_point_leaves_ring_open :
  PolygonData2D.closed Examples.beheaded = true
  ∧ PointData2D.id <$> PolygonData2D.points Examples.beheaded
    = ["p2"; "p3"; "p1_close"]
  ∧ ¬ PolygonTrace.closure_as_specified Examples.beheaded.
Proof.
  split_and!; [reflexivity|reflexivity|].
  intros [_ Hring]. destruct Hring as (f & l & Hf & Hl & Hx & _); [reflexivity|].
  vm_compute in Hf, Hl. injection Hf as <-. injection Hl as <-.
  discriminate Hx.
Qed.

(** C1, counterexample.  Three points of which the third lies on the first:
    the polygon is closed and no closing point is made, so the last point is
    the caller's deletable one. *)
Lemma closure_as_specified_counterexample :
  ¬ PolygonTrace.closure_as_specified
      (PolygonTrace.run Examples.empty_polygon Examples.coincident_calls).
Proof.
  intros [_ Hring].
  destruct Hring as (f & l & _ & Hl & _ & _ & Hdel); [reflexivity|].
  vm_compute in Hl. injection Hl as <-. discriminate Hdel.
Qed.

(** C1, a run of the amended property: four corners, one of the middle
    ones removed. *)
Lemma closure_invariant_witness :
  let self := PolygonTrace.run Examples.empty_polygon Examples.trimmed_calls in
  PolygonData2D.closed self
    = bool_decide (3 ≤ length (PolygonData2D.points self))
  ∧ ∃ f l,
      head (PolygonData2D.points self) = Some f
      ∧ last (PolygonData2D.points self) = Some l
      ∧ (l = PolygonData2D.closing_point f
         ∨ (l ∈ PolygonTrace.added Examples.trimmed_calls
            ∧ num_eqb (PointData2D.x f) (PointData2D.x l) = true
            ∧ num_eqb (PointData2D.y f) (PointData2D.y l) = true)).
Proof.
  intros self.
  pose proof (closure_invariant (num:=Z) "polygon_1" "g" true
                Examples.trimmed_calls) as [Hcount Hring].
  split; [exact Hcount|]. apply Hring; reflexivity.
Defined.

(** C5, counterexample.  The closing point [p1_close] is present and not
    deletable, and [remove_point "p1_close"] removes the caller's point of
    that id and returns [True]. *)
Lemma remove_point_by_closing_id_counterexample :
  let self := PolygonTrace.run Examples.empty_polygon Examples.clash_calls in
  ¬ (∀ p, p ∈ PolygonData2D.points self →
          PointData2D.deletable p = false →
          PolygonData2D.remove_point self (PointData2D.id p) = (false, self)).
Proof.
  intros self Hclaim.
  specialize (Hclaim (PolygonData2D.closing_point (Examples.point "p1" 0 0))).
  assert (PolygonData2D.remove_point self "p1_close" = (false, self)) as Hrm.
  { apply Hclaim; [|reflexivity]. vm_compute. repeat constructor. }
  vm_compute in Hrm. discriminate Hrm.
Qed.

(** C5, the closing point of the triangle cannot be removed. *)
Lemma remove_point_protects_target_witness :
  PolygonData2D.remove_point Examples.triangle "p1_close"
  = (false, Examples.triangle).
Proof.
  apply (proj1 (remove_point_protects_target (num:=Z) Examples.triangle
                  "p1_close")
           (PolygonData2D.closing_point (Examples.point "p1" 0 0)));
    reflexivity.
Defined.

(** C7, a fourth corner added to the triangle. *)
Lemma add_point_inserts_before_closer_witness :
  let self := Examples.triangle in
  let self' := PolygonData2D.add_point self (Examples.point "p4" 0 1) in
  PointData2D.id <$> PolygonData2D.points self' = ["p1"; "p2"; "p3"; "p4"; "p1_close"]
  ∧ PolygonData2D.points self' !! 3 = Some (Examples.point "p4" 0 1)
  ∧ last (PolygonData2D.points self') = last (PolygonData2D.points self)
  ∧ PolygonData2D.update self' = true.
Proof.
  intros self self'.
  destruct (add_point_inserts_before_closer (num:=Z) self
              (Examples.point "p4" 0 1))
    as (Hpts & Hat & _ & Hlast & Hupd); [reflexivity|simpl; lia|].
  fold self' in Hpts, Hat, Hlast, Hupd.
  split_and!; [by rewrite Hpts|exact Hat|exact Hlast|exact Hupd].
Defined.

(** C9, the constructor on three corners. *)
Lemma init_auto_closes_witness :
  let pts := [Examples.point "p1" 0 0; Examples.point "p2" 1 0;
              Examples.point "p3" 1 1] in
  let self := PolygonData2D.init "polygon_1" (Some pts) "g" true in
  PolygonData2D.closed self = true
  ∧ ∃ c, PolygonData2D.points self = pts ++ [c]
         ∧ PointData2D.x c = 0%Z ∧ PointData2D.y c = 0%Z
         ∧ PointData2D.deletable c = false
         ∧ PointData2D.id c = "p1_close".
Proof.
  intros pts self.
  destruct (init_auto_closes (num:=Z) "polygon_1" pts "g" true
              (Examples.point "p1" 0 0) (Examples.point "p3" 1 1))
    as (Hclosed & Hdiffer & _); [simpl; lia|reflexivity|reflexivity|].
  split; [exact Hclosed|]. apply Hdiffer. reflexivity.
Defined.

(** C10, the last free corner removed: the closing point goes with it. *)
Lemma remove_point_unclose_witness :
  let self := PolygonTrace.run Examples.empty_polygon Examples.corner_calls in
  ∃ self',
    PolygonData2D.remove_point self "p3" = (true, self')
    ∧ PolygonData2D.closed self' = false
    ∧ PolygonData2D.points self' = [Examples.point "p1" 0 0].
Proof.
  intros self.
  destruct (remove_point_unclose (num:=Z) self "p3"
              [Examples.point "p1" 0 0] (Examples.point "p3" 1 1)
              [PolygonData2D.closing_point (Examples.point "p1" 0 0)])
    as (self' & Hrm & Hclosed & Hdrop & _ & _).
  - reflexivity.
  - by apply (bool_decide_unpack _).
  - reflexivity.
  - reflexivity.
  - simpl. lia.
  - exists self'. split_and!; [exact Hrm|exact Hclosed|].
    apply (Hdrop (PolygonData2D.closing_point (Examples.point "p1" 0 0)));
      [reflexivity|by exists "p1"].
Defined.

(** C2, the run on which the round trip fails.  The store holds the
    triangle whose first corner was removed; [undo] and [redo] both succeed,
    and the polygon that [redo] restores has one point more than the polygon
    that was there: the copy, built by the constructor, was closed a second
    time. *)
Theorem undo_redo_adds_closing_point :
  let st := StoreTrace.run Canvas2DPlotData.init
              [StoreTrace.Add_plot (Base2DPlotData.Polygon Examples.beheaded)] in
  let u := StoreTrace.undos 1 st in
  let r := StoreTrace.redos 1 u.2 in
  Examples.outline st = [("polygon_1", ["p2"; "p3"; "p1_close"])]
  ∧ u.1 = [true]
  ∧ Examples.outline u.2 = []
  ∧ r.1 = [true]
  ∧ Examples.outline r.2
    = [("polygon_1", ["p2"; "p3"; "p1_close"; "p2_close"])].
Proof. by split_and!. Qed.

(** C3, on 75 additions and 75 removals. *)
Lemma history_bound_witness :
  let st := StoreTrace.run Canvas2DPlotData.init Examples.history_calls in
  length (Canvas2DPlotData._undo_stack st) = 100
  ∧ (StoreTrace.undos 100 st).1 = replicate 100 true
  ∧ (Canvas2DPlotData.undo (StoreTrace.undos 100 st).2).1 = false.
Proof.
  intros st.
  destruct (history_bound (num:=Z) Examples.history_calls)
    as (_ & Hlen & Htrue & Hfalse); [reflexivity|vm_compute; reflexivity|].
  split_and!; [exact Hlen|exact Htrue|exact Hfalse].
Defined.

(** C4, [clear] after an [undo]. *)
Lemma redo_invalidation_witness :
  let st := (Canvas2DPlotData.undo
               (Canvas2DPlotData.add_plot Canvas2DPlotData.init
                  (Base2DPlotData.Point (Examples.point "point_1" 0 0)))).2 in
  let st' := Canvas2DPlotData.clear st in
  length (Canvas2DPlotData._redo_stack st) = 1
  ∧ Canvas2DPlotData._redo_stack st' = []
  ∧ Canvas2DPlotData.redo st' = (false, st').
Proof.
  intros st st'.
  destruct (redo_invalidation (num:=Z) st StoreTrace.Clear)
    as (Hempty & Hredo & _); [reflexivity|].
  split_and!; [reflexivity|exact Hempty|exact Hredo].
Defined.

Section hit_runs.
Import PrimFloat.

(** C6, counterexample.  On the first store the point at the origin is
    deletable and at the distance 0 from the click, and the call raises on
    the point drawn before it, whose distance is out of range.  On the
    second store the one point is farther than 3 from the click, and the
    call with the threshold 3 returns [True]: the sum of the squares is
    rounded to 9. *)
Lemma delete_point_near_euclidean_counterexample :
  ((∃ p, p ∈ HitTest.store_points
               (Canvas2DQViewModel.plot_data HitExamples.far_first)
         ∧ HitTest.euclidean_near Binary64.value 0%float 0%float 10%float p
           = true)
   ∧ Canvas2DQViewModel.delete_point_near HitExamples.far_first
       0%float 0%float 10%float = None)
  ∧ ((∀ p, p ∈ HitTest.store_points
                 (Canvas2DQViewModel.plot_data HitExamples.just_outside) →
           HitTest.euclidean_near Binary64.value 0%float 0%float 3%float p
           = false)
     ∧ ∃ self', Canvas2DQViewModel.delete_point_near HitExamples.just_outside
                  0%float 0%float 3%float = Some (true, self')).
Proof.
  split; split.
  - exists (HitExamples.point "point_2" 0%float 0%float).
    split; [|reflexivity].
    apply list_elem_of_further, list_elem_of_here.
  - reflexivity.
  - intros p Hp. apply list_elem_of_singleton in Hp as ->. reflexivity.
  - eexists. reflexivity.
Qed.

(** C6, a click at the origin with the threshold 5 on the drawing: every
    test is decided as in exact arithmetic, and the corner [p2], at the
    distance 5, is found. *)
Lemma delete_point_near_threshold_witness :
  ∃ self', Canvas2DQViewModel.delete_point_near HitExamples.drawing
             0%float 0%float 5%float = Some (true, self').
Proof.
  destruct (delete_point_near_threshold HitExamples.drawing
              0%float 0%float 5%float) as (_ & _ & Heuclid).
  destruct (Heuclid Binary64.value) as (b & self' & Hr & Hb).
  { repeat (apply Forall_cons_2; [reflexivity|]). apply Forall_nil_2. }
  exists self'. rewrite Hr. f_equal. f_equal. apply Hb.
  exists (HitExamples.point "p2" 3%float 4%float). split; [|reflexivity].
  do 2 apply list_elem_of_further. apply list_elem_of_here.
Defined.
End hit_runs.

(** C8, the run on which the two extractions overlap.  The first polygon of
    the store has two points, the second is the triangle: the triangle is
    the boundary, and it is the one obstacle as well. *)
Theorem boundary_listed_among_obstacles :
  GaDPPRunnerQWidget._extract_boundary Examples.two_polygons
  = [[0; 0]; [1; 0]; [1; 1]]%Z
  ∧ GaDPPRunnerQWidget._extract_obstacles Examples.two_polygons
    = Some [[[0; 0]; [1; 0]; [1; 1]]]%Z.
Proof. by split. Qed.

(** * Further properties of the code *)

(** ** Lookup and removal by id *)

Section lookup_by_id.
Context {num : Type} `{Number num}.
Implicit Types l : list (PointData2D.t num).
Implicit Types p q point : PointData2D.t num.

(** The search by id runs through the first list, then the second. *)
Lemma find_id_app (pid : string) l1 l2 :
  snd <$> list_find (λ p, PointData2D.id p = pid) (l1 ++ l2)
  = match snd <$> list_find (λ p, PointData2D.id p = pid) l1 with
    | Some q => Some q
    | None => snd <$> list_find (λ p, PointData2D.id p = pid) l2
    end.
Proof.
  destruct (list_find (λ p, PointData2D.id p = pid) l1) as [[i q]|] eqn:Hf.
  - by rewrite (list_find_app_l _ _ _ _ _ Hf).
  - rewrite list_find_app_r by done. simpl.
    by destruct (list_find _ l2) as [[j q]|].
Qed.

Lemma find_id_singleton (pid : string) p :
  snd <$> list_find (λ p, PointData2D.id p = pid) [p]
  = if decide (PointData2D.id p = pid) then Some p else None.
Proof. simpl. by destruct (decide (PointData2D.id p = pid)). Qed.

Lemma find_id_None (pid : string) l :
  snd <$> list_find (λ p, PointData2D.id p = pid) l = None
  ↔ Forall (λ p, PointData2D.id p ≠ pid) l.
Proof. rewrite fmap_None. apply list_find_None. Qed.

Lemma find_id_Some_inv (pid : string) l i q :
  list_find (λ p, PointData2D.id p = pid) l = Some (i, q) →
  ∃ l1 l2, l = l1 ++ q :: l2 ∧ length l1 = i
           ∧ Forall (λ p, PointData2D.id p ≠ pid) l1
           ∧ PointData2D.id q = pid.
Proof.
  intros (Hi & Hq & Hleast)%list_find_Some.
  exists (take i l), (drop (S i) l). split_and!.
  - by rewrite take_drop_middle.
  - rewrite length_take. apply lookup_lt_Some in Hi. lia.
  - apply Forall_lookup. intros j y Hj.
    assert (j < i).
    { apply lookup_lt_Some in Hj. rewrite length_take in Hj. lia. }
    rewrite lookup_take_lt in Hj by done. by eapply Hleast.
  - done.
Qed.
End lookup_by_id.

Section polyline.
Context {num : Type} `{Number num}.
Implicit Types self : PolylineData2D.t num.
Implicit Types p q point : PointData2D.t num.

(** X1. [remove_point] of a polyline returns [True] exactly when some point
    carries the id; when it returns [False] the polyline is unchanged; when
    it returns [True] the first point of that id is taken out, whatever its
    deletable flag, the others stay in order and the update flag is set. *)
Theorem polyline_remove_point_first_match self (pid : string) :
  let r := PolylineData2D.remove_point self pid in
  (r.1 = true ↔ ∃ p, p ∈ PolylineData2D.points self ∧ PointData2D.id p = pid)
  ∧ (r.1 = false → r.2 = self)
  ∧ (∀ l1 q l2,
       PolylineData2D.points self = l1 ++ q :: l2 →
       Forall (λ p, PointData2D.id p ≠ pid) l1 →
       PointData2D.id q = pid →
       r = (true, PolylineData2D.mk (PolylineData2D.id self)
                    (PolylineData2D.color self) true (l1 ++ l2))).
Proof.
  intros r. subst r. unfold PolylineData2D.remove_point.
  destruct (list_find _ _) as [[i q]|] eqn:Hfind; simpl.
  - split_and!.
    + split; [|done]. intros _.
      apply list_find_Some in Hfind as (Hi & Hq & _).
      exists q. split; [|done]. by eapply list_elem_of_lookup_2.
    + done.
    + intros l1 q' l2 Hpts Hl1 Hq'.
      rewrite Hpts, (list_find_split pid l1 l2 q') in Hfind by done.
      injection Hfind as <- <-.
      unfold PolylineData2D.set_update, PolylineData2D.set_points. simpl.
      by rewrite Hpts, delete_middle.
  - apply list_find_None in Hfind. split_and!.
    + split; [done|]. intros (p & Hin & Hp).
      rewrite Forall_forall in Hfind. by destruct (Hfind p Hin).
    + done.
    + intros l1 q l2 Hpts _ Hq. rewrite Hpts in Hfind.
      apply Forall_app in Hfind as [_ Hfind].
      apply Forall_cons in Hfind as [Hne _]. done.
Qed.

(** X2. After [add_point] on a polyline, [get_point_by_id] answers as
    before for every id that was present, and finds the new point under its
    id only when no older point has that id. *)
Theorem polyline_get_point_after_add self point (pid : string) :
  PolylineData2D.get_point_by_id (PolylineData2D.add_point self point) pid
  = match PolylineData2D.get_point_by_id self pid with
    | Some q => Some q
    | None => if decide (PointData2D.id point = pid) then Some point else None
    end.
Proof.
  unfold PolylineData2D.get_point_by_id, PolylineData2D.add_point. simpl.
  by rewrite find_id_app, find_id_singleton.
Qed.

(** X3. On a polyline, [add_point] of a point whose id is new, followed by
    [remove_point] of that id, returns [True] and gives back the polyline
    (with its update flag set). *)
Theorem polyline_add_then_remove self point :
  PolylineData2D.get_point_by_id self (PointData2D.id point) = None →
  PolylineData2D.remove_point (PolylineData2D.add_point self point)
    (PointData2D.id point)
  = (true, PolylineData2D.set_update self true).
Proof.
  intros Hfresh. apply find_id_None in Hfresh.
  unfold PolylineData2D.remove_point, PolylineData2D.add_point. simpl.
  rewrite (list_find_split (PointData2D.id point)
             (PolylineData2D.points self) [] point) by done.
  unfold PolylineData2D.set_update, PolylineData2D.set_points. simpl.
  by rewrite delete_middle, app_nil_r.
Qed.
End polyline.

Section polygon_more.
Context {num : Type} `{Number num}.
Implicit Types self : PolygonData2D.t num.
Implicit Types p q point : PointData2D.t num.

(** [_ensure_closed] appends one point at most, and touches nothing else
    but the closed flag. *)
Lemma ensure_closed_points self :
  ∃ extra,
    PolygonData2D.points (PolygonData2D._ensure_closed self)
    = PolygonData2D.points self ++ extra
    ∧ length extra ≤ 1.
Proof.
  assert (∃ extra, PolygonData2D.points self
                   = PolygonData2D.points self ++ extra ∧ length extra ≤ 1)
    as Hsame.
  { exists []. rewrite app_nil_r. split; [done|simpl; lia]. }
  unfold PolygonData2D._ensure_closed.
  destruct (_ && _); [|done].
  destruct (head _) as [f|]; [|done].
  destruct (last _) as [l|]; [|done].
  destruct (_ || _); simpl; [|done].
  exists [PolygonData2D.closing_point f]. split; [done|simpl; lia].
Qed.

(** The list after [add_point]: the point put before the last one, or put
    at the end and followed by one point at most. *)
Lemma add_point_points self point :
  (∃ front back,
     PolygonData2D.points self = front ++ back
     ∧ back ≠ []
     ∧ PolygonData2D.points (PolygonData2D.add_point self point)
       = front ++ point :: back)
  ∨ (∃ extra,
       PolygonData2D.points (PolygonData2D.add_point self point)
       = PolygonData2D.points self ++ point :: extra
       ∧ length extra ≤ 1).
Proof.
  unfold PolygonData2D.add_point.
  destruct (PolygonData2D.closed self && _) eqn:Hin; simpl.
  - left. apply andb_true_iff in Hin as [_ Hlen%Nat.leb_le].
    exists (take (length (PolygonData2D.points self) - 1)
              (PolygonData2D.points self)),
           (drop (length (PolygonData2D.points self) - 1)
              (PolygonData2D.points self)).
    split_and!; [by rewrite take_drop| |done].
    intros Hnil%(f_equal length). rewrite length_drop in Hnil.
    simpl in Hnil. lia.
  - right. destruct (3 <=? length (_ ++ _)).
    + destruct (ensure_closed_points
                  (PolygonData2D.set_points self
                     (PolygonData2D.points self ++ [point])))
        as (extra & -> & Hextra).
      exists extra. simpl. by rewrite <-app_assoc.
    + exists []. split; [done|simpl; lia].
Qed.

(** X5. [add_point] on a polygon keeps every point in its order, puts the
    new point in the list, and makes the list one or two points longer. *)
Theorem polygon_add_point_keeps_points self point :
  let self' := PolygonData2D.add_point self point in
  PolygonData2D.points self `sublist_of` PolygonData2D.points self'
  ∧ point ∈ PolygonData2D.points self'
  ∧ length (PolygonData2D.points self)
    < length (PolygonData2D.points self')
    ≤ length (PolygonData2D.points self) + 2.
Proof.
  intros self'. subst self'.
  destruct (add_point_points self point)
    as [(front & back & Hpts & _ & ->)|(extra & -> & Hextra)].
  - rewrite Hpts. split_and!.
    + apply sublist_app; [done|]. by apply sublist_cons.
    + apply elem_of_app. right. apply list_elem_of_here.
    + rewrite !length_app. simpl. lia.
    + rewrite !length_app. simpl. lia.
  - split_and!.
    + by apply sublist_inserts_r.
    + apply elem_of_app. right. apply list_elem_of_here.
    + rewrite !length_app. simpl. lia.
    + rewrite !length_app. simpl. lia.
Qed.

(** X7. After [add_point] on a polygon, a point whose id was new is found
    under its id, and every id that was present and differs from the new
    one still leads to the same point. *)
Theorem polygon_get_point_after_add self point :
  (PolygonData2D.get_point_by_id self (PointData2D.id point) = None →
   PolygonData2D.get_point_by_id (PolygonData2D.add_point self point)
     (PointData2D.id point) = Some point)
  ∧ (∀ pid q,
       PointData2D.id point ≠ pid →
       PolygonData2D.get_point_by_id self pid = Some q →
       PolygonData2D.get_point_by_id (PolygonData2D.add_point self point) pid
       = Some q).
Proof.
  unfold PolygonData2D.get_point_by_id.
  destruct (add_point_points self point)
    as [(front & back & Hpts & _ & ->)|(extra & -> & Hextra)].
  - rewrite Hpts. split.
    + rewrite !find_id_app. intros Hfresh.
      destruct (snd <$> list_find _ front); [done|].
      change (point :: back) with ([point] ++ back).
      rewrite find_id_app, find_id_singleton. by rewrite decide_True.
    + intros pid q Hne. rewrite !find_id_app.
      destruct (snd <$> list_find _ front); [done|].
      change (point :: back) with ([point] ++ back).
      rewrite find_id_app, find_id_singleton. by rewrite decide_False.
  - split.
    + intros Hfresh. rewrite find_id_app, Hfresh.
      change (point :: extra) with ([point] ++ extra).
      rewrite find_id_app, find_id_singleton. by rewrite decide_True.
    + intros pid q Hne Hq. by rewrite find_id_app, Hq.
Qed.

(** X4. [remove_point] of a polygon returns [True] exactly when the id
    leads ([get_point_by_id]) to a deletable point; when it returns [False]
    (no such id, or a point that is not deletable) the polygon is
    unchanged. *)
Theorem polygon_remove_point_result self (pid : string) :
  let r := PolygonData2D.remove_point self pid in
  (r.1 = true ↔
     ∃ p, PolygonData2D.get_point_by_id self pid = Some p
          ∧ PointData2D.deletable p = true)
  ∧ (r.1 = false → r.2 = self).
Proof.
  intros r. subst r.
  unfold PolygonData2D.remove_point, PolygonData2D.get_point_by_id.
  destruct (list_find _ _) as [[i q]|]; simpl.
  - destruct (PointData2D.deletable q) eqn:Hdel; simpl.
    + split; [|done]. split; [|done]. intros _. by exists q.
    + split; [|done]. split; [done|]. intros (p & [= <-] & Hp). congruence.
  - split; [|done]. split; [done|]. by intros (p & ? & _).
Qed.

(** X6. On a polygon whose closed flag tells whether it has three points
    or more, [remove_point] adds no point and keeps the order, takes out two
    points at most, and, when the ids are distinct and it returns [True],
    leaves no point under the id. *)
Theorem polygon_remove_point_only_removes self (pid : string) :
  PolygonTrace.counted self →
  let r := PolygonData2D.remove_point self pid in
  PolygonData2D.points r.2 `sublist_of` PolygonData2D.points self
  ∧ length (PolygonData2D.points self) ≤ length (PolygonData2D.points r.2) + 2
  ∧ (NoDup (PointData2D.id <$> PolygonData2D.points self) →
     r.1 = true →
     PolygonData2D.get_point_by_id r.2 pid = None).
Proof.
  intros Hcnt r. subst r.
  destruct (list_find (λ p, PointData2D.id p = pid)
              (PolygonData2D.points self)) as [[i q]|] eqn:Hfind.
  2:{ rewrite remove_point_absent by done. simpl.
      split_and!; [done|lia|done]. }
  destruct (PointData2D.deletable q) eqn:Hdel.
  2:{ rewrite (remove_point_refused _ _ i q) by done. simpl.
      split_and!; [done|lia|done]. }
  pose proof Hfind as (l1 & l2 & Hpts & Hi & Hl1 & Hq)%find_id_Some_inv.
  assert (NoDup (PointData2D.id <$> PolygonData2D.points self) →
          Forall (λ p, PointData2D.id p ≠ pid) (l1 ++ l2)) as Hgone.
  { rewrite Hpts, fmap_app, fmap_cons. intros Hnd.
    apply NoDup_app in Hnd as (_ & Hdisj & Hnd).
    apply NoDup_cons in Hnd as [Hnotin _].
    apply Forall_app. split; [done|].
    apply Forall_forall. intros p Hp Hid. apply Hnotin.
    rewrite Hq, <-Hid. by apply list_elem_of_fmap_2. }
  assert (∀ pts, pts `sublist_of` l1 ++ l2 →
          NoDup (PointData2D.id <$> PolygonData2D.points self) →
          snd <$> list_find (λ p, PointData2D.id p = pid) pts = None) as Hnone.
  { intros pts Hsub Hnd. apply find_id_None.
    specialize (Hgone Hnd). rewrite Forall_forall in Hgone.
    apply Forall_forall. intros p Hp. apply Hgone.
    by eapply sublist_subseteq. }
  assert (delete i (PolygonData2D.points self) = l1 ++ l2) as Hdelete.
  { by rewrite Hpts, <-Hi, delete_middle. }
  destruct (decide (length (PolygonData2D.points self) - 1 < 3)).
  - unfold PolygonData2D.remove_point. rewrite Hfind, Hdel. simpl.
    rewrite Hdelete.
    assert (length (PolygonData2D.points self) = S (length (l1 ++ l2))) as Hlen.
    { rewrite Hpts, !length_app. simpl. lia. }
    destruct (Nat.ltb_spec (length (l1 ++ l2)) 3); [|lia].
    assert (l1 ++ l2 `sublist_of` PolygonData2D.points self) as Hsub.
    { rewrite Hpts. apply sublist_app; [done|]. by apply sublist_cons. }
    destruct (last (l1 ++ l2)) as [t|] eqn:Hlast; simpl;
      [destruct (endswith _ _)|]; polygon_fields.
    + split_and!.
      * etrans; [|exact Hsub]. rewrite removelast_firstn_len.
        apply sublist_take.
      * rewrite length_removelast. lia.
      * intros Hnd _. apply Hnone; [|done].
        rewrite removelast_firstn_len. apply sublist_take.
    + split_and!; [done|lia|]. intros Hnd _. by apply Hnone.
    + split_and!; [done|lia|]. intros Hnd _. by apply Hnone.
  - destruct (PolygonData2D.closed self) eqn:Hc.
    2:{ pose proof (counted_open _ Hcnt Hc). lia. }
    destruct (remove_point_inside _ _ _ _ Hfind Hdel) as [-> Hlen];
      [lia|done|].
    simpl. rewrite Hdelete in *. split_and!.
    + rewrite Hpts. apply sublist_app; [done|]. by apply sublist_cons.
    + lia.
    + intros Hnd _. by apply Hnone.
Qed.
End polygon_more.

(** ** Dictionaries and the store *)

Section dict_facts.
Context {V : Type}.
Implicit Types d : dict V.

Lemma dict_get_nil (k : string) : dict_get (V:=V) k [] = None.
Proof. done. Qed.

Lemma dict_get_cons (k k0 : string) (v0 : V) d :
  dict_get k ((k0, v0) :: d)
  = if decide (k0 = k) then Some v0 else dict_get k d.
Proof.
  unfold dict_get. simpl. destruct (decide (k0 = k)); [done|].
  by destruct (list_find _ d) as [[i [k1 v1]]|].
Qed.

Lemma dict_get_app (k : string) d1 d2 :
  dict_get k (d1 ++ d2)
  = match dict_get k d1 with Some v => Some v | None => dict_get k d2 end.
Proof.
  induction d1 as [|[k0 v0] d1 IH]; [done|].
  rewrite <-app_comm_cons, !dict_get_cons. by destruct (decide (k0 = k)).
Qed.

Lemma dict_get_None (k : string) d : dict_get k d = None ↔ k ∉ d.*1.
Proof.
  induction d as [|[k0 v0] d IH]; simpl.
  - split; [intros _; apply not_elem_of_nil|done].
  - rewrite dict_get_cons, not_elem_of_cons.
    destruct (decide (k0 = k)) as [->|Hne].
    + split; [done|]. by intros [? _].
    + rewrite IH. split; [by intros ?; split|by intros [_ ?]].
Qed.

Lemma dict_contains_get (k : string) d :
  dict_contains k d = true ↔ is_Some (dict_get k d).
Proof.
  rewrite dict_contains_true, <-not_eq_None_Some, dict_get_None.
  split; [auto|]. intros Hnn. by destruct (decide (k ∈ d.*1)).
Qed.

Lemma dict_get_fmap_values (k : string) (g : string → V → V) d :
  dict_get k ((λ kv, (kv.1, g kv.1 kv.2)) <$> d) = g k <$> dict_get k d.
Proof.
  induction d as [|[k0 v0] d IH]; [done|].
  rewrite fmap_cons. simpl. rewrite !dict_get_cons.
  destruct (decide (k0 = k)) as [->|?]; [done|]. apply IH.
Qed.

Lemma dict_set_present (k : string) (v : V) d :
  dict_contains k d = true →
  dict_set k v d
  = (λ kv, (kv.1, if decide (kv.1 = k) then v else kv.2)) <$> d.
Proof.
  intros Hc. unfold dict_set. rewrite Hc. apply list_fmap_ext.
  intros i [k0 v0] _. simpl. by destruct (decide (k0 = k)).
Qed.

Lemma dict_set_absent (k : string) (v : V) d :
  dict_contains k d = false → dict_set k v d = d ++ [(k, v)].
Proof. intros Hc. unfold dict_set. by rewrite Hc. Qed.

Lemma dict_get_set (k k' : string) (v : V) d :
  dict_get k' (dict_set k v d)
  = if decide (k' = k) then Some v else dict_get k' d.
Proof.
  destruct (dict_contains k d) eqn:Hc.
  - rewrite dict_set_present by done.
    etrans;
      [exact (dict_get_fmap_values k'
                (λ k0 v0, if decide (k0 = k) then v else v0) d)|].
    simpl. destruct (decide (k' = k)) as [->|?].
    + apply dict_contains_get in Hc as [v1 ->]. done.
    + by destruct (dict_get k' d).
  - rewrite dict_set_absent, dict_get_app by done.
    apply dict_contains_false, dict_get_None in Hc.
    rewrite dict_get_cons, dict_get_nil.
    destruct (decide (k' = k)) as [->|?].
    + by rewrite Hc, decide_True.
    + rewrite decide_False by done. by destruct (dict_get k' d).
Qed.

Lemma dict_get_del (k k' : string) d :
  dict_get k' (dict_del k d)
  = if decide (k' = k) then None else dict_get k' d.
Proof.
  unfold dict_del. induction d as [|[k0 v0] d IH].
  - by destruct (decide (k' = k)).
  - rewrite filter_cons. simpl.
    destruct (decide (k0 ≠ k)) as [Hne|Heq]; rewrite !dict_get_cons.
    + rewrite IH. destruct (decide (k0 = k')) as [->|?]; [|done].
      by rewrite decide_False.
    + apply dec_stable in Heq as ->. rewrite IH.
      destruct (decide (k' = k)) as [->|?]; [done|].
      by rewrite decide_False.
Qed.

Lemma dict_set_keys_list (k : string) (v : V) d :
  (dict_set k v d).*1 = if dict_contains k d then d.*1 else d.*1 ++ [k].
Proof.
  destruct (dict_contains k d) eqn:Hc.
  - rewrite dict_set_present by done. rewrite <-list_fmap_compose.
    by apply list_fmap_ext.
  - rewrite dict_set_absent by done. by rewrite fmap_app.
Qed.

Lemma dict_get_Some_values (k : string) (v : V) d :
  dict_get k d = Some v → v ∈ d.*2.
Proof.
  induction d as [|[k0 v0] d IH]; [done|].
  rewrite dict_get_cons, fmap_cons. simpl.
  destruct (decide (k0 = k)).
  - intros [= ->]. apply list_elem_of_here.
  - intros Hget. apply list_elem_of_further. by apply IH.
Qed.

Lemma dict_set_values (k : string) (v v' : V) d :
  v' ∈ (dict_set k v d).*2 → v' = v ∨ v' ∈ d.*2.
Proof.
  destruct (dict_contains k d) eqn:Hc.
  - rewrite dict_set_present by done. rewrite <-list_fmap_compose.
    intros ([k0 v0] & -> & Hin)%list_elem_of_fmap. simpl.
    destruct (decide (k0 = k)); [by left|right].
    apply list_elem_of_fmap. by exists (k0, v0).
  - rewrite dict_set_absent by done. rewrite fmap_app.
    intros [?|Hin]%elem_of_app; [by right|left].
    by apply list_elem_of_singleton in Hin.
Qed.
End dict_facts.

Section store_more.
Context {num : Type} `{Number num}.
Implicit Types st : Canvas2DPlotData.t num.
Implicit Types p q : Base2DPlotData.t num.

(** X8. After [add_plot], [get_plot] finds the plot, with its update flag
    set, under its id, and answers as before for every other id; a plot of
    a new id goes to the end of the iteration order, a plot of a present id
    takes the place of the old one. *)
Theorem add_plot_then_get_plot st p :
  let st' := Canvas2DPlotData.add_plot st p in
  (∀ plot_id,
     Canvas2DPlotData.get_plot st' plot_id
     = if decide (plot_id = Base2DPlotData.id p)
       then Some (Base2DPlotData.set_update p true)
       else Canvas2DPlotData.get_plot st plot_id)
  ∧ (Canvas2DPlotData._plots st').*1
    = (if Canvas2DPlotData.get_plot st (Base2DPlotData.id p) is Some _
       then (Canvas2DPlotData._plots st).*1
       else (Canvas2DPlotData._plots st).*1 ++ [Base2DPlotData.id p]).
Proof.
  intros st'. subst st'. unfold Canvas2DPlotData.add_plot,
    Canvas2DPlotData.get_plot. simpl. split.
  - intros plot_id. apply dict_get_set.
  - rewrite dict_set_keys_list.
    destruct (dict_contains _ _) eqn:Hc.
    + by apply dict_contains_get in Hc as [v ->].
    + apply dict_contains_false, dict_get_None in Hc. by rewrite Hc.
Qed.

(** X9. [remove_plot] returns [True] exactly when the id is in the store;
    when it returns [False] nothing changes; afterwards the id is not found,
    the other ids are found as before, and the order of the plots that are
    left is kept. *)
Theorem remove_plot_result st (plot_id : string) :
  let r := Canvas2DPlotData.remove_plot st plot_id in
  (r.1 = true ↔ is_Some (Canvas2DPlotData.get_plot st plot_id))
  ∧ (r.1 = false → r.2 = st)
  ∧ (∀ k, Canvas2DPlotData.get_plot r.2 k
          = if decide (k = plot_id) then None
            else Canvas2DPlotData.get_plot st k)
  ∧ (Canvas2DPlotData._plots r.2).*1
    `sublist_of` (Canvas2DPlotData._plots st).*1.
Proof.
  intros r. subst r. unfold Canvas2DPlotData.remove_plot,
    Canvas2DPlotData.get_plot.
  destruct (dict_contains _ _) eqn:Hc; simpl.
  - split_and!.
    + split; [|done]. intros _. by apply dict_contains_get.
    + done.
    + intros k. apply dict_get_del.
    + unfold dict_del. apply fmap_sublist, sublist_filter.
  - pose proof Hc as Hnone%dict_contains_false%dict_get_None.
    split_and!.
    + split; [done|]. rewrite Hnone. by intros [? ?].
    + done.
    + intros k. destruct (decide (k = plot_id)) as [->|?]; done.
    + done.
Qed.

Lemma set_update_update p (b : bool) :
  Base2DPlotData.update (Base2DPlotData.set_update p b) = b.
Proof. by destruct p. Qed.

Lemma set_all_update_values (b : bool) (plots : dict (Base2DPlotData.t num)) q :
  q ∈ (Canvas2DPlotData.set_all_update b plots).*2 →
  Base2DPlotData.update q = b.
Proof.
  unfold Canvas2DPlotData.set_all_update. rewrite <-list_fmap_compose.
  intros ([k v] & -> & _)%list_elem_of_fmap. apply set_update_update.
Qed.

Lemma filter_nothing {A} (P : A → Prop) `{!∀ x, Decision (P x)} (l : list A) :
  (∀ x, x ∈ l → ¬ P x) → filter P l = [].
Proof.
  intros Hl. induction l as [|x l IH]; [done|].
  rewrite filter_cons_False.
  - apply IH. intros y Hy. apply Hl. by apply list_elem_of_further.
  - apply Hl. apply list_elem_of_here.
Qed.

(** X10. After [mark_all_updated], [get_plots_to_update] is empty; after a
    following [add_plot], it holds the added plot and nothing else. *)
Theorem mark_all_updated_then_add_plot st p :
  Canvas2DPlotData.get_plots_to_update (Canvas2DPlotData.mark_all_updated st)
  = []
  ∧ (∀ q, q ∈ Canvas2DPlotData.get_plots_to_update
                (Canvas2DPlotData.add_plot
                   (Canvas2DPlotData.mark_all_updated st) p)
          ↔ q = Base2DPlotData.set_update p true).
Proof.
  split.
  - unfold Canvas2DPlotData.get_plots_to_update,
      Canvas2DPlotData.mark_all_updated, dict_values. simpl.
    apply filter_nothing. intros q Hq.
    rewrite (set_all_update_values false _ q Hq). done.
  - intros q. unfold Canvas2DPlotData.get_plots_to_update,
      Canvas2DPlotData.add_plot, Canvas2DPlotData.mark_all_updated,
      dict_values. simpl.
    rewrite list_elem_of_filter. split.
    + intros [Hupd [->|Hold]%dict_set_values]; [done|].
      rewrite (set_all_update_values false _ q Hold) in Hupd. done.
    + intros ->. split; [apply set_update_update|].
      apply (dict_get_Some_values (Base2DPlotData.id p)).
      by rewrite dict_get_set, decide_True.
Qed.
End store_more.

Section undo_steps.
Context {num : Type} `{Number num}.
Implicit Types st : Canvas2DPlotData.t num.

(** The snapshot just taken is on top of the undo stack, whatever was
    evicted. *)
Lemma save_state_last st :
  last (Canvas2DPlotData._undo_stack (Canvas2DPlotData._save_state_for_undo st))
  = Some (Canvas2DPlotData.copy_state (Canvas2DPlotData._plots st)).
Proof.
  unfold Canvas2DPlotData._save_state_for_undo. simpl.
  rewrite length_app. simpl.
  destruct (Nat.ltb_spec 100 (length (Canvas2DPlotData._undo_stack st) + 1)).
  - destruct (Canvas2DPlotData._undo_stack st) as [|s0 U]; [simpl in *; lia|].
    simpl. apply last_snoc.
  - apply last_snoc.
Qed.

(** [undo] in a state whose undo stack is the one a snapshot of [st] left. *)
Lemma undo_after_snapshot st st' :
  Canvas2DPlotData._undo_stack st'
  = Canvas2DPlotData._undo_stack (Canvas2DPlotData._save_state_for_undo st) →
  Canvas2DPlotData.undo st'
  = (true,
     Canvas2DPlotData.mk
       (Canvas2DPlotData.set_all_update true
          (Canvas2DPlotData.copy_state (Canvas2DPlotData._plots st)))
       (removelast (Canvas2DPlotData._undo_stack st'))
       (Canvas2DPlotData._redo_stack st'
        ++ [Canvas2DPlotData.copy_state (Canvas2DPlotData._plots st')])).
Proof.
  intros HU. unfold Canvas2DPlotData.undo. by rewrite HU, save_state_last.
Qed.

(** X11. In any state of the store with distinct keys and consistent
    polygons, [undo] right after a mutating operation returns [True] and
    brings the contents back to what they were before the operation, update
    flags aside; the redo stack then has one entry. *)
Theorem undo_after_operation st (c : StoreTrace.call num) :
  StoreTrace.mutating st c = true →
  NoDup (Canvas2DPlotData._plots st).*1 →
  Forall (λ kv, Contents.plot_consistent kv.2) (Canvas2DPlotData._plots st) →
  let r := Canvas2DPlotData.undo (StoreTrace.step st c) in
  r.1 = true
  ∧ Contents.contents (Canvas2DPlotData._plots r.2)
    = Contents.contents (Canvas2DPlotData._plots st)
  ∧ length (Canvas2DPlotData._redo_stack r.2) = 1.
Proof.
  intros Hm Hnd Hall r. subst r.
  destruct (step_stacks st c Hm) as [HU HR].
  rewrite (undo_after_snapshot st) by done. simpl.
  split_and!; [done|by apply copy_state_contents|by rewrite HR].
Qed.

(** X12. In any state with a snapshot on the undo stack, distinct keys and
    consistent polygons, [undo] followed by [redo] both return [True] and
    bring the contents back, update flags aside; the redo stack is as
    before and the undo stack has its length again. *)
Theorem redo_after_undo st :
  Canvas2DPlotData._undo_stack st ≠ [] →
  NoDup (Canvas2DPlotData._plots st).*1 →
  Forall (λ kv, Contents.plot_consistent kv.2) (Canvas2DPlotData._plots st) →
  let u := Canvas2DPlotData.undo st in
  let r := Canvas2DPlotData.redo u.2 in
  u.1 = true ∧ r.1 = true
  ∧ Contents.contents (Canvas2DPlotData._plots r.2)
    = Contents.contents (Canvas2DPlotData._plots st)
  ∧ Canvas2DPlotData._redo_stack r.2 = Canvas2DPlotData._redo_stack st
  ∧ length (Canvas2DPlotData._undo_stack r.2)
    = length (Canvas2DPlotData._undo_stack st).
Proof.
  intros HU Hnd Hall u r. subst u r.
  destruct (undo_nonempty st HU) as (prev & _ & ->). simpl.
  unfold Canvas2DPlotData.redo. simpl. rewrite last_snoc. simpl.
  split_and!; [done|done|by apply copy_state_contents| |].
  - apply removelast_last.
  - rewrite length_app, length_removelast. simpl.
    destruct (Canvas2DPlotData._undo_stack st); [done|simpl; lia].
Qed.
End undo_steps.

(** ** What the view model keeps *)

Section editor_invariant.
Context {num : Type} `{Number num}.
Implicit Types pd : Canvas2DPlotData.t num.
Implicit Types plots : dict (Base2DPlotData.t num).
Implicit Types p : Base2DPlotData.t num.

Lemma Forall_sublist_of {A} (P : A → Prop) (l1 l2 : list A) :
  l1 `sublist_of` l2 → Forall P l2 → Forall P l1.
Proof.
  intros Hsub%sublist_subseteq. rewrite !Forall_forall. intros Hl2 x Hx.
  by apply Hl2, Hsub.
Qed.






























Section calls.
Context `{Arithmetic num}.



End calls.
End editor_invariant.

(** ** Edits of the view model and undo *)

Section editor_undo.
Context {num : Type} `{Number num}.
Implicit Types self : Canvas2DQViewModel.t num.
Implicit Types pd : Canvas2DPlotData.t num.

Lemma mutated_stacks pd (k : string) (p : Base2DPlotData.t num) :
  Canvas2DPlotData._undo_stack (Canvas2DQViewModel.mutated pd k p)
  = Canvas2DPlotData._undo_stack pd
  ∧ Canvas2DPlotData._redo_stack (Canvas2DQViewModel.mutated pd k p)
    = Canvas2DPlotData._redo_stack pd.
Proof.
  unfold Canvas2DQViewModel.mutated. by destruct (list_find _ _) as [[i kv]|].
Qed.

(** One call of [undo] after a call that took a snapshot of [pd] and then
    changed plots only. *)
Lemma undo_restores_contents pd pd' :
  Canvas2DPlotData._undo_stack pd'
  = Canvas2DPlotData._undo_stack (Canvas2DPlotData._save_state_for_undo pd) →
  NoDup (Canvas2DPlotData._plots pd).*1 →
  Forall (λ kv, Contents.plot_consistent kv.2) (Canvas2DPlotData._plots pd) →
  Contents.contents (Canvas2DPlotData._plots (Canvas2DPlotData.undo pd').2)
  = Contents.contents (Canvas2DPlotData._plots pd).
Proof.
  intros HU Hnd Hall. rewrite (undo_after_snapshot pd) by done. simpl.
  by apply copy_state_contents.
Qed.

(** The undo stack after [add_point] on an existing plot is the one a
    snapshot of the store left. *)
Lemma add_point_existing_stack self (x y : num) (uuid1 uuid2 : string) :
  EditorTrace.adds_to_existing self →
  Canvas2DPlotData._undo_stack
    (Canvas2DQViewModel._plot_data
       (Canvas2DQViewModel.add_point self x y uuid1 uuid2))
  = Canvas2DPlotData._undo_stack
      (Canvas2DPlotData._save_state_for_undo (Canvas2DQViewModel._plot_data self)).
Proof.
  unfold EditorTrace.adds_to_existing, Canvas2DQViewModel.add_point.
  destruct (Canvas2DQViewModel._current_plot_type self).
  - done.
  - intros (current & pl & -> & ->). simpl. apply mutated_stacks.
  - intros (current & pg & -> & ->). simpl. apply mutated_stacks.
Qed.

(** X16. When [add_point] works in point mode, or on the current polyline
    or polygon that is in the store, one [undo] brings the contents back to
    what they were before the point was added (distinct keys, consistent
    polygons, update flags aside). *)
Theorem add_point_then_undo self (x y : num) (uuid1 uuid2 : string) :
  EditorTrace.adds_to_existing self →
  NoDup (Canvas2DPlotData._plots (Canvas2DQViewModel.plot_data self)).*1 →
  Forall (λ kv, Contents.plot_consistent kv.2)
    (Canvas2DPlotData._plots (Canvas2DQViewModel.plot_data self)) →
  let self' :=
    Canvas2DQViewModel.undo (Canvas2DQViewModel.add_point self x y uuid1 uuid2) in
  Contents.contents (Canvas2DPlotData._plots (Canvas2DQViewModel.plot_data self'))
  = Contents.contents (Canvas2DPlotData._plots (Canvas2DQViewModel.plot_data self)).
Proof.
  intros Hex Hnd Hall self'. subst self'.
  unfold Canvas2DQViewModel.undo, Canvas2DQViewModel.plot_data. simpl.
  apply undo_restores_contents; [|done|done].
  by apply add_point_existing_stack.
Qed.
Section delete.
Context `{Arithmetic num}.

(** A hit in the loop takes exactly one snapshot, of the store as it was. *)
Lemma delete_point_near_loop_stack (x y threshold : num)
    (plots : list (Base2DPlotData.t num)) :
  ∀ pd (j : nat) pd',
    (∀ p, p ∈ plots →
          Base2DPlotData.id p ∈ (Canvas2DPlotData._plots pd).*1) →
    Canvas2DQViewModel.delete_point_near_loop pd x y threshold j plots
      = Some (true, pd') →
    Canvas2DPlotData._undo_stack pd'
    = Canvas2DPlotData._undo_stack (Canvas2DPlotData._save_state_for_undo pd).
Proof.
  induction plots as [|p plots IH]; intros pd j pd' Hkeys; simpl; [done|].
  assert (∀ q, q ∈ plots →
               Base2DPlotData.id q ∈ (Canvas2DPlotData._plots pd).*1) as Hrest.
  { intros q Hq. apply Hkeys. by apply list_elem_of_further. }
  destruct p as [pt|pl|pg].
  - destruct (Canvas2DQViewModel.hit _ _ _ _) as [[|]|];
      [|by apply IH|done].
    intros [= <-]. unfold Canvas2DPlotData.remove_plot.
    assert (dict_contains (PointData2D.id pt) (Canvas2DPlotData._plots pd)
            = true) as ->; [|done].
    apply dict_contains_true.
    apply (Hkeys (Base2DPlotData.Point pt)), list_elem_of_here.
  - destruct (Canvas2DQViewModel.first_hit _ _ _ _) as [[point|]|];
      [by intros [= <-]|by apply IH|done].
  - destruct (Canvas2DQViewModel.first_hit _ _ _ _) as [[point|]|];
      [by intros [= <-]|by apply IH|done].
Qed.

(** X19. When [delete_point_near] returns [True] on a store with distinct
    keys, every plot under its own id and consistent polygons, one [undo]
    brings the contents back to what they were before the deletion, update
    flags aside. *)
Theorem delete_point_near_then_undo self (x y threshold : num) self1 :
  let pd := Canvas2DQViewModel.plot_data self in
  Canvas2DQViewModel.delete_point_near self x y threshold
    = Some (true, self1) →
  NoDup (Canvas2DPlotData._plots pd).*1 →
  Forall (λ kv, Base2DPlotData.id kv.2 = kv.1) (Canvas2DPlotData._plots pd) →
  Forall (λ kv, Contents.plot_consistent kv.2) (Canvas2DPlotData._plots pd) →
  let self' := Canvas2DQViewModel.undo self1 in
  Contents.contents (Canvas2DPlotData._plots (Canvas2DQViewModel.plot_data self'))
  = Contents.contents (Canvas2DPlotData._plots pd).
Proof.
  intros pd Hhit Hnd Hids Hall self'. subst self' pd.
  unfold Canvas2DQViewModel.undo, Canvas2DQViewModel.plot_data,
    Canvas2DQViewModel.delete_point_near in *.
  destruct (Canvas2DQViewModel.delete_point_near_loop _ _ _ _ _ _)
    as [[b pd']|] eqn:Hloop; [|done].
  simpl in Hhit. injection Hhit as -> <-. simpl.
  apply undo_restores_contents; [|done|done].
  eapply delete_point_near_loop_stack; [|done].
  intros p Hp. unfold Canvas2DPlotData.get_all_plots, dict_values in Hp.
  apply list_elem_of_fmap in Hp as ([k v] & -> & Hin).
  rewrite Forall_forall in Hids. rewrite (Hids _ Hin). simpl.
  apply list_elem_of_fmap. by exists (k, v).
Qed.
End delete.

(** The lookup after the in-place change of the plot stored under [k]. *)
Lemma dict_get_mutated (l : dict (Base2DPlotData.t num)) (k k' : string)
    (p : Base2DPlotData.t num) :
  dict_get k'
    (match list_find (λ kv, kv.1 = k) l with
     | Some (i, _) => alter (λ kv, (kv.1, p)) i l
     | None => l
     end)
  = if decide (k' = k) then (λ _, p) <$> dict_get k l else dict_get k' l.
Proof.
  induction l as [|[k0 v0] l IH].
  - simpl. by destruct (decide (k' = k)).
  - rewrite (dict_get_cons k k0), (dict_get_cons k' k0).
    change (list_find (λ kv, kv.1 = k) ((k0, v0) :: l))
      with (if decide (k0 = k) then Some (0, (k0, v0))
            else prod_map S id <$> list_find (λ kv, kv.1 = k) l).
    destruct (decide (k0 = k)) as [->|Hne].
    + simpl. rewrite dict_get_cons. simpl.
      destruct (decide (k' = k)) as [->|?].
      * by rewrite decide_True.
      * rewrite !decide_False by congruence. done.
    + destruct (list_find _ l) as [[i kv]|]; simpl in *.
      * change (list_alter ?f i l) with (alter f i l).
        rewrite dict_get_cons, IH.
        destruct (decide (k0 = k')) as [->|?]; [|done].
        by rewrite decide_False.
      * rewrite dict_get_cons.
        destruct (decide (k' = k)) as [->|?]; [|done].
        by rewrite decide_False.
Qed.

Lemma get_plot_mutated pd (k k' : string) (p : Base2DPlotData.t num) :
  Canvas2DPlotData.get_plot (Canvas2DQViewModel.mutated pd k p) k'
  = if decide (k' = k) then (λ _, p) <$> Canvas2DPlotData.get_plot pd k
    else Canvas2DPlotData.get_plot pd k'.
Proof.
  unfold Canvas2DPlotData.get_plot, Canvas2DQViewModel.mutated.
  rewrite <-dict_get_mutated.
  by destruct (list_find _ _) as [[i kv]|].
Qed.
(** [add_point] when there is no current plot, in polyline or polygon
    mode: the new shape goes through [add_plot], a second snapshot is taken
    and the point is put in the shape. *)
Lemma add_point_new self (x y : num) (uuid1 uuid2 : string) :
  Canvas2DQViewModel._current_plot_type self ≠ POINT →
  Canvas2DQViewModel._current_plot_id self = None →
  let shape := EditorTrace.new_shape
                 (Canvas2DQViewModel._current_plot_type self) uuid1 in
  let point := PointData2D.init ("point_" +:+ uuid2) x y
                 (Base2DPlotData.color shape) true true in
  Canvas2DQViewModel.add_point self x y uuid1 uuid2
  = Canvas2DQViewModel.mk
      (Canvas2DQViewModel.mutated
         (Canvas2DPlotData.save_state_for_undo
            (Canvas2DPlotData.add_plot (Canvas2DQViewModel._plot_data self)
               shape))
         (Base2DPlotData.id shape) (EditorTrace.with_point shape point))
      (Canvas2DQViewModel._current_plot_type self)
      (Some (Base2DPlotData.id shape)).
Proof.
  intros Htype Hcur shape point. subst shape point.
  unfold Canvas2DQViewModel.add_point. rewrite Hcur.
  destruct (Canvas2DQViewModel._current_plot_type self); [done| |].
  - cbn zeta. cbn [Canvas2DQViewModel._plot_data].
    unfold Canvas2DPlotData.get_plot at 1, Canvas2DPlotData.add_plot at 1.
    cbn [Canvas2DPlotData._plots]. rewrite dict_get_set.
    rewrite decide_True by done. done.
  - cbn zeta. cbn [Canvas2DQViewModel._plot_data].
    unfold Canvas2DPlotData.get_plot at 1, Canvas2DPlotData.add_plot at 1.
    cbn [Canvas2DPlotData._plots]. rewrite dict_get_set.
    rewrite decide_True by done. done.
Qed.

(** Two snapshots in a row: the older one is under the newer one. *)
Lemma save_state_twice_last pd pd1 :
  Canvas2DPlotData._undo_stack pd1
  = Canvas2DPlotData._undo_stack (Canvas2DPlotData._save_state_for_undo pd) →
  last (removelast
          (Canvas2DPlotData._undo_stack
             (Canvas2DPlotData._save_state_for_undo pd1)))
  = Some (Canvas2DPlotData.copy_state (Canvas2DPlotData._plots pd)).
Proof.
  intros HU1. pose proof (save_state_last pd) as Hlast. rewrite <-HU1 in Hlast.
  apply last_Some in Hlast as [X HX].
  unfold Canvas2DPlotData._save_state_for_undo at 1. simpl. rewrite HX.
  destruct (100 <? _) eqn:Hlen.
  - destruct X as [|x0 X].
    + simpl in Hlen. apply Nat.ltb_lt in Hlen. lia.
    + simpl. rewrite removelast_last. apply last_snoc.
  - rewrite removelast_last. apply last_snoc.
Qed.

Lemma new_shape_id (type : PlotData2D) (uuid : string) :
  Base2DPlotData.id (EditorTrace.new_shape (num:=num) type uuid)
  = match type with
    | POLYGON => "polygon_" +:+ uuid
    | _ => "polyline_" +:+ uuid
    end.
Proof. by destruct type. Qed.

Lemma new_shape_consistent (type : PlotData2D) (uuid : string) :
  Contents.plot_consistent (EditorTrace.new_shape (num:=num) type uuid).
Proof. by destruct type. Qed.

(** The store after the new shape got its first point and [undo] was
    called twice. *)
Lemma add_point_new_two_undos self (x y : num) (uuid1 uuid2 : string) :
  Canvas2DQViewModel._current_plot_type self ≠ POINT →
  Canvas2DQViewModel._current_plot_id self = None →
  let self3 :=
    Canvas2DQViewModel.undo
      (Canvas2DQViewModel.undo
         (Canvas2DQViewModel.add_point self x y uuid1 uuid2)) in
  Canvas2DPlotData._plots (Canvas2DQViewModel._plot_data self3)
  = Canvas2DPlotData.set_all_update true
      (Canvas2DPlotData.copy_state
         (Canvas2DPlotData._plots (Canvas2DQViewModel._plot_data self)))
  ∧ Canvas2DQViewModel._current_plot_type self3
    = Canvas2DQViewModel._current_plot_type self
  ∧ Canvas2DQViewModel._current_plot_id self3
    = Some (Base2DPlotData.id
              (EditorTrace.new_shape (num:=num)
                 (Canvas2DQViewModel._current_plot_type self) uuid1)).
Proof.
  intros Htype Hcur self3. subst self3.
  rewrite add_point_new by done.
  unfold Canvas2DQViewModel.undo. simpl.
  match goal with
  | |- context [Canvas2DQViewModel.mutated (Canvas2DPlotData.save_state_for_undo ?a) ?k ?p] =>
      set (pd1 := a); set (pd2 := Canvas2DQViewModel.mutated
                                    (Canvas2DPlotData.save_state_for_undo pd1) k p)
  end.
  assert (Canvas2DPlotData._undo_stack pd2
          = Canvas2DPlotData._undo_stack
              (Canvas2DPlotData._save_state_for_undo pd1)) as HU2.
  { apply mutated_stacks. }
  split_and!; [|done|done].
  rewrite (undo_after_snapshot pd1 pd2) by done. simpl.
  unfold Canvas2DPlotData.undo at 1. simpl.
  by rewrite HU2, (save_state_twice_last (Canvas2DQViewModel._plot_data self)).
Qed.

Lemma keys_restored (plots : dict (Base2DPlotData.t num)) :
  NoDup plots.*1 →
  (Canvas2DPlotData.set_all_update true (Canvas2DPlotData.copy_state plots)).*1
  = plots.*1.
Proof.
  intros Hnd. rewrite copy_state_fmap by done.
  unfold Canvas2DPlotData.set_all_update.
  rewrite <-!list_fmap_compose. by apply list_fmap_ext.
Qed.

(** X17. [add_point] in polyline or polygon mode with no current plot
    makes a new shape that holds the one new point and becomes the current
    plot.  It takes two snapshots: one [undo] leaves the new shape, empty,
    in the store, and a second [undo] brings the contents back to what they
    were before the call. *)
Theorem add_point_new_shape_two_undos self (x y : num) (uuid1 uuid2 : string) :
  Canvas2DQViewModel._current_plot_type self ≠ POINT →
  Canvas2DQViewModel._current_plot_id self = None →
  let pd := Canvas2DQViewModel.plot_data self in
  NoDup (Canvas2DPlotData._plots pd).*1 →
  Forall (λ kv, Contents.plot_consistent kv.2) (Canvas2DPlotData._plots pd) →
  let shape := EditorTrace.new_shape
                 (Canvas2DQViewModel._current_plot_type self) uuid1 in
  let point := PointData2D.init ("point_" +:+ uuid2) x y
                 (Base2DPlotData.color shape) true true in
  let self1 := Canvas2DQViewModel.add_point self x y uuid1 uuid2 in
  let self2 := Canvas2DQViewModel.undo self1 in
  let self3 := Canvas2DQViewModel.undo self2 in
  Canvas2DQViewModel._current_plot_id self1 = Some (Base2DPlotData.id shape)
  ∧ Canvas2DPlotData.get_plot (Canvas2DQViewModel.plot_data self1)
      (Base2DPlotData.id shape)
    = Some (EditorTrace.with_point shape point)
  ∧ Base2DPlotData.points (EditorTrace.with_point shape point) = [point]
  ∧ Contents.contents
      (Canvas2DPlotData._plots (Canvas2DQViewModel.plot_data self2))
    = Contents.contents
        (Canvas2DPlotData._plots (Canvas2DPlotData.add_plot pd shape))
  ∧ Contents.contents
      (Canvas2DPlotData._plots (Canvas2DQViewModel.plot_data self3))
    = Contents.contents (Canvas2DPlotData._plots pd).
Proof.
  intros Htype Hcur pd Hnd Hall shape point self1 self2 self3.
  subst self3 self2 self1.
  rewrite add_point_new by done. fold shape point.
  unfold Canvas2DQViewModel.undo, Canvas2DQViewModel.plot_data. simpl.
  set (pd1 := Canvas2DPlotData.add_plot (Canvas2DQViewModel._plot_data self)
                shape).
  set (pd2 := Canvas2DQViewModel.mutated
                (Canvas2DPlotData.save_state_for_undo pd1)
                (Base2DPlotData.id shape)
                (EditorTrace.with_point shape point)).
  assert (Canvas2DPlotData._undo_stack pd2
          = Canvas2DPlotData._undo_stack
              (Canvas2DPlotData._save_state_for_undo pd1)) as HU2.
  { apply mutated_stacks. }
  split_and!.
  - done.
  - subst pd2. rewrite get_plot_mutated, decide_True by done.
    unfold Canvas2DPlotData.get_plot, Canvas2DPlotData.save_state_for_undo.
    simpl. by rewrite dict_get_set, decide_True.
  - subst shape. by destruct (Canvas2DQViewModel._current_plot_type self).
  - apply (undo_restores_contents pd1 pd2); [done| |].
    + subst pd1. simpl. by apply dict_set_keys.
    + subst pd1. simpl.
      apply Forall_forall. intros [k v] Hin.
      assert (v ∈ (dict_set (Base2DPlotData.id shape)
                     (Base2DPlotData.set_update shape true)
                     (Canvas2DPlotData._plots
                        (Canvas2DQViewModel._plot_data self))).*2) as Hv.
      { apply list_elem_of_fmap. by exists (k, v). }
      apply dict_set_values in Hv as [->|Hv].
      * subst shape. by destruct (Canvas2DQViewModel._current_plot_type self).
      * apply list_elem_of_fmap in Hv as ([k' v'] & -> & Hin').
        rewrite Forall_forall in Hall. apply (Hall _ Hin').
  - rewrite (undo_after_snapshot pd1 pd2) by done. simpl.
    unfold Canvas2DPlotData.undo at 1. simpl.
    rewrite HU2, (save_state_twice_last (Canvas2DQViewModel._plot_data self))
      by done.
    simpl. by apply copy_state_contents.
Qed.
(** X18. After [add_point] has made a new shape under a new id and [undo]
    was called twice, the view model still names that shape as its current
    plot while the store does not hold it, and every further [add_point]
    leaves the view model as it is: the point is dropped. *)
Theorem add_point_after_shape_undone self (x y : num) (uuid1 uuid2 : string) :
  Canvas2DQViewModel._current_plot_type self ≠ POINT →
  Canvas2DQViewModel._current_plot_id self = None →
  let pd := Canvas2DQViewModel.plot_data self in
  let shape := EditorTrace.new_shape (num:=num)
                 (Canvas2DQViewModel._current_plot_type self) uuid1 in
  NoDup (Canvas2DPlotData._plots pd).*1 →
  Canvas2DPlotData.get_plot pd (Base2DPlotData.id shape) = None →
  let self3 :=
    Canvas2DQViewModel.undo
      (Canvas2DQViewModel.undo
         (Canvas2DQViewModel.add_point self x y uuid1 uuid2)) in
  Canvas2DQViewModel._current_plot_id self3 = Some (Base2DPlotData.id shape)
  ∧ Canvas2DPlotData.get_plot (Canvas2DQViewModel.plot_data self3)
      (Base2DPlotData.id shape) = None
  ∧ (∀ (x' y' : num) (uuid1' uuid2' : string),
       Canvas2DQViewModel.add_point self3 x' y' uuid1' uuid2' = self3).
Proof.
  intros Htype Hcur pd shape Hnd Hfresh self3.
  destruct (add_point_new_two_undos self x y uuid1 uuid2 Htype Hcur)
    as (Hplots & Htype3 & Hcur3).
  fold self3 shape in Hplots, Htype3, Hcur3.
  assert (Canvas2DPlotData.get_plot (Canvas2DQViewModel.plot_data self3)
            (Base2DPlotData.id shape) = None) as Hgone.
  { unfold Canvas2DPlotData.get_plot, Canvas2DQViewModel.plot_data.
    rewrite Hplots. apply dict_get_None. rewrite keys_restored by done.
    by apply dict_get_None. }
  split_and!; [done|done|].
  intros x' y' uuid1' uuid2'. unfold Canvas2DQViewModel.add_point.
  rewrite Htype3, Hcur3.
  unfold Canvas2DQViewModel.plot_data in Hgone.
  destruct (Canvas2DQViewModel._current_plot_type self); [done| |];
    by rewrite Hgone.
Qed.
End editor_undo.

(** ** The rings of the runner *)

Section extraction.
Context {num : Type} `{Number num} `{!Identity num}.
Implicit Types p : Base2DPlotData.t num.

Lemma length_strip_closing (l : list (list num)) :
  length l - 1 ≤ length (GaDPPRunnerQWidget.strip_closing l) ≤ length l.
Proof.
  unfold GaDPPRunnerQWidget.strip_closing.
  destruct (head l); [|lia]. destruct (last l); [|lia].
  destruct (GaDPPRunnerQWidget.pylist_eqb _ _); [|lia].
  rewrite length_removelast. lia.
Qed.

Lemma ring_nonempty p :
  3 ≤ length (Base2DPlotData.points p) → 2 ≤ length (Rings.ring p).
Proof.
  intros Hlen. unfold Rings.ring.
  pose proof (length_strip_closing
                (GaDPPRunnerQWidget.coordinates (Base2DPlotData.points p))) as Hs.
  unfold GaDPPRunnerQWidget.coordinates in *. rewrite length_fmap in Hs. lia.
Qed.

Lemma extract_boundary_loop_filter (plots : list (Base2DPlotData.t num)) :
  GaDPPRunnerQWidget._extract_boundary_loop plots
  = match filter (λ p, Base2DPlotData.type p = POLYGON
                       ∧ 3 ≤ length (Base2DPlotData.points p)) plots with
    | [] => []
    | p :: _ => Rings.ring p
    end.
Proof.
  induction plots as [|p plots IH]; [done|].
  destruct p as [pt|pl|pg].
  - rewrite filter_cons_False by (by intros [? _]). done.
  - rewrite filter_cons_False by (by intros [? _]). done.
  - simpl. destruct (Nat.leb_spec 3 (length (PolygonData2D.points pg))).
    + by rewrite filter_cons_True.
    + rewrite filter_cons_False by (intros [_ ?]; simpl in *; lia). done.
Qed.

Lemma extract_obstacles_loop_filter (polygons : list (Base2DPlotData.t num))
    (obstacles : list (list (list num))) :
  GaDPPRunnerQWidget._extract_obstacles_loop obstacles polygons
  = obstacles
    ++ (Rings.ring
        <$> filter (λ p, 3 ≤ length (Base2DPlotData.points p)) polygons).
Proof.
  revert obstacles. induction polygons as [|p polygons IH]; intros obstacles.
  - simpl. by rewrite app_nil_r.
  - simpl.
    destruct (Nat.leb_spec 3 (length (Base2DPlotData.points p))) as [Hlen|Hlen].
    + rewrite filter_cons_True by done.
      pose proof (ring_nonempty p Hlen) as Hring. unfold Rings.ring in *.
      destruct (GaDPPRunnerQWidget.strip_closing _) as [|pair ring] eqn:Hs;
        [simpl in Hring; lia|].
      rewrite IH, fmap_cons, Hs.
      by rewrite <-app_assoc.
    + rewrite filter_cons_False by lia. apply IH.
Qed.

(** X20. [_extract_boundary] returns the ring of the first polygon of
    three points or more, and the empty list when there is none.
    [_extract_obstacles] leaves out the first polygon of the store, whatever
    its size, and returns the rings of the polygons of three points or more
    among the others, or [None] when there are none. *)
Theorem extraction_by_filter (self : Canvas2DQViewModel.t num) :
  GaDPPRunnerQWidget._extract_boundary self
  = match filter (λ p, 3 ≤ length (Base2DPlotData.points p))
            (Rings.polygons self) with
    | [] => []
    | p :: _ => Rings.ring p
    end
  ∧ GaDPPRunnerQWidget._extract_obstacles self
    = match Rings.ring
            <$> filter (λ p, 3 ≤ length (Base2DPlotData.points p))
                  (drop 1 (Rings.polygons self)) with
      | [] => None
      | obstacles => Some obstacles
      end.
Proof.
  split.
  - unfold GaDPPRunnerQWidget._extract_boundary.
    rewrite extract_boundary_loop_filter. unfold Rings.polygons.
    rewrite list_filter_filter.
    erewrite list_filter_iff; [done|]. intros p. simpl. tauto.
  - unfold GaDPPRunnerQWidget._extract_obstacles. fold (Rings.polygons self).
    destruct (Nat.ltb_spec 1 (length (Rings.polygons self))) as [Hlen|Hlen].
    + rewrite extract_obstacles_loop_filter. simpl.
      by destruct (Rings.ring <$> _).
    + destruct (Rings.polygons self) as [|p0 [|p1 rest]]; simpl in *;
        [done|done|lia].
Qed.
Lemma length_coordinates (pts : list (PointData2D.t num)) :
  length (GaDPPRunnerQWidget.coordinates pts) = length pts.
Proof. unfold GaDPPRunnerQWidget.coordinates. apply length_fmap. Qed.

Lemma strip_closing_sublist (l : list (list num)) :
  GaDPPRunnerQWidget.strip_closing l `sublist_of` l.
Proof.
  unfold GaDPPRunnerQWidget.strip_closing.
  destruct (head l); [|done]. destruct (last l); [|done].
  destruct (GaDPPRunnerQWidget.pylist_eqb _ _); [|done].
  rewrite removelast_firstn_len. apply sublist_take.
Qed.

(** X21. [_extract_boundary] is empty exactly when no polygon of the store
    has three points or more; when it is not empty it has two pairs or
    more, each made of two numbers. *)
Theorem extract_boundary_empty (self : Canvas2DQViewModel.t num) :
  let boundary := GaDPPRunnerQWidget._extract_boundary self in
  (boundary = [] ↔
     Forall (λ p, Base2DPlotData.type p = POLYGON →
                  length (Base2DPlotData.points p) < 3)
       (Canvas2DPlotData.get_all_plots (Canvas2DQViewModel.plot_data self)))
  ∧ (boundary ≠ [] →
     2 ≤ length boundary ∧ Forall (λ pair, length pair = 2) boundary).
Proof.
  intros boundary. subst boundary.
  unfold GaDPPRunnerQWidget._extract_boundary.
  rewrite extract_boundary_loop_filter.
  generalize (Canvas2DPlotData.get_all_plots
                (Canvas2DQViewModel.plot_data self)).
  intros plots.
  destruct (filter _ plots) as [|p rest] eqn:Hf.
  - split; [|done]. split; [|done]. intros _.
    apply Forall_forall. intros p Hp Htype.
    destruct (decide (3 ≤ length (Base2DPlotData.points p))) as [Hlen|]; [|lia].
    assert (p ∈ filter (λ p, Base2DPlotData.type p = POLYGON
                             ∧ 3 ≤ length (Base2DPlotData.points p)) plots)
      as Hin by (by apply list_elem_of_filter).
    rewrite Hf in Hin. by apply elem_of_nil in Hin.
  - assert (p ∈ filter (λ p, Base2DPlotData.type p = POLYGON
                             ∧ 3 ≤ length (Base2DPlotData.points p)) plots)
      as [[Htype Hlen] Hin]%list_elem_of_filter
      by (rewrite Hf; apply list_elem_of_here).
    pose proof (ring_nonempty p Hlen) as Hring.
    split.
    + split.
      * intros Hnil. rewrite Hnil in Hring. simpl in Hring. lia.
      * intros Hall. rewrite Forall_forall in Hall.
        specialize (Hall p Hin Htype). lia.
    + intros _. split; [done|].
      eapply Forall_sublist_of; [apply strip_closing_sublist|].
      unfold GaDPPRunnerQWidget.coordinates. apply Forall_fmap.
      by apply Forall_true.
Qed.

Lemma removelast_fmap {A B} (f : A → B) (l : list A) :
  removelast (f <$> l) = f <$> removelast l.
Proof.
  induction l as [|x [|y l] IH]; [done|done|].
  change (f x :: removelast (f <$> y :: l) = f x :: (f <$> removelast (y :: l))).
  by rewrite IH.
Qed.

(** X22. A list that ends in the closing point of its first point has that
    point stripped from its coordinates: the closing point holds the two
    coordinate objects of the first point, which [==] on lists takes as
    equal, also when they are NaN.  The last point is stripped as well when
    its coordinates are [==] to those of the first point.  A list is
    returned whole when a coordinate of its last point is neither the same
    object as that of the first point nor [==] to it. *)
Theorem strip_closing_of_ring (pts : list (PointData2D.t num))
    (f l : PointData2D.t num) :
  head pts = Some f →
  last pts = Some l →
  (l = PolygonData2D.closing_point f →
   GaDPPRunnerQWidget.strip_closing (GaDPPRunnerQWidget.coordinates pts)
   = GaDPPRunnerQWidget.coordinates (removelast pts))
  ∧ (num_eqb (PointData2D.x f) (PointData2D.x l) = true →
     num_eqb (PointData2D.y f) (PointData2D.y l) = true →
     GaDPPRunnerQWidget.strip_closing (GaDPPRunnerQWidget.coordinates pts)
     = GaDPPRunnerQWidget.coordinates (removelast pts))
  ∧ (num_same (PointData2D.x f) (PointData2D.x l)
     && num_same (PointData2D.y f) (PointData2D.y l) = false →
     GaDPPRunnerQWidget.strip_closing (GaDPPRunnerQWidget.coordinates pts)
     = GaDPPRunnerQWidget.coordinates pts).
Proof.
  intros Hf Hl. unfold GaDPPRunnerQWidget.strip_closing,
    GaDPPRunnerQWidget.coordinates.
  rewrite head_fmap, last_fmap, Hf, Hl. simpl. split_and!.
  - intros ->. simpl. rewrite !num_same_refl. simpl. apply removelast_fmap.
  - intros Hx%num_eqb_same Hy%num_eqb_same. rewrite Hx, Hy. simpl.
    apply removelast_fmap.
  - intros Hd.
    destruct (num_same (PointData2D.x f) (PointData2D.x l)); simpl in *;
      [|done].
    by rewrite Hd.
Qed.
End extraction.

Section point_mode.
Context {num : Type} `{Number num}.

(** X15. In point mode [add_point] stores a point plot of its own under
    the id [point_] followed by the uuid, red and deletable, at the end of
    the store when the id is new; the other plots and the current plot stay
    as they are. *)
Theorem add_point_point_mode (self : Canvas2DQViewModel.t num) (x y : num)
    (uuid1 uuid2 : string) :
  Canvas2DQViewModel._current_plot_type self = POINT →
  let self' := Canvas2DQViewModel.add_point self x y uuid1 uuid2 in
  let pd := Canvas2DQViewModel.plot_data self in
  let pd' := Canvas2DQViewModel.plot_data self' in
  let point := PointData2D.init ("point_" +:+ uuid1) x y "r" true true in
  (∀ plot_id,
     Canvas2DPlotData.get_plot pd' plot_id
     = if decide (plot_id = "point_" +:+ uuid1)
       then Some (Base2DPlotData.Point point)
       else Canvas2DPlotData.get_plot pd plot_id)
  ∧ (Canvas2DPlotData.get_plot pd ("point_" +:+ uuid1) = None →
     Canvas2DPlotData.get_all_plots pd'
     = Canvas2DPlotData.get_all_plots pd ++ [Base2DPlotData.Point point])
  ∧ Canvas2DQViewModel._current_plot_id self'
    = Canvas2DQViewModel._current_plot_id self
  ∧ Canvas2DQViewModel._current_plot_type self' = POINT.
Proof.
  intros Htype self' pd pd' point. subst self' pd pd' point.
  unfold Canvas2DQViewModel.add_point. rewrite Htype.
  unfold Canvas2DQViewModel.plot_data. simpl. split_and!; [| |done|done].
  - intros plot_id. unfold Canvas2DPlotData.get_plot. simpl.
    apply dict_get_set.
  - intros Hfresh. unfold Canvas2DPlotData.get_plot in Hfresh.
    apply dict_get_None, dict_contains_false in Hfresh.
    unfold Canvas2DPlotData.get_all_plots, dict_values. simpl.
    rewrite dict_set_absent by done. by rewrite fmap_app.
Qed.
End point_mode.

(** ** Concrete runs of the further properties *)

Lemma three_plots_consistent :
  Forall (λ kv, Contents.plot_consistent kv.2)
    (Canvas2DPlotData._plots MoreExamples.three_plots).
Proof.
  unfold MoreExamples.three_plots, StoreTrace.run. simpl.
  repeat apply Forall_cons_2; try apply Forall_nil_2; try exact I.
  split; [reflexivity|]. intros _.
  eexists _, _. split_and!; reflexivity.
Qed.

Lemma three_plots_keys :
  NoDup (Canvas2DPlotData._plots MoreExamples.three_plots).*1.
Proof. by apply (bool_decide_unpack _). Qed.

Lemma three_plots_ids :
  Forall (λ kv, Base2DPlotData.id kv.2 = kv.1)
    (Canvas2DPlotData._plots MoreExamples.three_plots).
Proof.
  unfold MoreExamples.three_plots, StoreTrace.run. simpl.
  repeat apply Forall_cons_2; try apply Forall_nil_2; reflexivity.
Qed.

(** X1, a point removed from the middle of nothing but two points. *)
Lemma polyline_remove_point_first_match_witness :
  PolylineData2D.remove_point MoreExamples.polyline "a"
  = (true, PolylineData2D.mk "polyline_1" "b" true [Examples.point "b" 1 1]).
Proof.
  destruct (polyline_remove_point_first_match (num:=Z) MoreExamples.polyline "a")
    as (_ & _ & Hsplit).
  apply (Hsplit [] (Examples.point "a" 0 0) [Examples.point "b" 1 1]);
    [reflexivity|constructor|reflexivity].
Defined.

(** X3, a third point added and removed. *)
Lemma polyline_add_then_remove_witness :
  PolylineData2D.remove_point
    (PolylineData2D.add_point MoreExamples.polyline (Examples.point "c" 2 2)) "c"
  = (true, PolylineData2D.set_update MoreExamples.polyline true).
Proof.
  apply (polyline_add_then_remove (num:=Z) MoreExamples.polyline
           (Examples.point "c" 2 2)).
  reflexivity.
Defined.

(** X4, an id that is not in the triangle. *)
Lemma polygon_remove_point_result_witness :
  (PolygonData2D.remove_point Examples.triangle "p9").2 = Examples.triangle.
Proof.
  apply (proj2 (polygon_remove_point_result (num:=Z) Examples.triangle "p9")).
  reflexivity.
Defined.

(** X6, the second corner of the triangle removed. *)
Lemma polygon_remove_point_only_removes_witness :
  let r := PolygonData2D.remove_point Examples.triangle "p2" in
  PolygonData2D.points r.2 `sublist_of` PolygonData2D.points Examples.triangle
  ∧ PolygonData2D.get_point_by_id r.2 "p2" = None.
Proof.
  intros r.
  destruct (polygon_remove_point_only_removes (num:=Z) Examples.triangle "p2")
    as (Hsub & _ & Hgone); [reflexivity|].
  split; [exact Hsub|].
  apply Hgone; [by apply (bool_decide_unpack _)|reflexivity].
Defined.

(** X7, a fourth corner looked up after it was added. *)
Lemma polygon_get_point_after_add_witness :
  PolygonData2D.get_point_by_id
    (PolygonData2D.add_point Examples.triangle (Examples.point "p4" 0 1)) "p4"
  = Some (Examples.point "p4" 0 1).
Proof.
  apply (proj1 (polygon_get_point_after_add (num:=Z) Examples.triangle
                  (Examples.point "p4" 0 1))).
  reflexivity.
Defined.

(** X9, a plot that is not in the store. *)
Lemma remove_plot_result_witness :
  (Canvas2DPlotData.remove_plot MoreExamples.three_plots "point_9").2
  = MoreExamples.three_plots.
Proof.
  destruct (remove_plot_result (num:=Z) MoreExamples.three_plots "point_9")
    as (_ & Hsame & _).
  apply Hsame. reflexivity.
Defined.

(** X11, the point plot removed and the removal undone. *)
Lemma undo_after_operation_witness :
  let r := Canvas2DPlotData.undo
             (StoreTrace.step MoreExamples.three_plots
                (StoreTrace.Remove_plot "point_1")) in
  r.1 = true
  ∧ Contents.contents (Canvas2DPlotData._plots r.2)
    = Contents.contents (Canvas2DPlotData._plots MoreExamples.three_plots).
Proof.
  intros r.
  destruct (undo_after_operation (num:=Z) MoreExamples.three_plots
              (StoreTrace.Remove_plot "point_1"))
    as (Htrue & Hsame & _);
    [reflexivity|exact three_plots_keys|exact three_plots_consistent|].
  split; [exact Htrue|exact Hsame].
Defined.

(** X12, the last [add_plot] undone and redone. *)
Lemma redo_after_undo_witness :
  let r := Canvas2DPlotData.redo
             (Canvas2DPlotData.undo MoreExamples.three_plots).2 in
  r.1 = true
  ∧ Contents.contents (Canvas2DPlotData._plots r.2)
    = Contents.contents (Canvas2DPlotData._plots MoreExamples.three_plots).
Proof.
  intros r.
  destruct (redo_after_undo (num:=Z) MoreExamples.three_plots)
    as (_ & Htrue & Hsame & _);
    [discriminate|exact three_plots_keys|exact three_plots_consistent|].
  split; [exact Htrue|exact Hsame].
Defined.

(** X13, three plots added, three undos and three redos. *)
Lemma undo_redo_round_trip_witness :
  let calls :=
    [StoreTrace.Add_plot (Base2DPlotData.Point (Examples.point "point_1" 3 3));
     StoreTrace.Add_plot (Base2DPlotData.Polyline MoreExamples.polyline);
     StoreTrace.Add_plot (Base2DPlotData.Polygon Examples.triangle)] in
  let st := StoreTrace.run Canvas2DPlotData.init calls in
  let u := StoreTrace.undos 3 st in
  let r := StoreTrace.redos 3 u.2 in
  u.1 = [true; true; true]
  ∧ Canvas2DPlotData._plots u.2 = []
  ∧ r.1 = [true; true; true]
  ∧ Contents.contents (Canvas2DPlotData._plots r.2)
    = Contents.contents (Canvas2DPlotData._plots st).
Proof.
  intros calls st u r.
  apply (undo_redo_round_trip (num:=Z) calls);
    [simpl; lia|reflexivity|exact three_plots_consistent].
Defined.

(** X15, a click in point mode. *)
Lemma add_point_point_mode_witness :
  let self' := Canvas2DQViewModel.add_point MoreExamples.point_mode 7%Z 7%Z
                 "0a1b2c3d" "" in
  Canvas2DPlotData.get_plot (Canvas2DQViewModel.plot_data self')
    "point_0a1b2c3d"
  = Some (Base2DPlotData.Point
            (PointData2D.init "point_0a1b2c3d" 7%Z 7%Z "r" true true))
  ∧ length (Canvas2DPlotData.get_all_plots (Canvas2DQViewModel.plot_data self'))
    = 4.
Proof.
  intros self'.
  destruct (add_point_point_mode (num:=Z) MoreExamples.point_mode 7%Z 7%Z
              "0a1b2c3d" "")
    as (Hget & Hend & _); [reflexivity|].
  fold self' in Hget, Hend. split.
  - by rewrite Hget.
  - rewrite Hend by reflexivity. reflexivity.
Defined.

(** X16, a click on the current triangle, undone. *)
Lemma add_point_then_undo_witness :
  let self' :=
    Canvas2DQViewModel.undo
      (Canvas2DQViewModel.add_point MoreExamples.on_triangle 0%Z 1%Z
         "0a1b2c3d" "") in
  Contents.contents (Canvas2DPlotData._plots (Canvas2DQViewModel.plot_data self'))
  = Contents.contents (Canvas2DPlotData._plots MoreExamples.three_plots).
Proof.
  apply (add_point_then_undo (num:=Z) MoreExamples.on_triangle 0%Z 1%Z
           "0a1b2c3d" "").
  - exists "polygon_1", (PolygonData2D.set_update Examples.triangle true).
    split; reflexivity.
  - exact three_plots_keys.
  - exact three_plots_consistent.
Defined.

(** X17, the first click of a new polygon, undone twice. *)
Lemma add_point_new_shape_two_undos_witness :
  let self1 := Canvas2DQViewModel.add_point MoreExamples.fresh_polygon_mode
                 5%Z 5%Z "0a1b2c3d" "4e5f6a7b" in
  let self3 := Canvas2DQViewModel.undo (Canvas2DQViewModel.undo self1) in
  Canvas2DQViewModel._current_plot_id self1 = Some "polygon_0a1b2c3d"
  ∧ Contents.contents
      (Canvas2DPlotData._plots (Canvas2DQViewModel.plot_data self3))
    = Contents.contents (Canvas2DPlotData._plots MoreExamples.three_plots).
Proof.
  intros self1 self3.
  destruct (add_point_new_shape_two_undos (num:=Z)
              MoreExamples.fresh_polygon_mode 5%Z 5%Z "0a1b2c3d" "4e5f6a7b")
    as (Hcur & _ & _ & _ & Hback);
    [discriminate|reflexivity|exact three_plots_keys
    |exact three_plots_consistent|].
  split; [exact Hcur|exact Hback].
Defined.

(** X18, a click after the new polygon was undone away. *)
Lemma add_point_after_shape_undone_witness :
  let self3 :=
    Canvas2DQViewModel.undo
      (Canvas2DQViewModel.undo
         (Canvas2DQViewModel.add_point MoreExamples.fresh_polygon_mode
            5%Z 5%Z "0a1b2c3d" "4e5f6a7b")) in
  Canvas2DQViewModel.add_point self3 6%Z 6%Z "8c9d0e1f" "2a3b4c5d" = self3.
Proof.
  intros self3.
  destruct (add_point_after_shape_undone (num:=Z)
              MoreExamples.fresh_polygon_mode 5%Z 5%Z "0a1b2c3d" "4e5f6a7b")
    as (_ & _ & Hdropped);
    [discriminate|reflexivity|exact three_plots_keys|reflexivity|].
  apply Hdropped.
Defined.

Section hit_undo_runs.
Import PrimFloat.

Lemma drawing_keys :
  NoDup (Canvas2DPlotData._plots
           (Canvas2DQViewModel.plot_data HitExamples.drawing)).*1.
Proof. by apply (bool_decide_unpack _). Qed.

Lemma drawing_ids :
  Forall (λ kv, Base2DPlotData.id kv.2 = kv.1)
    (Canvas2DPlotData._plots
       (Canvas2DQViewModel.plot_data HitExamples.drawing)).
Proof. repeat apply Forall_cons_2; try apply Forall_nil_2; reflexivity. Qed.

Lemma drawing_consistent :
  Forall (λ kv, Contents.plot_consistent kv.2)
    (Canvas2DPlotData._plots
       (Canvas2DQViewModel.plot_data HitExamples.drawing)).
Proof.
  repeat apply Forall_cons_2; try apply Forall_nil_2; try exact I.
  split; [reflexivity|]. intros _.
  eexists _, _. split_and!; reflexivity.
Qed.

(** X19, a click with Ctrl on the corner [p2] of the drawing, undone. *)
Lemma delete_point_near_then_undo_witness :
  ∃ self1,
    Canvas2DQViewModel.delete_point_near HitExamples.drawing
      3%float 4%float 1%float = Some (true, self1)
    ∧ PointData2D.id
      <$> HitTest.store_points (Canvas2DQViewModel.plot_data self1)
      = ["point_1"; "p1"; "p3"; "p1_close"]
    ∧ Contents.contents
        (Canvas2DPlotData._plots
           (Canvas2DQViewModel.plot_data (Canvas2DQViewModel.undo self1)))
      = Contents.contents
          (Canvas2DPlotData._plots
             (Canvas2DQViewModel.plot_data HitExamples.drawing)).
Proof.
  eexists. split; [reflexivity|]. split; [reflexivity|].
  apply (delete_point_near_then_undo HitExamples.drawing
           3%float 4%float 1%float);
    [reflexivity|exact drawing_keys|exact drawing_ids
    |exact drawing_consistent].
Defined.
End hit_undo_runs.

(** X21, the boundary of the store of the two polygons. *)
Lemma extract_boundary_empty_witness :
  2 ≤ length (GaDPPRunnerQWidget._extract_boundary Examples.two_polygons).
Proof.
  apply (proj2 (extract_boundary_empty (num:=Z) Examples.two_polygons)).
  discriminate.
Defined.

(** X22, the triangle whose first corner has NaN for its [x]: the [x] of
    the closing point is the same object, and the pair is stripped although
    [x != x] holds of it. *)
Lemma strip_closing_of_ring_witness :
  let pts := PolygonData2D.points NanExamples.triangle in
  PointData2D.id <$> pts = ["p1"; "p2"; "p3"; "p1_close"]
  ∧ (∀ f, head pts = Some f →
          num_neb (PointData2D.x f) (PointData2D.x f) = true)
  ∧ GaDPPRunnerQWidget.strip_closing (GaDPPRunnerQWidget.coordinates pts)
    = GaDPPRunnerQWidget.coordinates (take 3 pts).
Proof.
  intros pts. split; [reflexivity|]. split; [by intros f [= <-]|].
  destruct (strip_closing_of_ring pts
              (NanExamples.point "p1" (FloatObject.mk 1 PrimFloat.nan)
                 (FloatObject.mk 2 PrimFloat.zero))
              (PolygonData2D.closing_point
                 (NanExamples.point "p1" (FloatObject.mk 1 PrimFloat.nan)
                    (FloatObject.mk 2 PrimFloat.zero))))
    as [Hstrip _]; [reflexivity|reflexivity|].
  rewrite Hstrip by reflexivity. reflexivity.
Defined.
